(** * Relative-binning likelihood (bilby/gw/likelihood/relative.py)

    A shallow embedding of [RelativeBinningGravitationalWaveTransient] and
    the properties its specification states.

    Conventions of the embedding.
    - A Python/NumPy float is an ideal real number ([R]); a complex number is
      a pair of reals ([C]).  Rounding is not modelled.  Division is the total
      division of [R] ([x / 0 = 0]); every statement whose floating-point
      reading would divide by zero carries the non-zero side condition in its
      hypotheses.
    - A NumPy array is a [list]; a Python [dict] keyed by detector name is a
      [gmap string _].
    - A Python exception is the [Raise] result of the [result] monad; the
      statements of a method are sequenced with the monad's bind in source
      order, so the first exception raised is the one returned.
    - The object [self] is the record [State]; a method that mutates [self]
      returns the new state. *)

From Stdlib Require Import Reals Lra Lia ZArith.
From stdpp Require Import base option list gmap strings.

Local Open Scope R_scope.

(* ===================================================================== *)
(** * Exceptions and the result monad                                     *)
(* ===================================================================== *)

Inductive exn : Set :=
| IndexError | KeyError | ZeroDivisionError | ValueError | TypeError
| OverflowError | AttributeError | UnboundLocalError.

Inductive result (A : Type) : Type :=
| Ok (a : A)
| Raise (e : exn).
Arguments Ok {A} a.
Arguments Raise {A} e.

#[global] Instance result_ret : MRet result := fun A a => Ok a.
#[global] Instance result_bind : MBind result := fun A B f m =>
  match m with
  | Ok a => f a
  | Raise e => Raise e
  end.
#[global] Instance result_fmap : FMap result := fun A B f m =>
  match m with
  | Ok a => Ok (f a)
  | Raise e => Raise e
  end.

(** [d[k]] on a dict: [KeyError] when the key is absent. *)
Definition dict_get {V} (d : gmap string V) (k : string) : result V :=
  match d !! k with
  | Some v => Ok v
  | None => Raise KeyError
  end.

(** An attribute that may not have been assigned yet. *)
Definition getattr {V} (a : option V) : result V :=
  match a with
  | Some v => Ok v
  | None => Raise AttributeError
  end.

(* ===================================================================== *)
(** * Numbers                                                             *)
(* ===================================================================== *)

#[global] Instance Rle_decision : RelDecision Rle := Rle_dec.
#[global] Instance Rlt_decision : RelDecision Rlt := Rlt_dec.
#[global] Instance Req_decision : EqDecision R := Req_dec_T.

Record C : Type := mkC { Re : R; Im : R }.

#[global] Instance C_eq_decision : EqDecision C.
Proof. solve_decision. Defined.

Definition RtoC (x : R) : C := mkC x 0.
Definition Czero : C := RtoC 0.
Definition Cone : C := RtoC 1.
Definition Cplus (z w : C) : C := mkC (Re z + Re w) (Im z + Im w).
Definition Cminus (z w : C) : C := mkC (Re z - Re w) (Im z - Im w).
Definition Cmult (z w : C) : C :=
  mkC (Re z * Re w - Im z * Im w) (Re z * Im w + Im z * Re w).
Definition Cconj (z : C) : C := mkC (Re z) (- Im z).
(** [np.abs] of a complex number. *)
Definition Cabs (z : C) : R := sqrt (Re z * Re z + Im z * Im z).
Definition Cinv (z : C) : C :=
  mkC (Re z / (Re z * Re z + Im z * Im z))
      (- Im z / (Re z * Re z + Im z * Im z)).
Definition Cdiv (z w : C) : C := Cmult z (Cinv w).
(** [z ** 0.5]: the principal square root. *)
Definition Csqrt (z : C) : C :=
  mkC (sqrt ((Cabs z + Re z) / 2))
      ((if bool_decide (Im z < 0) then -1 else 1) * sqrt ((Cabs z - Re z) / 2)).

(** [np.heaviside(x, h0)]. *)
Definition heaviside (x h0 : R) : R :=
  if bool_decide (x < 0) then 0 else if bool_decide (0 < x) then 1 else h0.

(** [np.sign]. *)
Definition np_sign (x : R) : R :=
  if bool_decide (x < 0) then -1 else if bool_decide (0 < x) then 1 else 0.

(** [x ** g] for a positive base [x]. *)
Definition np_power (x g : R) : R := Rpower x g.

(** [np.nan_to_num(-np.inf)]: the most negative finite double. *)
Definition nan_to_num_neg_inf : R := - ((2 - / 2 ^ 52) * 2 ^ 1023).

(* ===================================================================== *)
(** * NumPy array primitives                                              *)
(* ===================================================================== *)

(** [np.where(cond)[0]]: the indices at which [cond] holds, ascending. *)
Fixpoint np_where_from (k : nat) (cond : list bool) : list nat :=
  match cond with
  | [] => []
  | b :: cond' =>
      if b then k :: np_where_from (S k) cond' else np_where_from (S k) cond'
  end.
Definition np_where (cond : list bool) : list nat := np_where_from 0 cond.

(** [a[i]] for a non-negative index. *)
Definition getitem {A} (a : list A) (i : nat) : result A :=
  match a !! i with
  | Some x => Ok x
  | None => Raise IndexError
  end.

(** [a[-1]]. *)
Definition getitem_last {A} (a : list A) : result A :=
  match last a with
  | Some x => Ok x
  | None => Raise IndexError
  end.

(** [np.where(cond)[0][0]] and [np.where(cond)[0][-1]]. *)
Definition where_first (cond : list bool) : result nat := getitem (np_where cond) 0.
Definition where_last (cond : list bool) : result nat := getitem_last (np_where cond).

(** [np.intersect1d] of two index arrays: the sorted common values.  Both
    arguments come from [np.where] here, so they are already ascending and
    without repetition, and filtering the first by membership in the second
    is the sorted intersection. *)
Definition intersect1d (xs ys : list nat) : list nat :=
  filter (fun i => i ∈ ys) xs.

(** [a[inds]] with an integer index array. *)
Definition take_indices {A} (a : list A) (inds : list nat) : result (list A) :=
  mapM (getitem a) inds.

(** [a[mask]] with a boolean mask: the shapes must agree. *)
Fixpoint mask_filter {A} (mask : list bool) (a : list A) : list A :=
  match mask, a with
  | b :: mask', x :: a' => if b then x :: mask_filter mask' a' else mask_filter mask' a'
  | _, _ => []
  end.
Definition mask_select {A} (mask : list bool) (a : list A) : result (list A) :=
  if bool_decide (length mask = length a) then Ok (mask_filter mask a)
  else Raise IndexError.

(** [a[lo:hi]] with non-negative bounds: clamped, empty when [hi <= lo]. *)
Definition slice {A} (lo hi : nat) (a : list A) : list A :=
  take (hi - lo) (drop lo a).

(** [a[lo:hi] = v]: every position [lo <= k < hi] inside the array. *)
Definition slice_fill {A} (lo hi : nat) (v : A) (a : list A) : list A :=
  imap (fun k x => if bool_decide (lo <= k < hi)%nat then v else x) a.

(** [np.zeros(n)]: a negative dimension is a [ValueError]. *)
Definition np_zeros {A} (zero : A) (n : Z) : result (list A) :=
  if bool_decide (n < 0)%Z then Raise ValueError else Ok (replicate (Z.to_nat n) zero).

(** [a[i] = v] for [i] produced by [range(len(a))]. *)
Definition setitem {A} (a : list A) (i : nat) (v : A) : result (list A) :=
  if bool_decide (i < length a)%nat then Ok (<[i := v]> a) else Raise IndexError.

(** Elementwise binary operation with NumPy broadcasting of one-dimensional
    arrays: equal lengths, or one operand of length one; anything else is a
    [ValueError]. *)
Definition broadcast2 {A B D} (f : A -> B -> D) (xs : list A) (ys : list B)
  : result (list D) :=
  if bool_decide (length xs = length ys) then Ok (zip_with f xs ys)
  else match xs, ys with
       | [x], _ => Ok (map (f x) ys)
       | _, [y] => Ok (map (fun x => f x y) xs)
       | _, _ => Raise ValueError
       end.

(** [a[1:]] and [a[:-1]]. *)
Definition from1 {A} (a : list A) : list A := drop 1 a.
Definition upto_last {A} (a : list A) : list A := take (length a - 1) a.

(** [np.sum]. *)
Definition Rsum (a : list R) : R := foldr Rplus 0 a.
Definition Csum (a : list C) : C := foldr Cplus Czero a.

(** [range(n)] for an integer [n]: empty when [n <= 0]. *)
Definition py_range (n : Z) : list nat := seq 0 (Z.to_nat n).

(** A [for] loop whose body may raise: the state is threaded through the
    iterations in order and the first exception ends the loop. *)
Fixpoint for_loop {A S} (xs : list A) (body : A -> S -> result S) (s : S) : result S :=
  match xs with
  | [] => Ok s
  | x :: xs' => s' ← body x s; for_loop xs' body s'
  end.

(* ===================================================================== *)
(** * The collaborating objects                                           *)
(* ===================================================================== *)

(** A parameter dict and the polarizations dict ("plus", "cross") returned
    by the waveform generator. *)
Abbreviation Params := (gmap string R).
Abbreviation Polarizations := (gmap string (list C)).

(** The attributes of [bilby.gw.detector.Interferometer] that the likelihood
    reads or writes. *)
Module Interferometer.
Record t : Type := mk {
  name : string;
  minimum_frequency : R;
  maximum_frequency : R;
  frequency_array : list R;
  frequency_mask : list bool;
  frequency_domain_strain : list C;
  power_spectral_density_array : list R;
}.

Definition set_maximum_frequency (f : R) (ifo : t) : t :=
  mk (name ifo) (minimum_frequency ifo) f (frequency_array ifo)
     (frequency_mask ifo) (frequency_domain_strain ifo)
     (power_spectral_density_array ifo).
End Interferometer.

(** The attributes of the waveform generator. *)
Module WaveformGenerator.
Record t : Type := mk {
  frequency_array : list R;
  duration : R;
  waveform_arguments : gmap string (list R);
}.

Definition set_waveform_argument (k : string) (v : list R) (wg : t) : t :=
  mk (frequency_array wg) (duration wg) (<[k := v]> (waveform_arguments wg)).
End WaveformGenerator.

(** What the likelihood reads of a prior: whether it is a [DeltaFunction]
    or a [Constraint], and its bounds. *)
Record Prior : Type := mkPrior {
  is_delta_or_constraint : bool;
  minimum : R;
  maximum : R;
}.

(** The result object of [scipy.optimize.differential_evolution]: its ['x']
    entry, and the points at which the optimizer called the objective, in
    call order (the objective writes [self.parameters] at every call). *)
Record OptimizeResult : Type := mkOptimizeResult {
  x : list R;
  evaluated : list (list R);
}.

(** The value returned by a method: [None] or a float. *)
Inductive pyval : Type :=
| PyNone
| PyFloat (v : R).

(** [self._CalculatedSNRs]. *)
Record CalculatedSNRs : Type := mkCalculatedSNRs {
  d_inner_h : C;
  optimal_snr_squared : C;
  complex_matched_filter_snr : C;
  d_inner_h_array : option (list C);
  optimal_snr_squared_array : option (list C);
  d_inner_h_squared_tc_array : option (list C);
}.

Abbreviation SummaryData := (list C * list C * list C * list C)%type.

(** The attributes of [self].  An attribute that a method may read before
    any assignment is an [option]. *)
Record State : Type := mkState {
  interferometers : list Interferometer.t;
  waveform_generator : WaveformGenerator.t;
  priors : option (list (string * Prior));
  time_marginalization : bool;
  parameters : Params;
  fiducial_parameters : Params;
  chi : R;
  epsilon : R;
  fiducial_polarizations : option Polarizations;
  per_detector_fiducial_waveforms : gmap string (list C);
  per_detector_fiducial_waveform_points : gmap string (list C);
  bin_freqs : gmap string (list R);
  bin_inds : gmap string (list nat);
  bin_widths : gmap string (list R);
  bin_centers : gmap string (list R);
  number_of_bins : option Z;
  summary_data : option (gmap string SummaryData);
  parameters_to_be_updated : option (list string);
  parameter_bounds : option (list (list R));
}.

Definition set_interferometers v (s : State) : State :=
  mkState v (waveform_generator s) (priors s) (time_marginalization s)
    (parameters s) (fiducial_parameters s) (chi s) (epsilon s)
    (fiducial_polarizations s) (per_detector_fiducial_waveforms s)
    (per_detector_fiducial_waveform_points s) (bin_freqs s) (bin_inds s)
    (bin_widths s) (bin_centers s) (number_of_bins s) (summary_data s)
    (parameters_to_be_updated s) (parameter_bounds s).
Definition set_waveform_generator v (s : State) : State :=
  mkState (interferometers s) v (priors s) (time_marginalization s)
    (parameters s) (fiducial_parameters s) (chi s) (epsilon s)
    (fiducial_polarizations s) (per_detector_fiducial_waveforms s)
    (per_detector_fiducial_waveform_points s) (bin_freqs s) (bin_inds s)
    (bin_widths s) (bin_centers s) (number_of_bins s) (summary_data s)
    (parameters_to_be_updated s) (parameter_bounds s).
Definition set_parameters v (s : State) : State :=
  mkState (interferometers s) (waveform_generator s) (priors s)
    (time_marginalization s) v (fiducial_parameters s) (chi s) (epsilon s)
    (fiducial_polarizations s) (per_detector_fiducial_waveforms s)
    (per_detector_fiducial_waveform_points s) (bin_freqs s) (bin_inds s)
    (bin_widths s) (bin_centers s) (number_of_bins s) (summary_data s)
    (parameters_to_be_updated s) (parameter_bounds s).
Definition set_fiducial_parameters v (s : State) : State :=
  mkState (interferometers s) (waveform_generator s) (priors s)
    (time_marginalization s) (parameters s) v (chi s) (epsilon s)
    (fiducial_polarizations s) (per_detector_fiducial_waveforms s)
    (per_detector_fiducial_waveform_points s) (bin_freqs s) (bin_inds s)
    (bin_widths s) (bin_centers s) (number_of_bins s) (summary_data s)
    (parameters_to_be_updated s) (parameter_bounds s).
Definition set_fiducial_polarizations v (s : State) : State :=
  mkState (interferometers s) (waveform_generator s) (priors s)
    (time_marginalization s) (parameters s) (fiducial_parameters s) (chi s)
    (epsilon s) v (per_detector_fiducial_waveforms s)
    (per_detector_fiducial_waveform_points s) (bin_freqs s) (bin_inds s)
    (bin_widths s) (bin_centers s) (number_of_bins s) (summary_data s)
    (parameters_to_be_updated s) (parameter_bounds s).
Definition set_per_detector_fiducial_waveforms v (s : State) : State :=
  mkState (interferometers s) (waveform_generator s) (priors s)
    (time_marginalization s) (parameters s) (fiducial_parameters s) (chi s)
    (epsilon s) (fiducial_polarizations s) v
    (per_detector_fiducial_waveform_points s) (bin_freqs s) (bin_inds s)
    (bin_widths s) (bin_centers s) (number_of_bins s) (summary_data s)
    (parameters_to_be_updated s) (parameter_bounds s).
Definition set_summary_data v (s : State) : State :=
  mkState (interferometers s) (waveform_generator s) (priors s)
    (time_marginalization s) (parameters s) (fiducial_parameters s) (chi s)
    (epsilon s) (fiducial_polarizations s) (per_detector_fiducial_waveforms s)
    (per_detector_fiducial_waveform_points s) (bin_freqs s) (bin_inds s)
    (bin_widths s) (bin_centers s) (number_of_bins s) v
    (parameters_to_be_updated s) (parameter_bounds s).
Definition set_optimizer_inputs keys bounds (s : State) : State :=
  mkState (interferometers s) (waveform_generator s) (priors s)
    (time_marginalization s) (parameters s) (fiducial_parameters s) (chi s)
    (epsilon s) (fiducial_polarizations s) (per_detector_fiducial_waveforms s)
    (per_detector_fiducial_waveform_points s) (bin_freqs s) (bin_inds s)
    (bin_widths s) (bin_centers s) (number_of_bins s) (summary_data s)
    keys bounds.

(** The writes of one pass of the loop of [setup_bins] for the detector
    [name]: the scalar [number_of_bins], the four BinSet entries, the
    fiducial waveform points, and the waveform generator's
    ["frequency_bin_edges"] argument. *)
Definition store_bins (name : string) (n : Z) (freqs : list R) (inds : list nat)
    (widths centers : list R) (points : list C) (s : State) : State :=
  mkState (interferometers s)
    (WaveformGenerator.set_waveform_argument "frequency_bin_edges" freqs
       (waveform_generator s))
    (priors s) (time_marginalization s) (parameters s) (fiducial_parameters s)
    (chi s) (epsilon s) (fiducial_polarizations s)
    (per_detector_fiducial_waveforms s)
    (<[name := points]> (per_detector_fiducial_waveform_points s))
    (<[name := freqs]> (bin_freqs s)) (<[name := inds]> (bin_inds s))
    (<[name := widths]> (bin_widths s)) (<[name := centers]> (bin_centers s))
    (Some n) (summary_data s) (parameters_to_be_updated s) (parameter_bounds s).

(** [self.gamma]: assigned once by the constructor and never written again. *)
Definition gamma : list R := [- 5 / 3; - 2 / 3; 1; 5 / 3; 7 / 3].

(* ===================================================================== *)
(** * The methods of the likelihood                                       *)
(* ===================================================================== *)

(** Modelled from the spec: [noise_weighted_inner_product] is imported from
    [bilby.gw.utils], which is not part of the sources at hand.  The
    specification gives it as (4/T) times the sum over the samples of
    conjugate(a) * b / p. *)
Definition noise_weighted_inner_product (aa bb : list C) (psd : list R)
    (duration : R) : C :=
  Cmult (RtoC (4 / duration))
    (Csum (zip_with (fun ab p => Cdiv ab (RtoC p))
             (zip_with (fun a b => Cmult (Cconj a) b) aa bb) psd)).

Section Likelihood.

(** The collaborators that the likelihood calls and does not define. *)

(** [interferometer.get_detector_response(waveform_polarizations,
    parameters, frequencies=None)]. *)
Variable get_detector_response :
  Interferometer.t -> Polarizations -> Params -> option (list R) -> list C.

(** [waveform_generator.frequency_domain_strain(parameters)]; it may
    return [None]. *)
Variable frequency_domain_strain :
  WaveformGenerator.t -> Params -> option Polarizations.

(** [scipy.optimize.differential_evolution(func, bounds=...,
    **maximization_kwargs)], the keyword arguments being fixed. *)
Variable differential_evolution :
  (list R -> R) -> list (list R) -> OptimizeResult.

(** [self.log_likelihood_ratio()] of the base class, a function of the
    attributes of [self]. *)
Variable log_likelihood_ratio : State -> R.

(** [np.fft.fft]. *)
Variable np_fft : list C -> list C.

(** ** [setup_bins] *)

(** Lines 162-164: the grid frequencies between the detector's minimum
    and maximum frequency. *)
Definition frequency_array_useful (frequency_array : list R)
    (interferometer : Interferometer.t) : result (list R) :=
  take_indices frequency_array
    (intersect1d
       (np_where (map (fun f => bool_decide
          (Interferometer.minimum_frequency interferometer <= f)) frequency_array))
       (np_where (map (fun f => bool_decide
          (f <= Interferometer.maximum_frequency interferometer)) frequency_array))).

(** Lines 166-169. *)
Definition d_alpha (chi : R) (interferometer : Interferometer.t) : list R :=
  map (fun g =>
         chi * 2 * PI /
         Rabs (np_power (Interferometer.minimum_frequency interferometer) g
                 * heaviside (- g) 1
               - np_power (Interferometer.maximum_frequency interferometer) g
                 * heaviside g 1))
      gamma.

(** Lines 170-171: the sum over the exponents (axis 0) of the rows
    [sign(gamma[i]) * d_alpha[i] * frequency_array_useful ** gamma[i]]. *)
Definition d_phi (d_alpha : list R) (frequency_array_useful : list R) : list R :=
  map (fun f =>
         Rsum (zip_with (fun g da => np_sign g * da * np_power f g) gamma d_alpha))
      frequency_array_useful.

(** Line 172. *)
Definition d_phi_from_start (d_phi : list R) : result (list R) :=
  d0 ← getitem d_phi 0;
  Ok (map (fun d => d - d0) d_phi).

(** Line 173: [int(total // epsilon)].  Floor division of floats by zero
    yields nan or an infinity, which [int] refuses. *)
Definition int_floor_divide (total epsilon : R) : result Z :=
  if bool_decide (epsilon = 0)
  then Raise (if bool_decide (total = 0) then ValueError else OverflowError)
  else Ok (Zfloor (total / epsilon)).

(** Lines 178-181: edge [i].  The loop state is the pair of arrays stored
    under the detector's name in [bin_freqs] and [bin_inds] just before
    the loop, which nothing else refers to while the loop runs. *)
Definition setup_bins_edge (frequency_array frequency_array_useful
    d_phi_from_start : list R) (number_of_bins : Z) (i : nat)
    (arrays : list R * list nat) : result (list R * list nat) :=
  if bool_decide (number_of_bins = 0)%Z then Raise ZeroDivisionError else
  total ← getitem_last d_phi_from_start;
  bin_index ← where_first (map (fun d => bool_decide
                 (INR i / IZR number_of_bins * total <= d)) d_phi_from_start);
  bin_freq ← getitem frequency_array_useful bin_index;
  freqs ← setitem arrays.1 i bin_freq;
  ind ← where_first (map (fun f => bool_decide (bin_freq <= f)) frequency_array);
  inds ← setitem arrays.2 i ind;
  Ok (freqs, inds).

(** Lines 162-181: the bin count and the two edge arrays of one detector. *)
Definition setup_bins_plan (frequency_array : list R) (chi epsilon : R)
    (interferometer : Interferometer.t) : result (Z * (list R * list nat)) :=
  useful ← frequency_array_useful frequency_array interferometer;
  from_start ← d_phi_from_start (d_phi (d_alpha chi interferometer) useful);
  total ← getitem_last from_start;
  number_of_bins ← int_floor_divide total epsilon;
  freqs0 ← np_zeros 0 (number_of_bins + 1);
  inds0 ← np_zeros 0%nat (number_of_bins + 1);
  arrays ← for_loop (py_range (number_of_bins + 1))
              (setup_bins_edge frequency_array useful from_start number_of_bins)
              (freqs0, inds0);
  Ok (number_of_bins, arrays).

(** Lines 187-188. *)
Definition widths_of (freqs : list R) : list R :=
  zip_with Rminus (from1 freqs) (upto_last freqs).
Definition centers_of (freqs : list R) : list R :=
  map (fun s => s / 2) (zip_with Rplus (from1 freqs) (upto_last freqs)).

(** One pass of the loop of [setup_bins] (lines 161-191). *)
Definition setup_bins_interferometer (frequency_array : list R)
    (interferometer : Interferometer.t) (self : State) : result State :=
  let name := Interferometer.name interferometer in
  '(number_of_bins, (freqs, inds)) ←
     setup_bins_plan frequency_array (chi self) (epsilon self) interferometer;
  h0 ← dict_get (per_detector_fiducial_waveforms self) name;
  points ← take_indices h0 inds;
  Ok (store_bins name number_of_bins freqs inds (widths_of freqs)
        (centers_of freqs) points self).

Definition setup_bins (self : State) : result State :=
  let frequency_array :=
    WaveformGenerator.frequency_array (waveform_generator self) in
  for_loop (interferometers self)
    (setup_bins_interferometer frequency_array) self.

(** ** [set_fiducial_waveforms] *)

(** [polarizations["plus"]]: subscripting [None] is a [TypeError]. *)
Definition subscript (polarizations : option Polarizations) (k : string)
    : result (list C) :=
  match polarizations with
  | None => Raise TypeError
  | Some p => dict_get p k
  end.

(** Lines 209-210. *)
Definition clip_maximum_frequency (maximum_nonzero_frequency : R)
    (interferometer : Interferometer.t) : Interferometer.t :=
  if bool_decide (maximum_nonzero_frequency
                  < Interferometer.maximum_frequency interferometer)
  then Interferometer.set_maximum_frequency maximum_nonzero_frequency interferometer
  else interferometer.

(** Lines 207-214: each detector is clipped, then projected; the detector
    objects are distinct, so the clipped list is the image of the list. *)
Definition project_fiducial (polarizations : Polarizations) (parameters : Params)
    (clipped : list Interferometer.t) (waveforms : gmap string (list C))
    : gmap string (list C) :=
  foldl (fun w ifo =>
           <[Interferometer.name ifo :=
               get_detector_response ifo polarizations parameters None]> w)
        waveforms clipped.

(** The method returns the new [self], the caller's [parameters] dict as
    the method leaves it (it writes the ["fiducial"] key), and its return
    value. *)
Definition set_fiducial_waveforms (parameters : Params) (self : State)
    : result (State * Params * pyval) :=
  let parameters := <["fiducial" := 1]> parameters in
  let self := set_fiducial_polarizations
                (frequency_domain_strain (waveform_generator self) parameters)
                self in
  plus ← subscript (fiducial_polarizations self) "plus";
  maximum_nonzero_index ←
    where_last (map (fun z => bool_decide (z ≠ Czero)) plus);
  maximum_nonzero_frequency ←
    getitem (WaveformGenerator.frequency_array (waveform_generator self))
      maximum_nonzero_index;
  match fiducial_polarizations self with
  | None => Ok (self, parameters, PyFloat nan_to_num_neg_inf)
  | Some polarizations =>
      let clipped := map (clip_maximum_frequency maximum_nonzero_frequency)
                       (interferometers self) in
      let self := set_interferometers clipped self in
      let self := set_per_detector_fiducial_waveforms
                    (project_fiducial polarizations parameters clipped
                       (per_detector_fiducial_waveforms self)) self in
      Ok (self, <["fiducial" := 0]> parameters, PyNone)
  end.

(** ** [compute_summary_data] *)

(** Lines 275-304: bin [i]. *)
Definition compute_summary_bin (masked_frequency_array : list R)
    (masked_bin_inds : list nat) (masked_strain masked_h0 : list C)
    (masked_psd : list R) (duration : R) (i : nat)
    (arrays : SummaryData) : result SummaryData :=
  let '(a0, b0, a1, b1) := arrays in
  lo ← getitem masked_bin_inds i;
  f_lo ← getitem masked_frequency_array lo;
  hi ← getitem masked_bin_inds (i + 1);
  f_hi ← getitem masked_frequency_array hi;
  let central_frequency_i := 0.5 * (f_lo + f_hi) in
  let masked_strain_i := slice lo hi masked_strain in
  let masked_h0_i := slice lo hi masked_h0 in
  let masked_psd_i := slice lo hi masked_psd in
  let masked_frequency_i := slice lo hi masked_frequency_array in
  let offset := map (fun f => RtoC (f - central_frequency_i)) masked_frequency_i in
  a0 ← setitem a0 i
         (noise_weighted_inner_product masked_h0_i masked_strain_i
            masked_psd_i duration);
  b0 ← setitem b0 i
         (noise_weighted_inner_product masked_h0_i masked_h0_i
            masked_psd_i duration);
  a1 ← setitem a1 i
         (noise_weighted_inner_product masked_h0_i
            (zip_with Cmult masked_strain_i offset) masked_psd_i duration);
  b1 ← setitem b1 i
         (noise_weighted_inner_product masked_h0_i
            (zip_with Cmult masked_h0_i offset) masked_psd_i duration);
  Ok (a0, b0, a1, b1).

(** Lines 262-306: one detector.  The loop state is the local dict
    [summary_data]. *)
Definition compute_summary_data_interferometer (self : State)
    (interferometer : Interferometer.t)
    (summary : gmap string SummaryData) : result (gmap string SummaryData) :=
  let name := Interferometer.name interferometer in
  let mask := Interferometer.frequency_mask interferometer in
  masked_frequency_array ←
    mask_select mask (Interferometer.frequency_array interferometer);
  edges ← dict_get (bin_freqs self) name;
  masked_bin_inds ←
    mapM (fun edge => where_first
            (map (fun f => bool_decide (f = edge)) masked_frequency_array)) edges;
  masked_strain ←
    mask_select mask (Interferometer.frequency_domain_strain interferometer);
  h0 ← dict_get (per_detector_fiducial_waveforms self) name;
  masked_h0 ← mask_select mask h0;
  masked_psd ←
    mask_select mask (Interferometer.power_spectral_density_array interferometer);
  n ← getattr (number_of_bins self);
  zeros ← np_zeros Czero n;
  '(a0, b0, a1, b1) ←
    for_loop (py_range n)
      (compute_summary_bin masked_frequency_array masked_bin_inds masked_strain
         masked_h0 masked_psd
         (WaveformGenerator.duration (waveform_generator self)))
      (zeros, zeros, zeros, zeros);
  Ok (<[name := (a0, a1, b0, b1)]> summary).

Definition compute_summary_data (self : State) : result State :=
  summary ← for_loop (interferometers self)
               (compute_summary_data_interferometer self) ∅;
  Ok (set_summary_data (Some summary) self).

(** ** The waveform ratio *)

Definition compute_waveform_ratio_per_interferometer (self : State)
    (waveform_polarizations : Polarizations)
    (interferometer : Interferometer.t) : result (list C * list C) :=
  let name := Interferometer.name interferometer in
  frequencies ← dict_get (bin_freqs self) name;
  let strain := get_detector_response interferometer waveform_polarizations
                  (parameters self) (Some frequencies) in
  reference_strain ← dict_get (per_detector_fiducial_waveform_points self) name;
  waveform_ratio ← broadcast2 Cdiv strain reference_strain;
  sums ← broadcast2 Cplus (from1 waveform_ratio) (upto_last waveform_ratio);
  let r0 := map (fun z => Cdiv z (RtoC 2)) sums in
  differences ← broadcast2 Cminus (from1 waveform_ratio) (upto_last waveform_ratio);
  widths ← dict_get (bin_widths self) name;
  r1 ← broadcast2 (fun z w => Cdiv z (RtoC w)) differences widths;
  Ok (r0, r1).

Definition compute_waveform_ratio (self : State)
    (waveform_polarizations : Polarizations)
    : result (gmap string (list C * list C)) :=
  for_loop (interferometers self)
    (fun interferometer waveform_ratio =>
       r ← compute_waveform_ratio_per_interferometer self
             waveform_polarizations interferometer;
       Ok (<[Interferometer.name interferometer := r]> waveform_ratio))
    ∅.

(** Lines 345-348: bin [i] of the reconstruction loop. *)
Definition duplicate_bin (ind : list nat) (centers : gmap string (list R))
    (name : string) (r0 r1 : list C) (i : nat)
    (arrays : list C * list C * list C) : result (list C * list C * list C) :=
  let '(duplicated_r0, duplicated_r1, duplicated_fm) := arrays in
  fm ← dict_get centers name;
  fm_i ← getitem fm i;
  lo ← getitem ind i;
  hi ← getitem ind (i + 1);
  r0_i ← getitem r0 i;
  r1_i ← getitem r1 i;
  Ok (slice_fill lo hi r0_i duplicated_r0,
      slice_fill lo hi r1_i duplicated_r1,
      slice_fill lo hi (RtoC fm_i) duplicated_fm).

Definition _compute_full_waveform (self : State)
    (signal_polarizations : Polarizations)
    (interferometer : Interferometer.t) : result (list C) :=
  let name := Interferometer.name interferometer in
  fiducial_waveform ← dict_get (per_detector_fiducial_waveforms self) name;
  '(r0, r1) ← compute_waveform_ratio_per_interferometer self
                signal_polarizations interferometer;
  ind ← dict_get (bin_inds self) name;
  let f := Interferometer.frequency_array interferometer in
  let zeros := replicate (length f) Czero in
  n ← getattr (number_of_bins self);
  '(duplicated_r0, duplicated_r1, duplicated_fm) ←
    for_loop (py_range n) (duplicate_bin ind (bin_centers self) name r0 r1)
      (zeros, zeros, zeros);
  let full_waveform_ratio :=
    zip_with Cplus duplicated_r0
      (zip_with Cmult duplicated_r1
         (zip_with (fun x m => Cminus (RtoC x) m) f duplicated_fm)) in
  broadcast2 Cmult fiducial_waveform full_waveform_ratio.

(** ** [calculate_snrs] *)

Definition calculate_snrs (self : State) (waveform_polarizations : Polarizations)
    (interferometer : Interferometer.t) : result CalculatedSNRs :=
  let name := Interferometer.name interferometer in
  '(r0, r1) ← compute_waveform_ratio_per_interferometer self
                waveform_polarizations interferometer;
  summary ← getattr (summary_data self);
  '(a0, a1, b0, b1) ← dict_get summary name;
  d0 ← broadcast2 Cmult a0 (map Cconj r0);
  d1 ← broadcast2 Cmult a1 (map Cconj r1);
  d ← broadcast2 Cplus d0 d1;
  let d_inner_h := Csum d in
  h0 ← broadcast2 Cmult b0 (map (fun z => RtoC (Cabs z ^ 2)) r0);
  cross ← broadcast2 (fun z w => RtoC (Re (Cmult z (Cconj w)))) r0 r1;
  h1 ← broadcast2 Cmult (map (Cmult (RtoC 2)) b1) cross;
  h ← broadcast2 Cplus h0 h1;
  let h_inner_h := Csum h in
  let optimal_snr_squared := h_inner_h in
  let complex_matched_filter_snr := Cdiv d_inner_h (Csqrt optimal_snr_squared) in
  d_inner_h_array ←
    (if time_marginalization self then
       full_waveform ← _compute_full_waveform self waveform_polarizations
                         interferometer;
       num ← broadcast2 Cmult (upto_last full_waveform)
               (upto_last (map Cconj
                  (Interferometer.frequency_domain_strain interferometer)));
       quot ← broadcast2 (fun z p => Cdiv z (RtoC p)) num
                (upto_last
                   (Interferometer.power_spectral_density_array interferometer));
       Ok (Some (map (Cmult (RtoC
                   (4 / WaveformGenerator.duration (waveform_generator self))))
                   (np_fft quot)))
     else Ok None);
  Ok (mkCalculatedSNRs d_inner_h optimal_snr_squared complex_matched_filter_snr
        d_inner_h_array None None).

(** ** The search for better fiducial parameters *)

(** [dict(zip(keys, parameter_list))], then the fiducial value of every
    key of [fiducial_parameters] that is not one of [keys]. *)
Definition parameter_dictionary (keys : list string) (fiducial : Params)
    (parameter_list : list R) : Params :=
  foldl (fun d kv => <[kv.1 := kv.2]> d) ∅ (zip keys parameter_list)
  ∪ filter (fun kv => kv.1 ∉ keys) fiducial.

Definition get_parameter_dictionary_from_list (self : State)
    (parameter_list : list R) : result Params :=
  keys ← getattr (parameters_to_be_updated self);
  Ok (parameter_dictionary keys (fiducial_parameters self) parameter_list).

Definition lnlike_scipy_maximize (self : State) (parameter_list : list R)
    : result (State * R) :=
  p ← get_parameter_dictionary_from_list self parameter_list;
  let self := set_parameters p self in
  Ok (self, - log_likelihood_ratio self).

Definition get_parameter_list_from_dictionary {V} (self : State)
    (parameter_dict : gmap string V) : result (list V) :=
  keys ← getattr (parameters_to_be_updated self);
  mapM (dict_get parameter_dict) keys.

Definition get_bounds_from_priors (self : State)
    (priors : list (string * Prior)) : result (list (list R)) :=
  keys ← getattr (parameters_to_be_updated self);
  mapM (fun key =>
          match list_find (fun kp => kp.1 = key) priors with
          | Some (_, (_, p)) => Ok [minimum p; maximum p]
          | None => Raise KeyError
          end) keys.

(** One round of the loop of [find_maximum_likelihood_parameters] (lines
    226-232).  The optimizer calls [lnlike_scipy_maximize], which writes
    [self.parameters] at each call and raises [AttributeError] when
    [parameters_to_be_updated] was never assigned, as does line 230. *)
Definition optimization_round (parameter_bounds : list (list R)) (i : nat)
    (loop_state : State * option Params) : result (State * option Params) :=
  let self := loop_state.1 in
  keys ← getattr (parameters_to_be_updated self);
  let objective := fun parameter_list =>
    - log_likelihood_ratio
        (set_parameters
           (parameter_dictionary keys (fiducial_parameters self) parameter_list)
           self) in
  let output := differential_evolution objective parameter_bounds in
  let self :=
    foldl (fun s parameter_list =>
             set_parameters
               (parameter_dictionary keys (fiducial_parameters s) parameter_list) s)
          self (evaluated output) in
  updated_parameters ← get_parameter_dictionary_from_list self (x output);
  '(self, updated_parameters, _) ← set_fiducial_waveforms updated_parameters self;
  self ← compute_summary_data self;
  Ok (self, Some updated_parameters).

Definition find_maximum_likelihood_parameters (parameter_bounds : list (list R))
    (iterations : Z) (self : State) : result (State * Params) :=
  '(self, updated_parameters) ←
    for_loop (py_range iterations) (optimization_round parameter_bounds)
      (self, None);
  match updated_parameters with
  | Some p => Ok (self, p)
  | None => Raise UnboundLocalError
  end.

(** ** The constructor *)

(** Lines 118-132, applied to [self] as the constructor of the base class
    leaves it. *)
Definition init_attributes (fiducial_parameters : Params) (chi epsilon : R)
    (self : State) : State :=
  mkState (interferometers self) (waveform_generator self) (priors self)
    (time_marginalization self) (parameters self) fiducial_parameters
    chi epsilon None ∅ ∅ ∅ ∅ ∅ ∅ None None None None.

(** Lines 118-151.  The dict that [set_fiducial_waveforms] writes to is
    [self.fiducial_parameters] itself. *)
Definition init (self : State) (fiducial_parameters_arg : option Params)
    (parameter_bounds_arg : option (gmap string (list R)))
    (update_fiducial_parameters : bool) (chi epsilon : R) : result State :=
  let self := init_attributes (default ∅ fiducial_parameters_arg) chi epsilon self in
  '(self, written, _) ← set_fiducial_waveforms (fiducial_parameters self) self;
  let self := set_fiducial_parameters written self in
  self ← setup_bins self;
  self ← compute_summary_data self;
  if update_fiducial_parameters then
    prior_list ← match priors self with
                 | Some l => Ok l
                 | None => Raise TypeError
                 end;
    let keys := map fst (filter (fun kp => is_delta_or_constraint kp.2 = false)
                           prior_list) in
    let self := set_optimizer_inputs (Some keys) (parameter_bounds self) self in
    bounds ← match parameter_bounds_arg with
             | None => get_bounds_from_priors self prior_list
             | Some d => get_parameter_list_from_dictionary self d
             end;
    let self := set_optimizer_inputs (Some keys) (Some bounds) self in
    '(self, found) ← find_maximum_likelihood_parameters bounds 1 self;
    Ok (set_fiducial_parameters found self)
  else Ok self.

End Likelihood.

(* ===================================================================== *)
(** * Definitions used to state the properties                            *)
(* ===================================================================== *)

#[global] Instance C_inhabited : Inhabited C := populate Czero.
#[global] Instance R_inhabited : Inhabited R := populate 0.

(** The sum over the bins [0 .. n-1] of a complex term. *)
Definition bin_sum (n : nat) (term : nat -> C) : C := Csum (map term (seq 0 n)).

(** The BinSet of a state: the four dicts keyed by detector name. *)
Definition BinSet (self : State)
  : gmap string (list R) * gmap string (list nat)
    * gmap string (list R) * gmap string (list R) :=
  (bin_freqs self, bin_inds self, bin_widths self, bin_centers self).

(** The first index of [xs] whose entry is at or above [target]. *)
Definition first_at_or_above (xs : list R) (target : R) (j : nat) : Prop :=
  (exists x, xs !! j = Some x /\ target <= x) /\
  (forall k y, (k < j)%nat -> xs !! k = Some y -> y < target).

(** Non-decreasing and strictly increasing sequences. *)
Definition nondecreasing (xs : list R) : Prop :=
  forall i j a b, (i <= j)%nat -> xs !! i = Some a -> xs !! j = Some b -> a <= b.
Definition increasing (xs : list R) : Prop :=
  forall i j a b, (i < j)%nat -> xs !! i = Some a -> xs !! j = Some b -> a < b.
Definition nondecreasing_nat (xs : list nat) : Prop :=
  forall i j a b, (i <= j)%nat -> xs !! i = Some a -> xs !! j = Some b -> (a <= b)%nat.
Definition increasing_nat (xs : list nat) : Prop :=
  forall i j a b, (i < j)%nat -> xs !! i = Some a -> xs !! j = Some b -> (a < b)%nat.

(** The two sums of section 4.5 for [n] bins. *)
Definition d_inner_h_sum (n : nat) (a0 a1 r0 r1 : list C) : C :=
  bin_sum n (fun i =>
    Cplus (Cmult (a0 !!! i) (Cconj (r0 !!! i)))
          (Cmult (a1 !!! i) (Cconj (r1 !!! i)))).
Definition h_inner_h_sum (n : nat) (b0 b1 r0 r1 : list C) : C :=
  bin_sum n (fun i =>
    Cplus (Cmult (b0 !!! i) (RtoC (Cabs (r0 !!! i) ^ 2)))
          (Cmult (Cmult (RtoC 2) (b1 !!! i))
                 (RtoC (Re (Cmult (r0 !!! i) (Cconj (r1 !!! i))))))).

(** The ratio at edge [k] of the response sampled at the bin edges to the
    reference sampled at the bin edges. *)
Definition edge_ratio (strain reference : list C) (k : nat) : C :=
  Cdiv (strain !!! k) (reference !!! k).

(** The noise-weighted inner product over the samples [lo <= k < hi]:
    (4/T) times the sum of conjugate(a k) * b k / p k. *)
Definition bin_inner_product (duration : R) (lo hi : nat) (a b : nat -> C)
    (p : nat -> R) : C :=
  Cmult (RtoC (4 / duration))
    (Csum (map (fun k => Cdiv (Cmult (Cconj (a k)) (b k)) (RtoC (p k)))
             (seq lo (hi - lo)))).

(** [j] is the first index of [xs] whose entry equals [x]. *)
Definition first_equal (xs : list R) (x : R) (j : nat) : Prop :=
  xs !! j = Some x /\ forall k y, (k < j)%nat -> xs !! k = Some y -> y <> x.

(** The four summary statistics of the bin of samples [lo <= k < hi] with
    central frequency [fc], in the order (a0, a1, b0, b1): the inner products
    of the fiducial waveform [h] with the strain [d], with [d * (f - fc)],
    with itself, and with [h * (f - fc)]. *)
Definition summary_of_bin (duration : R) (f : nat -> R) (d h : nat -> C)
    (p : nat -> R) (lo hi : nat) (fc : R) : C * C * C * C :=
  (bin_inner_product duration lo hi h d p,
   bin_inner_product duration lo hi h (fun k => Cmult (d k) (RtoC (f k - fc))) p,
   bin_inner_product duration lo hi h h p,
   bin_inner_product duration lo hi h (fun k => Cmult (h k) (RtoC (f k - fc))) p).

(** The central frequency that the code uses: the midpoint of the
    frequencies at the two edges of the bin. *)
Definition edge_midpoint (f : nat -> R) (lo hi : nat) : R :=
  0.5 * (f lo + f hi).

(** The central frequency of the specification's wording: the midpoint of
    the first and last frequency sample in the bin. *)
Definition sample_midpoint (f : nat -> R) (lo hi : nat) : R :=
  0.5 * (f lo + f (hi - 1)%nat).

(** One edge of the loop of [setup_bins], as a relation: the useful index
    [j] at which the curve first reaches the target of edge [i], the edge
    frequency [x] found there, and the first grid index [k] at or above
    that frequency. *)
Definition edge_at (frequency_array useful from_start : list R)
    (number_of_bins : Z) (i : nat) (x : R) (k : nat) : Prop :=
  exists total j,
    last from_start = Some total /\
    first_at_or_above from_start (INR i / IZR number_of_bins * total) j /\
    useful !! j = Some x /\
    first_at_or_above frequency_array x k.

(** The value that the loop writes at position [i] of each of the four
    arrays. *)
Definition summary_bin_written (mfa : list R) (mbi : list nat) (ms mh : list C)
    (mp : list R) (T : R) (i : nat) (a0 b0 a1 b1 : list C) : Prop :=
  exists lo hi f_lo f_hi,
    mbi !! i = Some lo /\ mfa !! lo = Some f_lo /\
    mbi !! (i + 1)%nat = Some hi /\ mfa !! hi = Some f_hi /\
    let offset := map (fun f => RtoC (f - 0.5 * (f_lo + f_hi))) (slice lo hi mfa) in
    a0 !! i = Some (noise_weighted_inner_product (slice lo hi mh) (slice lo hi ms)
                      (slice lo hi mp) T) /\
    b0 !! i = Some (noise_weighted_inner_product (slice lo hi mh) (slice lo hi mh)
                      (slice lo hi mp) T) /\
    a1 !! i = Some (noise_weighted_inner_product (slice lo hi mh)
                      (zip_with Cmult (slice lo hi ms) offset) (slice lo hi mp) T) /\
    b1 !! i = Some (noise_weighted_inner_product (slice lo hi mh)
                      (zip_with Cmult (slice lo hi mh) offset) (slice lo hi mp) T).

(** Two states that differ at most in what the passes of [setup_bins] for
    the detectors called [names] write: the entries of the BinSet and of the
    fiducial waveform points under those names, the scalar bin count, and
    the waveform argument ["frequency_bin_edges"]. *)
Definition agree_outside (names : list string) (s t : State) : Prop :=
  interferometers t = interferometers s /\
  priors t = priors s /\
  time_marginalization t = time_marginalization s /\
  parameters t = parameters s /\
  fiducial_parameters t = fiducial_parameters s /\
  chi t = chi s /\ epsilon t = epsilon s /\
  fiducial_polarizations t = fiducial_polarizations s /\
  per_detector_fiducial_waveforms t = per_detector_fiducial_waveforms s /\
  summary_data t = summary_data s /\
  parameters_to_be_updated t = parameters_to_be_updated s /\
  parameter_bounds t = parameter_bounds s /\
  WaveformGenerator.frequency_array (waveform_generator t)
  = WaveformGenerator.frequency_array (waveform_generator s) /\
  WaveformGenerator.duration (waveform_generator t)
  = WaveformGenerator.duration (waveform_generator s) /\
  (forall k, k <> "frequency_bin_edges" ->
     WaveformGenerator.waveform_arguments (waveform_generator t) !! k
     = WaveformGenerator.waveform_arguments (waveform_generator s) !! k) /\
  (forall name, name ∉ names ->
     bin_freqs t !! name = bin_freqs s !! name /\
     bin_inds t !! name = bin_inds s !! name /\
     bin_widths t !! name = bin_widths s !! name /\
     bin_centers t !! name = bin_centers s !! name /\
     per_detector_fiducial_waveform_points t !! name
     = per_detector_fiducial_waveform_points s !! name).

(** The summary data of one detector as [compute_summary_data] computes
    them from a fiducial waveform [h0] with the BinSet, the bin count and the
    duration of [self]: the four arrays have one entry per bin, and entry [i]
    holds the four noise-weighted inner products over the masked samples of
    bin [i]. *)
Definition summary_of_waveform (self : State) (interferometer : Interferometer.t)
    (h0 : list C) (entry : SummaryData) : Prop :=
  let '(a0, a1, b0, b1) := entry in
  let mask := Interferometer.frequency_mask interferometer in
  let masked_frequency_array :=
    mask_filter mask (Interferometer.frequency_array interferometer) in
  exists (edges : list R) (masked_bin_inds : list nat) (N : Z),
    bin_freqs self !! Interferometer.name interferometer = Some edges /\
    Forall2 (first_equal masked_frequency_array) edges masked_bin_inds /\
    number_of_bins self = Some N /\
    length a0 = Z.to_nat N /\ length a1 = Z.to_nat N /\
    length b0 = Z.to_nat N /\ length b1 = Z.to_nat N /\
    forall i, (i < Z.to_nat N)%nat ->
      summary_bin_written masked_frequency_array masked_bin_inds
        (mask_filter mask (Interferometer.frequency_domain_strain interferometer))
        (mask_filter mask h0)
        (mask_filter mask (Interferometer.power_spectral_density_array interferometer))
        (WaveformGenerator.duration (waveform_generator self)) i a0 b0 a1 b1.

(* ===================================================================== *)
(** * A worked example                                                    *)
(* ===================================================================== *)

(** One detector on the two-point grid [1; 8] Hz, whose powers with the
    exponents of [gamma] are rational, a waveform model whose polarization
    and whose detector response are identically one, and a strain equal to
    twice the fiducial waveform. *)
Module Example.
Definition H1 : Interferometer.t :=
  Interferometer.mk "H1" 1 8 [1; 8] [true; true] [RtoC 2; RtoC 2] [1; 1].

Definition generator : WaveformGenerator.t := WaveformGenerator.mk [1; 8] 4 ∅.

(** The total cumulative phase deviation of [H1] over the grid. *)
Definition total (chi0 : R) : R := chi0 * (583 / 64) * PI.

Definition polarizations : Polarizations := <["plus" := [Cone; Cone]]> ∅.

Definition response
  : Interferometer.t -> Polarizations -> Params -> option (list R) -> list C :=
  fun _ _ _ frequencies =>
    match frequencies with
    | None => [Cone; Cone]
    | Some fs => map (fun _ => Cone) fs
    end.

Definition strain_model : WaveformGenerator.t -> Params -> option Polarizations :=
  fun _ _ => Some polarizations.

(** A waveform model whose polarization is identically zero. *)
Definition silent_model : WaveformGenerator.t -> Params -> option Polarizations :=
  fun _ _ => Some (<["plus" := [Czero; Czero]]> ∅).

Definition optimizer : (list R -> R) -> list (list R) -> OptimizeResult :=
  fun _ _ => mkOptimizeResult [] [].

Definition likelihood_ratio : State -> R := fun _ => 0.

Definition fft : list C -> list C := fun a => a.

(** [self] as the constructor of the base class leaves it. *)
Definition base : State :=
  mkState [H1] generator None false ∅ ∅ 0 0 None ∅ ∅ ∅ ∅ ∅ ∅ None None None None.

Definition written : Params := <["fiducial" := 0]> (<["fiducial" := 1]> ∅).

(** After [set_fiducial_waveforms]. *)
Definition projected (chi0 epsilon0 : R) : State :=
  mkState [H1] generator None false ∅ written chi0 epsilon0 (Some polarizations)
    (<["H1" := [Cone; Cone]]> ∅) ∅ ∅ ∅ ∅ ∅ None None None None.

(** After [setup_bins], for the three settings of [chi] and [epsilon]
    used below: one bin, two bins, and a bin count of -1. *)
Definition one_bin : State :=
  store_bins "H1" 1 [1; 8] [0%nat; 1%nat] (widths_of [1; 8]) (centers_of [1; 8])
    [Cone; Cone] (projected 1 20).
Definition two_bins : State :=
  store_bins "H1" 2 [1; 8; 8] [0%nat; 1%nat; 1%nat] (widths_of [1; 8; 8])
    (centers_of [1; 8; 8]) [Cone; Cone; Cone] (projected 1 13).
Definition no_bins : State :=
  store_bins "H1" (-1) [] [] (widths_of []) (centers_of []) [] (projected (-1) 40).

(** The summary data of the one bin: the offset of its only sample from
    the central frequency, and the four statistics. *)
Definition offset : list C := [RtoC (1 - 0.5 * (1 + 8))].
Definition a0 : list C := [noise_weighted_inner_product [Cone] [RtoC 2] [1] 4].
Definition a1 : list C :=
  [noise_weighted_inner_product [Cone] (zip_with Cmult [RtoC 2] offset) [1] 4].
Definition b0 : list C := [noise_weighted_inner_product [Cone] [Cone] [1] 4].
Definition b1 : list C :=
  [noise_weighted_inner_product [Cone] (zip_with Cmult [Cone] offset) [1] 4].
Definition summary : SummaryData := (a0, a1, b0, b1).

(** After [compute_summary_data]. *)
Definition summarized : State :=
  set_summary_data (Some (<["H1" := summary]> ∅)) one_bin.

(** Ready for the search, with no free parameter; what the search finds;
    and the state it leaves. *)
Definition searchable : State :=
  set_optimizer_inputs (Some []) (Some []) summarized.
Definition found : Params :=
  <["fiducial" := 0]> (<["fiducial" := 1]> (parameter_dictionary [] written [])).
Definition refreshed : State :=
  set_summary_data (Some (<["H1" := summary]> ∅))
    (set_per_detector_fiducial_waveforms
       (<["H1" := [Cone; Cone]]> (per_detector_fiducial_waveforms searchable))
       (set_interferometers [H1]
          (set_fiducial_polarizations (Some polarizations) searchable))).
End Example.

(** Further cases on the grid of the worked example: a detector whose band
    lies above the grid, a waveform model that returns [None], two
    parameters to update with three priors of which one is a
    [DeltaFunction], a detector whose mask drops the upper grid point, and
    summary arrays of the wrong length. *)
Module Cases.
Definition L1 : Interferometer.t :=
  Interferometer.mk "L1" 10 20 [1; 8] [true; true] [RtoC 2; RtoC 2] [1; 1].
Definition out_of_band : State := set_interferometers [L1] (Example.projected 1 20).

Definition absent_model : WaveformGenerator.t -> Params -> option Polarizations :=
  fun _ _ => None.

Definition names : list string := ["mass"; "spin"].
Definition prior_list : list (string * Prior) :=
  [("mass", mkPrior false 1 2); ("phase", mkPrior true 0 0);
   ("spin", mkPrior false (-1) 1)].
Definition tunable : State :=
  set_optimizer_inputs (Some names) None Example.summarized.

Definition H1_masked : Interferometer.t :=
  Interferometer.mk "H1" 1 8 [1; 8] [true; false] [RtoC 2; RtoC 2] [1; 1].
Definition masked : State := set_interferometers [H1_masked] Example.one_bin.

Definition misshapen : State :=
  set_summary_data (Some (<["H1" := ([], [], [], [])]> ∅)) Example.two_bins.
End Cases.

(** A search that changes the fiducial waveform, on the grid and the
    detector of the worked example: the detector response is the parameter
    ["amplitude"] (1 when absent) at every frequency, the only prior is a
    free prior on ["amplitude"] with bounds 1 and 3, and the optimizer
    returns amplitude 2. *)
Module Tuned.
Definition amplitude (p : Params) : C := RtoC (default 1 (p !! "amplitude")).

Definition response
  : Interferometer.t -> Polarizations -> Params -> option (list R) -> list C :=
  fun _ _ p frequencies =>
    match frequencies with
    | None => [amplitude p; amplitude p]
    | Some fs => map (fun _ => amplitude p) fs
    end.

Definition optimizer : (list R -> R) -> list (list R) -> OptimizeResult :=
  fun _ _ => mkOptimizeResult [2] [].

Definition prior_list : list (string * Prior) := [("amplitude", mkPrior false 1 3)].

(** [self] as the constructor of the base class leaves it. *)
Definition base : State :=
  mkState [Example.H1] Example.generator (Some prior_list) false ∅ ∅ 0 0 None
    ∅ ∅ ∅ ∅ ∅ ∅ None None None None.

(** The summary data of the one bin for a fiducial waveform whose sample in
    the bin is [z]. *)
Definition summary_of (z : C) : SummaryData :=
  ([noise_weighted_inner_product [z] [RtoC 2] [1] 4],
   [noise_weighted_inner_product [z] (zip_with Cmult [RtoC 2] Example.offset) [1] 4],
   [noise_weighted_inner_product [z] [z] [1] 4],
   [noise_weighted_inner_product [z] (zip_with Cmult [z] Example.offset) [1] 4]).

(** After [set_fiducial_waveforms], [setup_bins] and
    [compute_summary_data] in the constructor, with [chi = 1] and
    [epsilon = 20]. *)
Definition summarized : State :=
  set_summary_data (Some (<["H1" := summary_of Cone]> ∅))
    (store_bins "H1" 1 [1; 8] [0%nat; 1%nat] (widths_of [1; 8]) (centers_of [1; 8])
       [Cone; Cone]
       (set_fiducial_parameters Example.written
          (set_per_detector_fiducial_waveforms (<["H1" := [Cone; Cone]]> ∅)
             (set_interferometers [Example.H1]
                (set_fiducial_polarizations (Some Example.polarizations)
                   (init_attributes ∅ 1 20 base)))))).

(** Ready for the search; what the search finds; the state it leaves; and
    the state that the constructor leaves. *)
Definition searchable : State :=
  set_optimizer_inputs (Some ["amplitude"]) (Some [[1; 3]]) summarized.
Definition found : Params :=
  <["fiducial" := 0]>
    (<["fiducial" := 1]> (parameter_dictionary ["amplitude"] Example.written [2])).
Definition refreshed : State :=
  set_summary_data (Some (<["H1" := summary_of (RtoC 2)]> ∅))
    (set_per_detector_fiducial_waveforms
       (<["H1" := [RtoC 2; RtoC 2]]> (per_detector_fiducial_waveforms searchable))
       (set_interferometers [Example.H1]
          (set_fiducial_polarizations (Some Example.polarizations) searchable))).
Definition built : State := set_fiducial_parameters found refreshed.
End Tuned.

(** Two detectors with different bin counts on the grid of the worked
    example, with [chi = 1] and [epsilon = 13]: [Example.H1], whose band is
    1 to 8 Hz, gets two bins, and [V1], whose band is 1/8 to 8 Hz, gets
    one. *)
Module Network.
Definition V1 : Interferometer.t :=
  Interferometer.mk "V1" (/ 8) 8 [1; 8] [true; true] [RtoC 2; RtoC 2] [1; 1].

(** The total cumulative phase deviation of [V1] over the grid. *)
Definition total (chi0 : R) : R := chi0 * (3127 / 512) * PI.

(** After [set_fiducial_waveforms], for either order of the detectors. *)
Definition projected (detectors : list Interferometer.t) : State :=
  mkState detectors Example.generator None false ∅ Example.written 1 13
    (Some Example.polarizations)
    (<["V1" := [Cone; Cone]]> (<["H1" := [Cone; Cone]]> ∅))
    ∅ ∅ ∅ ∅ ∅ None None None None.

(** The pass of [setup_bins] for each detector. *)
Definition store_V1 (s : State) : State :=
  store_bins "V1" 1 [1; 8] [0%nat; 1%nat] (widths_of [1; 8]) (centers_of [1; 8])
    [Cone; Cone] s.
Definition store_H1 (s : State) : State :=
  store_bins "H1" 2 [1; 8; 8] [0%nat; 1%nat; 1%nat] (widths_of [1; 8; 8])
    (centers_of [1; 8; 8]) [Cone; Cone; Cone] s.

(** After [setup_bins], with [H1] last and with [V1] last. *)
Definition H1_last : State := store_H1 (store_V1 (projected [V1; Example.H1])).
Definition V1_last : State := store_V1 (store_H1 (projected [Example.H1; V1])).
End Network.

(* ===================================================================== *)
(** * The result monad and the array primitives                           *)
(* ===================================================================== *)

Lemma bind_Ok {A B} (m : result A) (f : A -> result B) (b : B) :
  m ≫= f = Ok b <-> exists a, m = Ok a /\ f a = Ok b.
Proof.
  destruct m as [a|e]; simpl; split.
  - intros H. exists a. auto.
  - intros (a' & Ha & H). congruence.
  - discriminate.
  - intros (a' & Ha & _). discriminate.
Qed.

Lemma Ok_bind {A B} (a : A) (f : A -> result B) : Ok a ≫= f = f a.
Proof. reflexivity. Qed.

Lemma bind_Raise {A B} (m : result A) (f : A -> result B) (e : exn) :
  m = Raise e -> m ≫= f = Raise e.
Proof. intros ->. reflexivity. Qed.

Ltac inv_bind H :=
  repeat match type of H with
    | (mbind _ _ = Ok _) =>
        let a := fresh "v" in
        let Ha := fresh "Hv" in
        apply bind_Ok in H; destruct H as (a & Ha & H)
    end.

Lemma dict_get_Ok {V} (d : gmap string V) k v :
  dict_get d k = Ok v <-> d !! k = Some v.
Proof. unfold dict_get. destruct (d !! k); split; congruence. Qed.

Lemma getattr_Ok {V} (a : option V) v : getattr a = Ok v <-> a = Some v.
Proof. unfold getattr. destruct a; split; congruence. Qed.

Lemma getitem_Ok {A} (a : list A) i v : getitem a i = Ok v <-> a !! i = Some v.
Proof. unfold getitem. destruct (a !! i); split; congruence. Qed.

Lemma getitem_last_Ok {A} (a : list A) v : getitem_last a = Ok v <-> last a = Some v.
Proof. unfold getitem_last. destruct (last a); split; congruence. Qed.

Lemma setitem_Ok {A} (a : list A) i v a' :
  setitem a i v = Ok a' <-> (i < length a)%nat /\ a' = <[i := v]> a.
Proof.
  unfold setitem. case_bool_decide; split.
  - intros [= <-]. auto.
  - intros [_ ->]. reflexivity.
  - discriminate.
  - intros [? _]. lia.
Qed.

Lemma np_zeros_Ok {A} (z : A) n a :
  np_zeros z n = Ok a <-> (0 <= n)%Z /\ a = replicate (Z.to_nat n) z.
Proof.
  unfold np_zeros. case_bool_decide; split.
  - discriminate.
  - intros [? _]. lia.
  - intros [= <-]. split; [lia | reflexivity].
  - intros [_ ->]. reflexivity.
Qed.

Lemma mask_select_Ok {A} mask (a a' : list A) :
  mask_select mask a = Ok a' <-> length mask = length a /\ a' = mask_filter mask a.
Proof.
  unfold mask_select. case_bool_decide; split.
  - intros [= <-]. auto.
  - intros [_ ->]. reflexivity.
  - discriminate.
  - intros [? _]. contradiction.
Qed.

Lemma broadcast2_same {A B D} (f : A -> B -> D) xs ys :
  length xs = length ys -> broadcast2 f xs ys = Ok (zip_with f xs ys).
Proof. intros H. unfold broadcast2. rewrite bool_decide_eq_true_2; auto. Qed.

(** The first hit of [np.where]. *)
Lemma np_where_from_head k cond i :
  head (np_where_from k cond) = Some i <->
  exists j, i = (k + j)%nat /\ cond !! j = Some true /\
            forall j', (j' < j)%nat -> cond !! j' = Some false.
Proof.
  revert k. induction cond as [|b cond IH]; intros k; simpl.
  - split; [discriminate | intros (j & _ & H & _); discriminate].
  - destruct b; simpl.
    + split.
      * intros [= <-]. exists 0%nat. repeat split; [lia | lia].
      * intros (j & -> & Hj & Hlt). destruct j as [|j]; [f_equal; lia |].
        specialize (Hlt 0%nat ltac:(lia)). discriminate.
    + rewrite IH. split.
      * intros (j & -> & Hj & Hlt). exists (S j). repeat split; [lia | exact Hj |].
        intros [|j'] ?; [reflexivity | apply Hlt; lia].
      * intros (j & -> & Hj & Hlt). destruct j as [|j]; [discriminate |].
        exists j. repeat split; [lia | exact Hj |].
        intros j' ?. apply (Hlt (S j')). lia.
Qed.

Lemma where_first_Ok cond j :
  where_first cond = Ok j <->
  cond !! j = Some true /\ forall k, (k < j)%nat -> cond !! k = Some false.
Proof.
  unfold where_first. rewrite getitem_Ok, <- head_lookup.
  unfold np_where. rewrite np_where_from_head. split.
  - intros (j' & -> & H). exact H.
  - intros H. exists j. split; [reflexivity | exact H].
Qed.

Lemma where_first_Raise cond e :
  where_first cond = Raise e -> e = IndexError /\ Forall (fun b => b = false) cond.
Proof.
  unfold where_first, getitem. rewrite <- head_lookup.
  destruct (head (np_where cond)) as [i|] eqn:Hh; [discriminate |].
  intros [= <-]. split; [reflexivity |].
  unfold np_where in Hh. revert Hh. generalize 0%nat.
  induction cond as [|b cond IH]; intros k; simpl; [constructor |].
  destruct b; [discriminate |]. intros H. constructor; [reflexivity | eauto].
Qed.

Lemma where_first_exists cond i :
  cond !! i = Some true -> exists j, where_first cond = Ok j /\ (j <= i)%nat.
Proof.
  revert i. induction cond as [|b cond IH]; intros i Hi; [discriminate |].
  destruct b.
  - exists 0%nat. split; [reflexivity | lia].
  - destruct i as [|i]; [discriminate |]. simpl in Hi.
    destruct (IH i Hi) as (j & Hj & Hle). exists (S j). split; [| lia].
    apply where_first_Ok. apply where_first_Ok in Hj as [Hj1 Hj2].
    split; [exact Hj1 |]. intros [|k] ?; [reflexivity | apply Hj2; lia].
Qed.

(** [where_first] of a threshold test on a list of reals. *)
Lemma where_first_threshold (xs : list R) (t : R) j :
  where_first (map (fun d => bool_decide (t <= d)) xs) = Ok j <->
  first_at_or_above xs t j.
Proof.
  rewrite where_first_Ok. unfold first_at_or_above. split.
  - intros [H1 H2]. split.
    + rewrite list_lookup_fmap in H1. destruct (xs !! j) as [x|]; [|discriminate].
      simpl in H1. injection H1 as H1. apply bool_decide_eq_true in H1. eauto.
    + intros k y Hk Hy. specialize (H2 k Hk). rewrite list_lookup_fmap, Hy in H2.
      simpl in H2. injection H2 as H2. apply bool_decide_eq_false in H2. lra.
  - intros [(x & Hx & Hle) H2]. split.
    + rewrite list_lookup_fmap, Hx. simpl. f_equal. apply bool_decide_eq_true. exact Hle.
    + intros k Hk. rewrite list_lookup_fmap.
      destruct (xs !! k) as [y|] eqn:Hy.
      * simpl. f_equal. apply bool_decide_eq_false. specialize (H2 k y Hk Hy). lra.
      * apply lookup_ge_None in Hy. apply lookup_lt_Some in Hx. lia.
Qed.

(** A larger threshold is first reached no earlier. *)
Lemma first_at_or_above_mono (xs : list R) t t' j j' :
  t <= t' -> first_at_or_above xs t j -> first_at_or_above xs t' j' -> (j <= j')%nat.
Proof.
  intros Ht [_ Hj] [(x' & Hx' & Hle') _].
  destruct (decide (j <= j')%nat) as [|Hn]; [assumption|].
  specialize (Hj j' x' ltac:(lia) Hx'). lra.
Qed.

(** Lists of a known length, read index by index. *)
Lemma list_as_map_seq {A} `{Inhabited A} (l : list A) n :
  length l = n -> l = map (fun i => l !!! i) (seq 0 n).
Proof.
  intros Hn. apply list_eq. intros i. rewrite list_lookup_fmap.
  destruct (decide (i < n)%nat) as [Hi|Hi].
  - rewrite lookup_seq_lt by exact Hi. simpl.
    apply list_lookup_lookup_total_lt. lia.
  - rewrite lookup_seq_ge by lia. simpl. apply lookup_ge_None. lia.
Qed.

Lemma zip_with_as_map_seq {A B D} `{Inhabited A} `{Inhabited B}
    (f : A -> B -> D) (xs : list A) (ys : list B) n :
  length xs = n -> length ys = n ->
  zip_with f xs ys = map (fun i => f (xs !!! i) (ys !!! i)) (seq 0 n).
Proof.
  intros Hx Hy. apply list_eq. intros i.
  rewrite lookup_zip_with, list_lookup_fmap.
  destruct (decide (i < n)%nat) as [Hi|Hi].
  - rewrite lookup_seq_lt by exact Hi.
    rewrite (list_lookup_lookup_total_lt xs i) by lia.
    rewrite (list_lookup_lookup_total_lt ys i) by lia. reflexivity.
  - rewrite lookup_seq_ge by lia.
    rewrite (proj2 (lookup_ge_None xs i)) by lia. reflexivity.
Qed.

Lemma map_as_map_seq {A B} `{Inhabited A} (f : A -> B) (xs : list A) n :
  length xs = n -> map f xs = map (fun i => f (xs !!! i)) (seq 0 n).
Proof.
  intros Hx. rewrite (list_as_map_seq xs n Hx) at 1.
  rewrite map_map. reflexivity.
Qed.

Lemma lookup_total_map_seq {A} `{Inhabited A} (g : nat -> A) n i :
  (i < n)%nat -> map g (seq 0 n) !!! i = g i.
Proof.
  intros Hi. apply list_lookup_total_correct.
  rewrite list_lookup_fmap, lookup_seq_lt by exact Hi. reflexivity.
Qed.

Lemma map_seq_ext {A} (g h : nat -> A) n :
  (forall i, (i < n)%nat -> g i = h i) -> map g (seq 0 n) = map h (seq 0 n).
Proof.
  intros Hgh. apply map_ext_in. intros i Hi. apply in_seq in Hi. apply Hgh. lia.
Qed.

(** The two array expressions of lines 362-363, bin by bin. *)
Lemma d_inner_h_terms (a0 a1 r0 r1 : list C) n :
  length a0 = n -> length a1 = n -> length r0 = n -> length r1 = n ->
  zip_with Cplus (zip_with Cmult a0 (map Cconj r0)) (zip_with Cmult a1 (map Cconj r1))
  = map (fun i => Cplus (Cmult (a0 !!! i) (Cconj (r0 !!! i)))
                        (Cmult (a1 !!! i) (Cconj (r1 !!! i)))) (seq 0 n).
Proof.
  intros Ha0 Ha1 Hr0 Hr1.
  rewrite (map_as_map_seq Cconj r0 n Hr0), (map_as_map_seq Cconj r1 n Hr1).
  rewrite (zip_with_as_map_seq Cmult a0 _ n Ha0) by (rewrite length_map, length_seq; reflexivity).
  rewrite (zip_with_as_map_seq Cmult a1 _ n Ha1) by (rewrite length_map, length_seq; reflexivity).
  rewrite (zip_with_as_map_seq Cplus _ _ n) by (rewrite length_map, length_seq; reflexivity).
  apply map_seq_ext. intros i Hi.
  rewrite !lookup_total_map_seq by exact Hi. reflexivity.
Qed.

Lemma h_inner_h_terms (b0 b1 r0 r1 : list C) n :
  length b0 = n -> length b1 = n -> length r0 = n -> length r1 = n ->
  zip_with Cplus
    (zip_with Cmult b0 (map (fun z => RtoC (Cabs z ^ 2)) r0))
    (zip_with Cmult (map (Cmult (RtoC 2)) b1)
       (zip_with (fun z w => RtoC (Re (Cmult z (Cconj w)))) r0 r1))
  = map (fun i => Cplus (Cmult (b0 !!! i) (RtoC (Cabs (r0 !!! i) ^ 2)))
                        (Cmult (Cmult (RtoC 2) (b1 !!! i))
                               (RtoC (Re (Cmult (r0 !!! i) (Cconj (r1 !!! i)))))))
        (seq 0 n).
Proof.
  intros Hb0 Hb1 Hr0 Hr1.
  rewrite (map_as_map_seq (fun z => RtoC (Cabs z ^ 2)) r0 n Hr0).
  rewrite (map_as_map_seq (Cmult (RtoC 2)) b1 n Hb1).
  rewrite (zip_with_as_map_seq (fun z w => RtoC (Re (Cmult z (Cconj w)))) r0 r1 n Hr0 Hr1).
  rewrite (zip_with_as_map_seq Cmult b0 _ n Hb0) by (rewrite length_map, length_seq; reflexivity).
  rewrite (zip_with_as_map_seq Cmult (map _ (seq 0 n)) _ n)
    by (rewrite length_map, length_seq; reflexivity).
  rewrite (zip_with_as_map_seq Cplus _ _ n) by (rewrite length_map, length_seq; reflexivity).
  apply map_seq_ext. intros i Hi.
  rewrite !lookup_total_map_seq by exact Hi. reflexivity.
Qed.

(* ===================================================================== *)
(** * Signal-to-noise quantities                                          *)
(* ===================================================================== *)

(** The three signal-to-noise quantities of [calculate_snrs], as sums of
    the arrays of lines 362-363. *)
Lemma calculate_snrs_arrays
    (get_detector_response :
       Interferometer.t -> Polarizations -> Params -> option (list R) -> list C)
    (np_fft : list C -> list C)
    (self : State) (waveform_polarizations : Polarizations)
    (interferometer : Interferometer.t)
    (summary : gmap string SummaryData) (a0 a1 b0 b1 r0 r1 : list C) (n : nat) :
  compute_waveform_ratio_per_interferometer get_detector_response self
    waveform_polarizations interferometer = Ok (r0, r1) ->
  summary_data self = Some summary ->
  summary !! Interferometer.name interferometer = Some (a0, a1, b0, b1) ->
  length a0 = n -> length a1 = n -> length b0 = n -> length b1 = n ->
  length r0 = n -> length r1 = n ->
  exists d_inner_h_array,
    calculate_snrs get_detector_response np_fft self waveform_polarizations
      interferometer
    = d_inner_h_array ≫= (fun array =>
        Ok (mkCalculatedSNRs
              (Csum (zip_with Cplus (zip_with Cmult a0 (map Cconj r0))
                       (zip_with Cmult a1 (map Cconj r1))))
              (Csum (zip_with Cplus
                       (zip_with Cmult b0 (map (fun z => RtoC (Cabs z ^ 2)) r0))
                       (zip_with Cmult (map (Cmult (RtoC 2)) b1)
                          (zip_with (fun z w => RtoC (Re (Cmult z (Cconj w))))
                             r0 r1))))
              (Cdiv
                 (Csum (zip_with Cplus (zip_with Cmult a0 (map Cconj r0))
                          (zip_with Cmult a1 (map Cconj r1))))
                 (Csqrt
                    (Csum (zip_with Cplus
                       (zip_with Cmult b0 (map (fun z => RtoC (Cabs z ^ 2)) r0))
                       (zip_with Cmult (map (Cmult (RtoC 2)) b1)
                          (zip_with (fun z w => RtoC (Re (Cmult z (Cconj w))))
                             r0 r1))))))
              array None None)) /\
    (time_marginalization self = false -> d_inner_h_array = Ok None).
Proof.
  intros Hratio Hsd Hlook Ha0 Ha1 Hb0 Hb1 Hr0 Hr1.
  unfold calculate_snrs. rewrite Hratio, Hsd, Ok_bind.
  unfold getattr. rewrite Ok_bind.
  rewrite (proj2 (dict_get_Ok _ _ _) Hlook), Ok_bind.
  repeat first
    [ rewrite Ok_bind
    | rewrite broadcast2_same by (rewrite ?length_zip_with, ?length_map; lia) ].
  eexists. split; [reflexivity |]. intros ->. reflexivity.
Qed.


(** C1.  With summary data (a0, a1, b0, b1) and a waveform ratio (r0, r1) of
    [n] bins each, [calculate_snrs] returns [d_inner_h] equal to the sum over
    the bins of a0 * conj(r0) + a1 * conj(r1), [optimal_snr_squared] equal to
    [h_inner_h], the sum over the bins of b0 * |r0|^2 + 2 * b1 * Re(r0 *
    conj(r1)), and [complex_matched_filter_snr] equal to [d_inner_h] divided
    by the square root of [optimal_snr_squared].  Without time
    marginalization the call returns; with it, whenever the call returns,
    the three quantities are these. *)
Theorem calculate_snrs_inner_products
    (get_detector_response :
       Interferometer.t -> Polarizations -> Params -> option (list R) -> list C)
    (np_fft : list C -> list C)
    (self : State) (waveform_polarizations : Polarizations)
    (interferometer : Interferometer.t)
    (summary : gmap string SummaryData) (a0 a1 b0 b1 r0 r1 : list C) (n : nat) :
  compute_waveform_ratio_per_interferometer get_detector_response self
    waveform_polarizations interferometer = Ok (r0, r1) ->
  summary_data self = Some summary ->
  summary !! Interferometer.name interferometer = Some (a0, a1, b0, b1) ->
  length a0 = n -> length a1 = n -> length b0 = n -> length b1 = n ->
  length r0 = n -> length r1 = n ->
  (time_marginalization self = false ->
   calculate_snrs get_detector_response np_fft self waveform_polarizations
     interferometer
   = Ok (mkCalculatedSNRs
           (d_inner_h_sum n a0 a1 r0 r1)
           (h_inner_h_sum n b0 b1 r0 r1)
           (Cdiv (d_inner_h_sum n a0 a1 r0 r1)
                 (Csqrt (h_inner_h_sum n b0 b1 r0 r1)))
           None None None))
  /\
  (forall snrs,
     calculate_snrs get_detector_response np_fft self waveform_polarizations
       interferometer = Ok snrs ->
     d_inner_h snrs = d_inner_h_sum n a0 a1 r0 r1 /\
     optimal_snr_squared snrs = h_inner_h_sum n b0 b1 r0 r1 /\
     complex_matched_filter_snr snrs
     = Cdiv (d_inner_h snrs) (Csqrt (optimal_snr_squared snrs))).
Proof.
  intros Hratio Hsd Hlook Ha0 Ha1 Hb0 Hb1 Hr0 Hr1.
  destruct (calculate_snrs_arrays get_detector_response np_fft self
              waveform_polarizations interferometer summary a0 a1 b0 b1 r0 r1 n
              Hratio Hsd Hlook Ha0 Ha1 Hb0 Hb1 Hr0 Hr1) as (array & -> & Hplain).
  rewrite (d_inner_h_terms a0 a1 r0 r1 n) by assumption.
  rewrite (h_inner_h_terms b0 b1 r0 r1 n) by assumption.
  fold (bin_sum n (fun i => Cplus (Cmult (a0 !!! i) (Cconj (r0 !!! i)))
                                  (Cmult (a1 !!! i) (Cconj (r1 !!! i))))).
  fold (d_inner_h_sum n a0 a1 r0 r1).
  fold (bin_sum n (fun i =>
    Cplus (Cmult (b0 !!! i) (RtoC (Cabs (r0 !!! i) ^ 2)))
          (Cmult (Cmult (RtoC 2) (b1 !!! i))
                 (RtoC (Re (Cmult (r0 !!! i) (Cconj (r1 !!! i)))))))).
  fold (h_inner_h_sum n b0 b1 r0 r1).
  split.
  - intros Hno. rewrite (Hplain Hno). reflexivity.
  - intros snrs H. apply bind_Ok in H as (arr & _ & H).
    injection H as <-. simpl. auto.
Qed.

(* ===================================================================== *)
(** * The waveform ratio                                                  *)
(* ===================================================================== *)

Lemma Cplus_comm (z w : C) : Cplus z w = Cplus w z.
Proof. unfold Cplus. f_equal; lra. Qed.

Lemma length_from1 {A} (l : list A) : length (from1 l) = (length l - 1)%nat.
Proof. unfold from1. apply length_drop. Qed.

Lemma length_upto_last {A} (l : list A) : length (upto_last l) = (length l - 1)%nat.
Proof. unfold upto_last. rewrite length_take. lia. Qed.

Lemma lookup_from1 {A} (l : list A) i : from1 l !! i = l !! S i.
Proof. unfold from1. rewrite lookup_drop. reflexivity. Qed.

Lemma lookup_upto_last {A} (l : list A) i :
  (S i < length l)%nat -> upto_last l !! i = l !! i.
Proof. intros Hi. unfold upto_last. apply lookup_take_lt. lia. Qed.

(** Adjacent entries combined: [op a[1:] a[:-1]] at position [i]. *)
Lemma lookup_adjacent {A B} `{Inhabited A} (op : A -> A -> B) (l : list A) i :
  (S i < length l)%nat ->
  zip_with op (from1 l) (upto_last l) !! i = Some (op (l !!! S i) (l !!! i)).
Proof.
  intros Hi. rewrite lookup_zip_with, lookup_from1, lookup_upto_last by exact Hi.
  rewrite (list_lookup_lookup_total_lt l (S i)) by lia.
  rewrite (list_lookup_lookup_total_lt l i) by lia. reflexivity.
Qed.

Lemma length_adjacent {A B} (op : A -> A -> B) (l : list A) :
  length (zip_with op (from1 l) (upto_last l)) = (length l - 1)%nat.
Proof. rewrite length_zip_with, length_from1, length_upto_last. lia. Qed.

(** The two arrays that [compute_waveform_ratio_per_interferometer]
    returns, for any response function that gives [strain] at the bin
    edges. *)
Lemma waveform_ratio_arrays
    (response :
       Interferometer.t -> Polarizations -> Params -> option (list R) -> list C)
    (self : State) (waveform_polarizations : Polarizations)
    (interferometer : Interferometer.t)
    (edges widths : list R) (strain reference : list C) (n : nat) :
  bin_freqs self !! Interferometer.name interferometer = Some edges ->
  per_detector_fiducial_waveform_points self !! Interferometer.name interferometer
    = Some reference ->
  bin_widths self !! Interferometer.name interferometer = Some widths ->
  response interferometer waveform_polarizations (parameters self) (Some edges)
    = strain ->
  length strain = S n -> length reference = S n -> length widths = n ->
  compute_waveform_ratio_per_interferometer response self
    waveform_polarizations interferometer
  = Ok (map (fun z => Cdiv z (RtoC 2))
          (zip_with Cplus (from1 (zip_with Cdiv strain reference))
             (upto_last (zip_with Cdiv strain reference))),
        zip_with (fun z w => Cdiv z (RtoC w))
          (zip_with Cminus (from1 (zip_with Cdiv strain reference))
             (upto_last (zip_with Cdiv strain reference))) widths).
Proof.
  intros Hedges Href Hwidths Hresp Hstrain Hreflen Hwlen.
  assert (Hratio : length (zip_with Cdiv strain reference) = S n)
    by (rewrite length_zip_with; lia).
  unfold compute_waveform_ratio_per_interferometer.
  rewrite (proj2 (dict_get_Ok _ _ _) Hedges), Ok_bind, Hresp.
  rewrite (proj2 (dict_get_Ok _ _ _) Href), Ok_bind.
  rewrite (broadcast2_same Cdiv strain reference) by lia.
  rewrite Ok_bind.
  rewrite (broadcast2_same Cplus) by (rewrite length_from1, length_upto_last; lia).
  rewrite Ok_bind.
  rewrite (broadcast2_same Cminus) by (rewrite length_from1, length_upto_last; lia).
  rewrite Ok_bind.
  rewrite (proj2 (dict_get_Ok _ _ _) Hwidths), Ok_bind.
  rewrite broadcast2_same by (rewrite length_adjacent; lia).
  reflexivity.
Qed.

(** The waveform ratio in terms of the stored points: it is computed from
    one evaluation of the detector response, at the bin-edge frequencies
    [bin_freqs[name]] (any two response functions that agree on that one call
    give the same result); the response is divided elementwise by
    [per_detector_fiducial_waveform_points[name]], whatever that array holds;
    and for every bin [i], r0[i] = (ratio at edge i + ratio at edge i+1) / 2
    and r1[i] = (ratio at edge i+1 - ratio at edge i) / bin_width[i]. *)
Theorem waveform_ratio_from_bin_edges
    (get_detector_response :
       Interferometer.t -> Polarizations -> Params -> option (list R) -> list C)
    (self : State) (waveform_polarizations : Polarizations)
    (interferometer : Interferometer.t)
    (edges widths : list R) (reference : list C) (n : nat) :
  bin_freqs self !! Interferometer.name interferometer = Some edges ->
  per_detector_fiducial_waveform_points self !! Interferometer.name interferometer
    = Some reference ->
  bin_widths self !! Interferometer.name interferometer = Some widths ->
  length (get_detector_response interferometer waveform_polarizations
            (parameters self) (Some edges)) = S n ->
  length reference = S n ->
  length widths = n ->
  exists r0 r1,
    compute_waveform_ratio_per_interferometer get_detector_response self
      waveform_polarizations interferometer = Ok (r0, r1) /\
    length r0 = n /\ length r1 = n /\
    (forall i, (i < n)%nat ->
       let ratio := edge_ratio
                      (get_detector_response interferometer waveform_polarizations
                         (parameters self) (Some edges)) reference in
       r0 !! i = Some (Cdiv (Cplus (ratio i) (ratio (S i))) (RtoC 2)) /\
       r1 !! i = Some (Cdiv (Cminus (ratio (S i)) (ratio i)) (RtoC (widths !!! i)))) /\
    (forall other_response :
         Interferometer.t -> Polarizations -> Params -> option (list R) -> list C,
       other_response interferometer waveform_polarizations (parameters self)
         (Some edges)
       = get_detector_response interferometer waveform_polarizations
           (parameters self) (Some edges) ->
       compute_waveform_ratio_per_interferometer other_response self
         waveform_polarizations interferometer = Ok (r0, r1)).
Proof.
  intros Hedges Href Hwidths Hstrain Hreflen Hwlen.
  set (strain := get_detector_response interferometer waveform_polarizations
                   (parameters self) (Some edges)) in *.
  set (ratio := zip_with Cdiv strain reference).
  assert (Hratio : length ratio = S n)
    by (unfold ratio; rewrite length_zip_with; lia).
  assert (Hcompute : forall response,
    response interferometer waveform_polarizations (parameters self) (Some edges)
      = strain ->
    compute_waveform_ratio_per_interferometer response self
      waveform_polarizations interferometer
    = Ok (map (fun z => Cdiv z (RtoC 2))
            (zip_with Cplus (from1 ratio) (upto_last ratio)),
          zip_with (fun z w => Cdiv z (RtoC w))
            (zip_with Cminus (from1 ratio) (upto_last ratio)) widths)).
  { intros response Hresp.
    apply (waveform_ratio_arrays response self waveform_polarizations
             interferometer edges widths strain reference n); assumption. }
  eexists _, _. split; [apply Hcompute; reflexivity |].
  split; [rewrite length_map, length_adjacent; lia |].
  split; [rewrite length_zip_with, length_adjacent; lia |].
  split; [| intros other Hother; apply Hcompute; exact Hother].
  intros i Hi. cbv zeta.
  assert (Hr : forall k, (k < S n)%nat -> ratio !!! k = edge_ratio strain reference k).
  { intros k Hk. apply list_lookup_total_correct. unfold ratio, edge_ratio.
    rewrite lookup_zip_with.
    rewrite (list_lookup_lookup_total_lt strain k) by lia.
    rewrite (list_lookup_lookup_total_lt reference k) by lia. reflexivity. }
  split.
  - rewrite list_lookup_fmap, lookup_adjacent by lia. simpl.
    rewrite !Hr by lia. rewrite Cplus_comm. reflexivity.
  - rewrite lookup_zip_with, lookup_adjacent by lia. simpl.
    rewrite (list_lookup_lookup_total_lt widths i) by lia. simpl.
    rewrite !Hr by lia. reflexivity.
Qed.

(* ===================================================================== *)
(** * The fiducial waveform                                               *)
(* ===================================================================== *)

Lemma np_where_from_none k (cond : list bool) :
  Forall (fun b => b = false) cond -> np_where_from k cond = [].
Proof.
  intros H. revert k. induction H as [|b cond -> _ IH]; intros k; simpl; auto.
Qed.

Lemma where_last_all_zero (plus : list C) :
  Forall (fun z => z = Czero) plus ->
  where_last (map (fun z => bool_decide (z ≠ Czero)) plus) = Raise IndexError.
Proof.
  intros H. unfold where_last, np_where.
  rewrite np_where_from_none; [reflexivity |].
  apply Forall_fmap. eapply Forall_impl; [exact H |].
  intros z ->. simpl. apply bool_decide_eq_false. auto.
Qed.

(** The [return np.nan_to_num(-np.inf)] of line 205 is never reached: line
    199 has already subscripted [self.fiducial_polarizations]. *)
Lemma set_fiducial_waveforms_returns_None
    (get_detector_response :
       Interferometer.t -> Polarizations -> Params -> option (list R) -> list C)
    (frequency_domain_strain : WaveformGenerator.t -> Params -> option Polarizations)
    (parameters : Params) (self self' : State) (written : Params) (v : pyval) :
  set_fiducial_waveforms get_detector_response frequency_domain_strain
    parameters self = Ok (self', written, v) ->
  v = PyNone.
Proof.
  unfold set_fiducial_waveforms. intros H.
  apply bind_Ok in H as (plus & Hplus & H).
  apply bind_Ok in H as (idx & Hidx & H).
  apply bind_Ok in H as (f & Hf & H).
  destruct (fiducial_polarizations _) as [p|] eqn:Hp.
  - injection H as _ _ <-. reflexivity.
  - discriminate Hplus.
Qed.

(** C7.  When the fiducial polarization has no nonzero entry (line 199 looks
    at the ["plus"] polarization), [set_fiducial_waveforms] raises
    [IndexError], and so does the constructor, which calls it first; and
    [set_fiducial_waveforms] never returns the numeric sentinel of line 205:
    whenever it returns, it returns [None]. *)
Theorem all_zero_fiducial_waveform_is_fatal
    (get_detector_response :
       Interferometer.t -> Polarizations -> Params -> option (list R) -> list C)
    (frequency_domain_strain : WaveformGenerator.t -> Params -> option Polarizations)
    (differential_evolution : (list R -> R) -> list (list R) -> OptimizeResult)
    (log_likelihood_ratio : State -> R)
    (self : State) (parameters : Params)
    (polarizations : Polarizations) (plus : list C) :
  frequency_domain_strain (waveform_generator self) (<["fiducial" := 1]> parameters)
    = Some polarizations ->
  polarizations !! "plus" = Some plus ->
  Forall (fun z => z = Czero) plus ->
  set_fiducial_waveforms get_detector_response frequency_domain_strain
    parameters self = Raise IndexError
  /\ (forall parameter_bounds update_fiducial_parameters chi epsilon,
        init get_detector_response frequency_domain_strain differential_evolution
          log_likelihood_ratio self (Some parameters) parameter_bounds
          update_fiducial_parameters chi epsilon = Raise IndexError)
  /\ (forall other_parameters other_self self' written v,
        set_fiducial_waveforms get_detector_response frequency_domain_strain
          other_parameters other_self = Ok (self', written, v) ->
        v = PyNone).
Proof.
  intros Hstrain Hplus Hzero.
  assert (Hraise : forall s, waveform_generator s = waveform_generator self ->
    set_fiducial_waveforms get_detector_response frequency_domain_strain
      parameters s = Raise IndexError).
  { intros s Hs. unfold set_fiducial_waveforms.
    destruct s; simpl in *. subst. rewrite Hstrain. simpl.
    rewrite (proj2 (dict_get_Ok _ _ _) Hplus), Ok_bind.
    rewrite where_last_all_zero by exact Hzero. reflexivity. }
  split; [apply Hraise; reflexivity |].
  split.
  - intros bounds update chi0 epsilon0. unfold init.
    change (fiducial_parameters
              (init_attributes (default ∅ (Some parameters)) chi0 epsilon0 self))
      with parameters.
    rewrite Hraise by reflexivity. reflexivity.
  - intros p s s' w v H.
    eapply set_fiducial_waveforms_returns_None. exact H.
Qed.

(* ===================================================================== *)
(** * Loops                                                               *)
(* ===================================================================== *)

Lemma for_loop_app {A S} (xs ys : list A) (body : A -> S -> result S) (s : S) :
  for_loop (xs ++ ys) body s = for_loop xs body s ≫= for_loop ys body.
Proof.
  revert s. induction xs as [|x xs IH]; intros s; simpl; [reflexivity |].
  destruct (body x s) as [s'|e]; simpl; [apply IH | reflexivity].
Qed.

Lemma for_loop_cons_Ok {A S} (x : A) xs (body : A -> S -> result S) s s' :
  for_loop (x :: xs) body s = Ok s' <->
  exists s1, body x s = Ok s1 /\ for_loop xs body s1 = Ok s'.
Proof. simpl. apply bind_Ok. Qed.

Lemma py_range_nonneg (n : Z) : (0 <= n)%Z -> py_range n = seq 0 (Z.to_nat n).
Proof. reflexivity. Qed.

(* ===================================================================== *)
(** * The bin planner                                                     *)
(* ===================================================================== *)

Lemma setup_bins_edge_Ok fa fu dpfs N i bf bi bf' bi' :
  setup_bins_edge fa fu dpfs N i (bf, bi) = Ok (bf', bi') <->
  N <> 0%Z /\ (i < length bf)%nat /\ (i < length bi)%nat /\
  exists x k, edge_at fa fu dpfs N i x k /\
              bf' = <[i := x]> bf /\ bi' = <[i := k]> bi.
Proof.
  unfold setup_bins_edge, edge_at. simpl. case_bool_decide as HN.
  { split; [discriminate | intros (? & _); contradiction]. }
  split.
  - intros H. inv_bind H.
    apply getitem_last_Ok in Hv. apply where_first_threshold in Hv0.
    apply getitem_Ok in Hv1. apply setitem_Ok in Hv2 as [? ->].
    apply where_first_threshold in Hv3. apply setitem_Ok in Hv4 as [? ->].
    injection H as <- <-. repeat split; try assumption.
    exists v1, v3. split; [| split; reflexivity].
    exists v, v0. auto.
  - intros (_ & Hbf & Hbi & x & k & (total & j & Hl & Hj & Hx & Hk) & -> & ->).
    rewrite (proj2 (getitem_last_Ok _ _) Hl), Ok_bind.
    rewrite (proj2 (where_first_threshold _ _ _) Hj), Ok_bind.
    rewrite (proj2 (getitem_Ok _ _ _) Hx), Ok_bind.
    rewrite (proj2 (setitem_Ok _ _ _ _) (conj Hbf eq_refl)), Ok_bind.
    rewrite (proj2 (where_first_threshold _ _ _) Hk), Ok_bind.
    rewrite (proj2 (setitem_Ok _ _ _ _) (conj Hbi eq_refl)), Ok_bind.
    reflexivity.
Qed.

(** The edge loop over [a, a + n) writes positions [a .. a+n-1] and leaves
    the others. *)
Lemma setup_bins_edges_Ok fa fu dpfs N n : forall a bf bi bf' bi',
  for_loop (seq a n) (setup_bins_edge fa fu dpfs N) (bf, bi) = Ok (bf', bi') ->
  length bf' = length bf /\ length bi' = length bi /\
  (n <> 0%nat -> N <> 0%Z) /\
  (forall i, (a <= i < a + n)%nat ->
     exists x k, edge_at fa fu dpfs N i x k /\
                 bf' !! i = Some x /\ bi' !! i = Some k) /\
  (forall i, ~ (a <= i < a + n)%nat ->
     bf' !! i = bf !! i /\ bi' !! i = bi !! i).
Proof.
  induction n as [|n IH]; intros a bf bi bf' bi' H.
  - simpl in H. injection H as <- <-.
    split; [reflexivity |]. split; [reflexivity |]. split; [congruence |].
    split; [intros i Hi; lia | auto].
  - simpl in H. apply bind_Ok in H as ([bf1 bi1] & Hstep & Hrest).
    apply setup_bins_edge_Ok in Hstep
      as (HN & Hbf & Hbi & x & k & Hedge & -> & ->).
    apply IH in Hrest as (Hl1 & Hl2 & _ & Hin & Hout).
    rewrite length_insert in Hl1. rewrite length_insert in Hl2.
    split; [exact Hl1 |]. split; [exact Hl2 |]. split; [intros _; exact HN |].
    split.
    + intros i Hi. destruct (decide (i = a)) as [->|Hne].
      * exists x, k. split; [exact Hedge |].
        destruct (Hout a ltac:(lia)) as [-> ->].
        rewrite !list_lookup_insert_eq by assumption. auto.
      * apply Hin. lia.
    + intros i Hi. destruct (Hout i ltac:(lia)) as [-> ->].
      split; apply list_lookup_insert_ne; lia.
Qed.

(** The converse: when every edge of the range can be placed, the loop
    returns. *)
Lemma setup_bins_edges_total fa fu dpfs N n : forall a bf bi,
  N <> 0%Z -> (a + n <= length bf)%nat -> (a + n <= length bi)%nat ->
  (forall i, (a <= i < a + n)%nat -> exists x k, edge_at fa fu dpfs N i x k) ->
  exists bf' bi',
    for_loop (seq a n) (setup_bins_edge fa fu dpfs N) (bf, bi) = Ok (bf', bi').
Proof.
  induction n as [|n IH]; intros a bf bi HN Hbf Hbi Hall.
  - exists bf, bi. reflexivity.
  - destruct (Hall a ltac:(lia)) as (x & k & Hedge).
    destruct (IH (S a) (<[a := x]> bf) (<[a := k]> bi)) as (bf' & bi' & Hrest).
    + exact HN.
    + rewrite length_insert. lia.
    + rewrite length_insert. lia.
    + intros i Hi. apply Hall. lia.
    + exists bf', bi'. simpl.
      rewrite (proj2 (setup_bins_edge_Ok fa fu dpfs N a bf bi
                        (<[a := x]> bf) (<[a := k]> bi))).
      * rewrite Ok_bind. exact Hrest.
      * split; [exact HN |]. split; [lia |]. split; [lia |].
        exists x, k. auto.
Qed.

Lemma int_floor_divide_Ok total epsilon N :
  int_floor_divide total epsilon = Ok N <->
  epsilon <> 0 /\ N = Zfloor (total / epsilon).
Proof.
  unfold int_floor_divide. case_bool_decide; split.
  - discriminate.
  - intros [? _]. contradiction.
  - intros [= <-]. auto.
  - intros [_ ->]. reflexivity.
Qed.

Lemma d_phi_from_start_Ok dp dpfs :
  d_phi_from_start dp = Ok dpfs <->
  exists d0, dp !! 0%nat = Some d0 /\ dpfs = map (fun d => d - d0) dp.
Proof.
  unfold d_phi_from_start. split.
  - intros H. inv_bind H. apply getitem_Ok in Hv. injection H as <-. exists v. auto.
  - intros (d0 & H0 & ->). rewrite (proj2 (getitem_Ok _ _ _) H0). reflexivity.
Qed.

(** What a successful plan of one detector consists of. *)
Lemma setup_bins_plan_Ok fa chi0 eps ifo N bf bi :
  setup_bins_plan fa chi0 eps ifo = Ok (N, (bf, bi)) ->
  exists fu dpfs total,
    frequency_array_useful fa ifo = Ok fu /\
    d_phi_from_start (d_phi (d_alpha chi0 ifo) fu) = Ok dpfs /\
    last dpfs = Some total /\
    eps <> 0 /\ N = Zfloor (total / eps) /\
    (N = (-1)%Z \/ (1 <= N)%Z) /\
    length bf = Z.to_nat (N + 1) /\ length bi = Z.to_nat (N + 1) /\
    (forall i, (i < Z.to_nat (N + 1))%nat ->
       exists x k, edge_at fa fu dpfs N i x k /\
                   bf !! i = Some x /\ bi !! i = Some k).
Proof.
  unfold setup_bins_plan. intros H. inv_bind H.
  apply getitem_last_Ok in Hv1. apply int_floor_divide_Ok in Hv2 as [Heps HN].
  apply np_zeros_Ok in Hv3 as [Hnn ->]. apply np_zeros_Ok in Hv4 as [_ ->].
  destruct v5 as [bf' bi']. injection H as <- <- <-.
  unfold py_range in Hv5.
  apply setup_bins_edges_Ok in Hv5 as (Hl1 & Hl2 & HN0 & Hin & _).
  rewrite length_replicate in Hl1. rewrite length_replicate in Hl2.
  exists v, v0, v1. repeat split; try assumption.
  - destruct (decide (v2 = 0%Z)) as [Hz|Hz]; [| lia].
    exfalso. apply HN0; [| exact Hz]. rewrite Hz. simpl. lia.
  - intros i Hi. apply Hin. lia.
Qed.

(** ** The usable band *)

Lemma elem_of_np_where_from k cond i :
  i ∈ np_where_from k cond <-> (k <= i)%nat /\ cond !! (i - k)%nat = Some true.
Proof.
  revert k. induction cond as [|b cond IH]; intros k; simpl.
  - rewrite elem_of_nil. split; [tauto | intros [_ H]; discriminate].
  - assert (Hstep : i ∈ np_where_from (S k) cond <->
                    (k < i)%nat /\ (b :: cond) !! (i - k)%nat = Some true).
    { rewrite IH. split.
      - intros [Hle H]. split; [lia |].
        replace (i - k)%nat with (S (i - S k)) by lia. exact H.
      - intros [Hlt H]. split; [lia |].
        replace (i - k)%nat with (S (i - S k)) in H by lia. exact H. }
    destruct b.
    + rewrite elem_of_cons, Hstep. split.
      * intros [-> | [Hlt H]].
        -- split; [lia |]. replace (k - k)%nat with 0%nat by lia. reflexivity.
        -- split; [lia | exact H].
      * intros [Hle H]. destruct (decide (i = k)) as [->|Hne]; [left; reflexivity |].
        right. split; [lia | exact H].
    + rewrite Hstep. split.
      * intros [Hlt H]. split; [lia | exact H].
      * intros [Hle H]. destruct (decide (i = k)) as [->|Hne].
        -- replace (k - k)%nat with 0%nat in H by lia. discriminate.
        -- split; [lia | exact H].
Qed.

Lemma np_where_from_ge k cond i : i ∈ np_where_from k cond -> (k <= i)%nat.
Proof. rewrite elem_of_np_where_from. tauto. Qed.

Lemma filter_ext_elem {A} (P1 P2 : A -> Prop)
    `{!forall x, Decision (P1 x)} `{!forall x, Decision (P2 x)} (l : list A) :
  (forall x, x ∈ l -> P1 x <-> P2 x) -> filter P1 l = filter P2 l.
Proof.
  induction l as [|x l IH]; intros Hext; [reflexivity |].
  rewrite !filter_cons.
  rewrite IH by (intros y Hy; apply Hext; right; exact Hy).
  pose proof (Hext x (list_elem_of_here x l)) as Hx.
  destruct (decide (P1 x)), (decide (P2 x)); try reflexivity; tauto.
Qed.

Lemma take_indices_cons {A} (a : list A) i inds :
  take_indices a (i :: inds)
  = getitem a i ≫= fun x => take_indices a inds ≫= fun k => Ok (x :: k).
Proof. reflexivity. Qed.

(** Indexing with the intersection of two [np.where] results keeps the
    entries that pass both tests, in order. *)
Lemma take_indices_intersect {A} (P Q : A -> Prop)
    `{!forall x, Decision (P x)} `{!forall x, Decision (Q x)} (pre l : list A) :
  take_indices (pre ++ l)
    (intersect1d (np_where_from (length pre) (map (fun x => bool_decide (P x)) l))
                 (np_where_from (length pre) (map (fun x => bool_decide (Q x)) l)))
  = Ok (filter (fun x => P x /\ Q x) l).
Proof.
  revert pre. induction l as [|x l IH]; intros pre; [reflexivity |].
  set (p := fun x => bool_decide (P x)). set (q := fun x => bool_decide (Q x)).
  assert (Hrest :
    filter (fun i => i ∈ np_where_from (length pre) (q x :: map q l))
           (np_where_from (S (length pre)) (map p l))
    = filter (fun i => i ∈ np_where_from (S (length pre)) (map q l))
             (np_where_from (S (length pre)) (map p l))).
  { apply filter_ext_elem. intros i Hi. apply np_where_from_ge in Hi.
    rewrite !elem_of_np_where_from.
    replace (i - length pre)%nat with (S (i - S (length pre))) by lia.
    simpl. split; intros [? Hc]; (split; [lia | exact Hc]). }
  specialize (IH (pre ++ [x])). rewrite <- app_assoc in IH. simpl in IH.
  rewrite length_app in IH. simpl in IH.
  replace (length pre + 1)%nat with (S (length pre)) in IH by lia.
  fold p q in IH.
  unfold intersect1d in *.
  change (map p (x :: l)) with (p x :: map p l).
  change (map q (x :: l)) with (q x :: map q l).
  assert (Hk : x :: l = [] ++ x :: l) by reflexivity.
  assert (Hhere : length pre ∈ np_where_from (length pre) (q x :: map q l) <-> Q x).
  { rewrite elem_of_np_where_from.
    replace (length pre - length pre)%nat with 0%nat by lia. simpl. unfold q.
    split.
    - intros [_ [= Hc]]. apply bool_decide_eq_true in Hc. exact Hc.
    - intros Hc. split; [lia |]. f_equal. apply bool_decide_eq_true. exact Hc. }
  rewrite (filter_cons (fun x => P x /\ Q x)).
  unfold p at 1. case_bool_decide as HP.
  - change (np_where_from (length pre) (true :: map p l))
      with (length pre :: np_where_from (S (length pre)) (map p l)).
    rewrite filter_cons. destruct (decide _) as [Hin|Hnin].
    + rewrite take_indices_cons.
      rewrite (proj2 (getitem_Ok (pre ++ x :: l) (length pre) x))
        by (apply list_lookup_middle; reflexivity).
      rewrite Ok_bind. rewrite Hrest, IH. rewrite Ok_bind.
      apply Hhere in Hin. rewrite decide_True by auto. reflexivity.
    + rewrite Hrest, IH.
      rewrite decide_False; [reflexivity |]. intros [_ HQ]. apply Hnin, Hhere, HQ.
  - change (np_where_from (length pre) (false :: map p l))
      with (np_where_from (S (length pre)) (map p l)).
    rewrite Hrest, IH.
    rewrite decide_False; [reflexivity | tauto].
Qed.

Lemma frequency_array_useful_filter fa ifo :
  frequency_array_useful fa ifo
  = Ok (filter (fun f => Interferometer.minimum_frequency ifo <= f /\
                         f <= Interferometer.maximum_frequency ifo) fa).
Proof.
  unfold frequency_array_useful, np_where.
  apply (take_indices_intersect
           (fun f => Interferometer.minimum_frequency ifo <= f)
           (fun f => f <= Interferometer.maximum_frequency ifo) [] fa).
Qed.

(** ** Ordered arrays *)

Lemma increasing_cons x (l : list R) :
  increasing (x :: l) <-> Forall (fun y => x < y) l /\ increasing l.
Proof.
  unfold increasing. split.
  - intros Hinc. split.
    + apply Forall_forall. intros y Hy. apply list_elem_of_lookup in Hy as [i Hi].
      apply (Hinc 0%nat (S i) x y); [lia | reflexivity | exact Hi].
    + intros i j a b Hij Ha Hb. apply (Hinc (S i) (S j) a b); [lia | exact Ha | exact Hb].
  - intros [Hall Hinc] i j a b Hij Ha Hb.
    destruct j as [|j]; [lia |]. simpl in Hb.
    destruct i as [|i].
    + injection Ha as <-. rewrite Forall_forall in Hall. apply Hall.
      eapply list_elem_of_lookup_2. exact Hb.
    + simpl in Ha. apply (Hinc i j a b); [lia | exact Ha | exact Hb].
Qed.

Lemma increasing_filter (P : R -> Prop) `{!forall x, Decision (P x)} (l : list R) :
  increasing l -> increasing (filter P l).
Proof.
  induction l as [|x l IH]; intros Hinc; [exact Hinc |].
  apply increasing_cons in Hinc as [Hall Hinc].
  rewrite filter_cons. destruct (decide (P x)); [| auto].
  apply increasing_cons. split; [| auto].
  apply Forall_forall. intros y Hy. apply list_elem_of_filter in Hy as [_ Hy].
  rewrite Forall_forall in Hall. auto.
Qed.

Lemma increasing_map (h : R -> R) (l : list R) :
  (forall a b, a ∈ l -> b ∈ l -> a < b -> h a < h b) ->
  increasing l -> increasing (map h l).
Proof.
  intros Hh Hinc i j a b Hij Ha Hb.
  rewrite list_lookup_fmap in Ha, Hb.
  destruct (l !! i) as [a'|] eqn:Hi; [| discriminate].
  destruct (l !! j) as [b'|] eqn:Hj; [| discriminate].
  injection Ha as <-. injection Hb as <-.
  apply Hh; [eapply list_elem_of_lookup_2; eauto .. |].
  eapply Hinc; eauto.
Qed.

Lemma increasing_nondecreasing (l : list R) : increasing l -> nondecreasing l.
Proof.
  intros Hinc i j a b Hij Ha Hb. destruct (decide (i = j)) as [->|Hne].
  - rewrite Ha in Hb. injection Hb as ->. lra.
  - left. apply (Hinc i j a b); [lia | exact Ha | exact Hb].
Qed.

(** On an increasing array the last entry is first reached at the last
    index. *)
Lemma first_at_or_above_last (l : list R) total j :
  increasing l -> last l = Some total -> first_at_or_above l total j ->
  j = pred (length l).
Proof.
  intros Hinc Hlast [(x & Hx & Hle) _]. rewrite last_lookup in Hlast.
  pose proof (lookup_lt_Some _ _ _ Hx) as Hlt.
  destruct (decide (j = pred (length l))) as [|Hne]; [assumption |].
  exfalso. pose proof (Hinc j (pred (length l)) x total ltac:(lia) Hx Hlast). lra.
Qed.

(** ** The phase curve *)

Lemma np_power_pos x g : 0 < np_power x g.
Proof. unfold np_power, Rpower. apply exp_pos. Qed.

Lemma np_power_le x y g :
  0 < x <= y -> (0 <= g -> np_power x g <= np_power y g) /\
                (g <= 0 -> np_power y g <= np_power x g).
Proof.
  intros Hxy. unfold np_power. split; intros Hg.
  - apply Rle_Rpower_l; assumption.
  - replace g with (- - g) by lra. rewrite !(Rpower_Ropp _ (- g)).
    apply Rinv_le_contravar; [apply exp_pos |].
    apply Rle_Rpower_l; [lra | assumption].
Qed.

Lemma np_power_lt x y g :
  0 < x < y -> (0 < g -> np_power x g < np_power y g) /\
               (g < 0 -> np_power y g < np_power x g).
Proof.
  intros Hxy. unfold np_power. split; intros Hg.
  - apply Rlt_Rpower_l; assumption.
  - replace g with (- - g) by lra. rewrite !(Rpower_Ropp _ (- g)).
    apply Rinv_lt_contravar.
    + apply Rmult_lt_0_compat; apply exp_pos.
    + apply Rlt_Rpower_l; [lra | assumption].
Qed.

(** One row of line 170 at one frequency. *)
Lemma phase_term_le g da x y :
  0 <= da -> 0 < x <= y ->
  np_sign g * da * np_power x g <= np_sign g * da * np_power y g.
Proof.
  intros Hda Hxy. destruct (np_power_le x y g Hxy) as [Hpos Hneg].
  unfold np_sign. repeat case_bool_decide.
  - specialize (Hneg ltac:(lra)). nra.
  - specialize (Hpos ltac:(lra)). nra.
  - lra.
Qed.

Lemma phase_term_lt g da x y :
  0 < da -> g <> 0 -> 0 < x < y ->
  np_sign g * da * np_power x g < np_sign g * da * np_power y g.
Proof.
  intros Hda Hg Hxy. destruct (np_power_lt x y g Hxy) as [Hpos Hneg].
  unfold np_sign. repeat case_bool_decide.
  - specialize (Hneg ltac:(lra)). nra.
  - specialize (Hpos ltac:(lra)). nra.
  - lra.
Qed.


Lemma d_alpha_entry_pos chi0 ifo g :
  0 < chi0 -> g <> 0 ->
  0 < chi0 * 2 * PI /
      Rabs (np_power (Interferometer.minimum_frequency ifo) g * heaviside (- g) 1
            - np_power (Interferometer.maximum_frequency ifo) g * heaviside g 1).
Proof.
  intros Hchi Hg. pose proof PI_RGT_0 as Hpi.
  unfold Rdiv. apply Rmult_lt_0_compat; [nra |].
  apply Rinv_0_lt_compat. apply Rabs_pos_lt.
  pose proof (np_power_pos (Interferometer.minimum_frequency ifo) g).
  pose proof (np_power_pos (Interferometer.maximum_frequency ifo) g).
  unfold heaviside. repeat case_bool_decide; lra.
Qed.

(** The sum over the exponents at one frequency. *)
Lemma phase_sum_le (gs das : list R) x y :
  Forall (fun da => 0 <= da) das -> 0 < x <= y ->
  Rsum (zip_with (fun g da => np_sign g * da * np_power x g) gs das)
  <= Rsum (zip_with (fun g da => np_sign g * da * np_power y g) gs das).
Proof.
  intros Hdas Hxy. revert das Hdas.
  induction gs as [|g gs IH]; intros das Hdas; simpl; [lra |].
  destruct Hdas as [|da das Hda Hdas]; simpl; [lra |].
  pose proof (phase_term_le g da x y Hda Hxy). pose proof (IH das Hdas). lra.
Qed.

Lemma phase_sum_lt (gs : list R) (D : R -> R) x y :
  gs <> [] -> Forall (fun g => g <> 0 /\ 0 < D g) gs -> 0 < x < y ->
  Rsum (zip_with (fun g da => np_sign g * da * np_power x g) gs (map D gs))
  < Rsum (zip_with (fun g da => np_sign g * da * np_power y g) gs (map D gs)).
Proof.
  intros Hne Hgs Hxy.
  destruct Hgs as [|g gs [Hg HD] Hgs]; [contradiction |]. simpl.
  pose proof (phase_term_lt g (D g) x y HD Hg Hxy).
  assert (Hrest : Forall (fun da => 0 <= da) (map D gs)).
  { apply Forall_fmap. eapply Forall_impl; [exact Hgs |]. intros a [_ Ha]. simpl. lra. }
  pose proof (phase_sum_le gs (map D gs) x y Hrest ltac:(lra)). lra.
Qed.

Lemma gamma_nonzero : Forall (fun g => g <> 0) gamma.
Proof. unfold gamma. repeat constructor; lra. Qed.

(** For a positive [chi] the phase curve rises strictly along an
    increasing positive band. *)
Lemma d_phi_increasing chi0 ifo (fu : list R) :
  0 < chi0 -> Forall (fun f => 0 < f) fu -> increasing fu ->
  increasing (d_phi (d_alpha chi0 ifo) fu).
Proof.
  intros Hchi Hpos Hinc. unfold d_phi, d_alpha. apply increasing_map; [| exact Hinc].
  intros a b Ha Hb Hab. rewrite Forall_forall in Hpos.
  apply (phase_sum_lt gamma _ a b).
  - discriminate.
  - eapply Forall_impl; [exact gamma_nonzero |]. intros g Hg. split; [exact Hg |].
    apply d_alpha_entry_pos; assumption.
  - split; [apply Hpos; exact Ha | exact Hab].
Qed.

Lemma nondecreasing_map (h : R -> R) (l : list R) :
  (forall a b, a ∈ l -> b ∈ l -> a <= b -> h a <= h b) ->
  nondecreasing l -> nondecreasing (map h l).
Proof.
  intros Hh Hinc i j a b Hij Ha Hb.
  rewrite list_lookup_fmap in Ha, Hb.
  destruct (l !! i) as [a'|] eqn:Hi; [| discriminate].
  destruct (l !! j) as [b'|] eqn:Hj; [| discriminate].
  injection Ha as <-. injection Hb as <-.
  apply Hh; [eapply list_elem_of_lookup_2; eauto .. |].
  eapply Hinc; eauto.
Qed.


(** Anchoring the curve at its first entry keeps its order and makes the
    first entry zero. *)
Lemma d_phi_from_start_anchor dp dpfs :
  d_phi_from_start dp = Ok dpfs ->
  dpfs !! 0%nat = Some 0 /\ length dpfs = length dp /\
  (increasing dp -> increasing dpfs) /\
  (nondecreasing dp -> nondecreasing dpfs).
Proof.
  intros H. apply d_phi_from_start_Ok in H as (d0 & H0 & ->).
  split; [rewrite list_lookup_fmap, H0; simpl; f_equal; lra |].
  split; [apply length_map |]. split; intros Hinc.
  - apply increasing_map; [| exact Hinc]. intros; lra.
  - apply nondecreasing_map; [| exact Hinc]. intros; lra.
Qed.

(** ** The edges of one detector *)

Lemma first_at_or_above_zero (l : list R) j :
  l !! 0%nat = Some 0 -> first_at_or_above l 0 j -> j = 0%nat.
Proof.
  intros H0 [_ Hbefore]. destruct j as [|j]; [reflexivity |].
  specialize (Hbefore 0%nat 0 ltac:(lia) H0). lra.
Qed.

Lemma increasing_head_le (l : list R) h x :
  increasing l -> head l = Some h -> x ∈ l -> h <= x.
Proof.
  intros Hinc Hh Hx. rewrite head_lookup in Hh.
  apply list_elem_of_lookup in Hx as [i Hi].
  apply (increasing_nondecreasing l Hinc 0%nat i h x); [lia | exact Hh | exact Hi].
Qed.

Lemma increasing_le_last (l : list R) t x :
  increasing l -> last l = Some t -> x ∈ l -> x <= t.
Proof.
  intros Hinc Ht Hx. rewrite last_lookup in Ht.
  apply list_elem_of_lookup in Hx as [i Hi].
  pose proof (lookup_lt_Some _ _ _ Hi).
  apply (increasing_nondecreasing l Hinc i (pred (length l)) x t); [lia | exact Hi | exact Ht].
Qed.

(** The ends of the usable band when the detector's bounds are on the
    grid. *)
Lemma useful_band_ends (fa : list R) lo hi :
  increasing fa -> lo <= hi ->
  (lo ∈ fa -> head (filter (fun f => lo <= f /\ f <= hi) fa) = Some lo) /\
  (hi ∈ fa -> last (filter (fun f => lo <= f /\ f <= hi) fa) = Some hi).
Proof.
  intros Hinc Hle.
  pose proof (increasing_filter (fun f => lo <= f /\ f <= hi) fa Hinc) as Hf.
  split; intros Hin.
  - assert (Hlo : lo ∈ filter (fun f => lo <= f /\ f <= hi) fa)
      by (apply list_elem_of_filter; split; [lra | exact Hin]).
    destruct (head _) as [h|] eqn:Hh.
    + pose proof (increasing_head_le _ h lo Hf Hh Hlo).
      apply head_Some_elem_of in Hh. apply list_elem_of_filter in Hh as [[? ?] _].
      f_equal. lra.
    + apply head_None in Hh. rewrite Hh in Hlo. inversion Hlo.
  - assert (Hhi : hi ∈ filter (fun f => lo <= f /\ f <= hi) fa)
      by (apply list_elem_of_filter; split; [lra | exact Hin]).
    destruct (last _) as [t|] eqn:Ht.
    + pose proof (increasing_le_last _ t hi Hf Ht Hhi).
      apply last_Some_elem_of in Ht. apply list_elem_of_filter in Ht as [[? ?] _].
      f_equal. lra.
    + apply last_None in Ht. rewrite Ht in Hhi. inversion Hhi.
Qed.

Lemma widths_of_lookup (bf : list R) i w :
  widths_of bf !! i = Some w ->
  exists a b, bf !! i = Some a /\ bf !! S i = Some b /\ w = b - a.
Proof.
  unfold widths_of. intros H.
  assert (Hlen : (S i < length bf)%nat).
  { apply lookup_lt_Some in H. rewrite length_adjacent in H. lia. }
  rewrite lookup_adjacent in H by exact Hlen. injection H as <-.
  exists (bf !!! i), (bf !!! S i).
  split; [apply list_lookup_lookup_total_lt; lia |].
  split; [apply list_lookup_lookup_total_lt; lia | reflexivity].
Qed.

(** The order of the edges that a successful plan places: with positive
    [chi] and [epsilon] on an increasing positive grid, the plan has at
    least one bin, its edge frequencies and edge indices never decrease,
    and its first and last edges are the ends of the usable band. *)
Lemma setup_bins_plan_order fa chi0 eps ifo N bf bi :
  setup_bins_plan fa chi0 eps ifo = Ok (N, (bf, bi)) ->
  0 < chi0 -> 0 < eps -> Forall (fun f => 0 < f) fa -> increasing fa ->
  (1 <= N)%Z /\ nondecreasing bf /\ nondecreasing_nat bi /\
  head bf = head (filter (fun f => Interferometer.minimum_frequency ifo <= f /\
                                   f <= Interferometer.maximum_frequency ifo) fa) /\
  last bf = last (filter (fun f => Interferometer.minimum_frequency ifo <= f /\
                                   f <= Interferometer.maximum_frequency ifo) fa).
Proof.
  intros Hplan Hchi Heps Hpos Hinc.
  apply setup_bins_plan_Ok in Hplan
    as (fu & dpfs & total & Hfu & Hdpfs & Hlast & _ & HN & HNcases & Hlbf & Hlbi & Hedges).
  rewrite frequency_array_useful_filter in Hfu. injection Hfu as Hfu.
  set (band := filter _ fa) in *. subst fu.
  assert (Hband_inc : increasing band) by (apply increasing_filter; exact Hinc).
  assert (Hband_pos : Forall (fun f => 0 < f) band).
  { apply Forall_forall. intros f Hf. apply list_elem_of_filter in Hf as [_ Hf].
    rewrite Forall_forall in Hpos. auto. }
  pose proof (d_phi_increasing chi0 ifo band Hchi Hband_pos Hband_inc) as Hdp.
  apply d_phi_from_start_anchor in Hdpfs as (H0 & Hlen & Hkeep & _).
  specialize (Hkeep Hdp).
  unfold d_phi in Hlen. rewrite length_map in Hlen.
  assert (Htotal : 0 <= total).
  { rewrite last_lookup in Hlast.
    apply (increasing_nondecreasing dpfs Hkeep 0%nat (pred (length dpfs)) 0 total);
      [lia | exact H0 | exact Hlast]. }
  assert (HN1 : (1 <= N)%Z).
  { destruct HNcases as [Hm|]; [| assumption]. exfalso.
    assert (0 <= Zfloor (total / eps))%Z.
    { apply Zfloor_lub. simpl. apply Rmult_le_pos; [exact Htotal |].
      left. apply Rinv_0_lt_compat. exact Heps. }
    lia. }
  assert (HNr : 0 < IZR N) by (apply IZR_lt; lia).
  assert (Htarget : forall i i', (i <= i')%nat ->
            INR i / IZR N * total <= INR i' / IZR N * total).
  { intros i i' Hii. apply le_INR in Hii.
    apply Rmult_le_compat_r; [exact Htotal |].
    apply Rmult_le_compat_r; [left; apply Rinv_0_lt_compat; exact HNr | exact Hii]. }
  assert (Hedge : forall i a, bf !! i = Some a ->
            exists j k, first_at_or_above dpfs (INR i / IZR N * total) j /\
                        band !! j = Some a /\ first_at_or_above fa a k /\
                        bi !! i = Some k).
  { intros i a Ha. pose proof (lookup_lt_Some _ _ _ Ha) as Hi. rewrite Hlbf in Hi.
    destruct (Hedges i Hi) as (x & k & (total' & j & Hl' & Hj & Hx & Hk) & Hbx & Hbk).
    rewrite Hlast in Hl'. injection Hl' as <-.
    rewrite Ha in Hbx. injection Hbx as <-. exists j, k. auto. }
  split; [exact HN1 |]. split; [| split; [| split]].
  - intros i i' a b Hii Ha Hb.
    destruct (Hedge i a Ha) as (j & _ & Hj & Hja & _).
    destruct (Hedge i' b Hb) as (j' & _ & Hj' & Hjb & _).
    pose proof (first_at_or_above_mono dpfs _ _ j j' (Htarget i i' Hii) Hj Hj').
    apply (increasing_nondecreasing band Hband_inc j j' a b); assumption.
  - intros i i' k k' Hii Hk Hk'.
    pose proof (lookup_lt_Some _ _ _ Hk) as Hi. rewrite Hlbi, <- Hlbf in Hi.
    pose proof (lookup_lt_Some _ _ _ Hk') as Hi'. rewrite Hlbi, <- Hlbf in Hi'.
    destruct (lookup_lt_is_Some_2 bf i Hi) as [a Ha].
    destruct (lookup_lt_is_Some_2 bf i' Hi') as [b Hb].
    destruct (Hedge i a Ha) as (j & k0 & Hj & Hja & Hka & Hbk).
    destruct (Hedge i' b Hb) as (j' & k0' & Hj' & Hjb & Hkb & Hbk').
    rewrite Hk in Hbk. injection Hbk as <-.
    rewrite Hk' in Hbk'. injection Hbk' as <-.
    pose proof (first_at_or_above_mono dpfs _ _ j j' (Htarget i i' Hii) Hj Hj').
    pose proof (increasing_nondecreasing band Hband_inc j j' a b ltac:(assumption) Hja Hjb).
    apply (first_at_or_above_mono fa a b); assumption.
  - assert (H0lt : (0 < length bf)%nat) by (rewrite Hlbf; lia).
    destruct (lookup_lt_is_Some_2 bf 0%nat H0lt) as [a Ha].
    destruct (Hedge 0%nat a Ha) as (j & _ & Hj & Hja & _).
    replace (INR 0 / IZR N * total) with 0 in Hj by (simpl; unfold Rdiv; lra).
    apply (first_at_or_above_zero dpfs j H0) in Hj. subst j.
    rewrite !head_lookup. congruence.
  - assert (HNlt : (Z.to_nat N < length bf)%nat) by (rewrite Hlbf; lia).
    destruct (lookup_lt_is_Some_2 bf (Z.to_nat N) HNlt) as [a Ha].
    destruct (Hedge (Z.to_nat N) a Ha) as (j & _ & Hj & Hja & _).
    replace (INR (Z.to_nat N) / IZR N * total) with total in Hj.
    2:{ rewrite INR_IZR_INZ, Z2Nat.id by lia. field. lra. }
    apply (first_at_or_above_last dpfs total j Hkeep Hlast) in Hj. subst j.
    rewrite !last_lookup. rewrite Hlbf.
    replace (pred (Z.to_nat (N + 1))) with (Z.to_nat N) by lia.
    rewrite Ha, <- Hja, Hlen. reflexivity.
Qed.

Lemma nondecreasing_widths (bf : list R) :
  nondecreasing bf -> Forall (fun w => 0 <= w) (widths_of bf).
Proof.
  intros Hnd. apply Forall_lookup. intros i w Hw.
  apply widths_of_lookup in Hw as (a & b & Ha & Hb & ->).
  pose proof (Hnd i (S i) a b ltac:(lia) Ha Hb). lra.
Qed.

(** ** The loop over the detectors *)

Lemma setup_bins_interferometer_Ok fa ifo s s' :
  setup_bins_interferometer fa ifo s = Ok s' <->
  exists N bf bi h0 points,
    setup_bins_plan fa (chi s) (epsilon s) ifo = Ok (N, (bf, bi)) /\
    per_detector_fiducial_waveforms s !! Interferometer.name ifo = Some h0 /\
    take_indices h0 bi = Ok points /\
    s' = store_bins (Interferometer.name ifo) N bf bi (widths_of bf)
           (centers_of bf) points s.
Proof.
  unfold setup_bins_interferometer. split.
  - intros H. apply bind_Ok in H as ([N [bf bi]] & Hplan & H).
    apply bind_Ok in H as (h0 & Hh0 & H). apply bind_Ok in H as (pts & Hpts & H).
    injection H as <-. apply dict_get_Ok in Hh0.
    exists N, bf, bi, h0, pts. auto.
  - intros (N & bf & bi & h0 & pts & Hplan & Hh0 & Hpts & ->).
    rewrite Hplan, Ok_bind. rewrite (proj2 (dict_get_Ok _ _ _) Hh0), Ok_bind.
    rewrite Hpts. reflexivity.
Qed.

(** What the loop of [setup_bins] reads is what it leaves alone; and it
    writes the BinSet only under the names of the detectors it visits. *)
Lemma setup_bins_loop_frame fa ifos : forall s s',
  for_loop ifos (setup_bins_interferometer fa) s = Ok s' ->
  chi s' = chi s /\ epsilon s' = epsilon s /\
  per_detector_fiducial_waveforms s' = per_detector_fiducial_waveforms s /\
  interferometers s' = interferometers s /\
  WaveformGenerator.frequency_array (waveform_generator s')
  = WaveformGenerator.frequency_array (waveform_generator s) /\
  (forall name, name ∉ map Interferometer.name ifos ->
     bin_freqs s' !! name = bin_freqs s !! name /\
     bin_inds s' !! name = bin_inds s !! name /\
     bin_widths s' !! name = bin_widths s !! name /\
     bin_centers s' !! name = bin_centers s !! name /\
     per_detector_fiducial_waveform_points s' !! name
     = per_detector_fiducial_waveform_points s !! name).
Proof.
  induction ifos as [|ifo ifos IH]; intros s s' H.
  - injection H as <-. repeat split; reflexivity.
  - apply for_loop_cons_Ok in H as (s1 & Hstep & Hrest).
    apply setup_bins_interferometer_Ok in Hstep
      as (N & bf & bi & h0 & pts & _ & _ & _ & ->).
    apply IH in Hrest as (-> & -> & -> & -> & -> & Hnames).
    do 5 (split; [reflexivity |]).
    intros name Hname. simpl in Hname.
    apply not_elem_of_cons in Hname as [Hne Hnot].
    destruct (Hnames name Hnot) as (-> & -> & -> & -> & ->).
    simpl. rewrite !lookup_insert_ne by congruence. auto.
Qed.

(** After [setup_bins], the BinSet entries of a detector are those of its
    own plan. *)
Lemma setup_bins_loop_detector fa ifos : forall s s' ifo,
  for_loop ifos (setup_bins_interferometer fa) s = Ok s' ->
  NoDup (map Interferometer.name ifos) -> ifo ∈ ifos ->
  exists N bf bi h0 points,
    setup_bins_plan fa (chi s) (epsilon s) ifo = Ok (N, (bf, bi)) /\
    per_detector_fiducial_waveforms s !! Interferometer.name ifo = Some h0 /\
    take_indices h0 bi = Ok points /\
    bin_freqs s' !! Interferometer.name ifo = Some bf /\
    bin_inds s' !! Interferometer.name ifo = Some bi /\
    bin_widths s' !! Interferometer.name ifo = Some (widths_of bf) /\
    bin_centers s' !! Interferometer.name ifo = Some (centers_of bf) /\
    per_detector_fiducial_waveform_points s' !! Interferometer.name ifo
    = Some points.
Proof.
  induction ifos as [|x ifos IH]; intros s s' ifo H Hnodup Hin.
  - inversion Hin.
  - apply for_loop_cons_Ok in H as (s1 & Hstep & Hrest).
    simpl in Hnodup. apply NoDup_cons in Hnodup as [Hfresh Hnodup].
    pose proof Hstep as Hstep'.
    apply setup_bins_interferometer_Ok in Hstep
      as (N & bf & bi & h0 & pts & Hplan & Hh0 & Hpts & ->).
    apply elem_of_cons in Hin as [-> | Hin].
    + apply setup_bins_loop_frame in Hrest as (_ & _ & _ & _ & _ & Hnames).
      destruct (Hnames _ Hfresh) as (-> & -> & -> & -> & ->).
      exists N, bf, bi, h0, pts. simpl. rewrite !lookup_insert_eq. auto 10.
    + destruct (IH _ _ ifo Hrest Hnodup Hin)
        as (N' & bf' & bi' & h0' & pts' & Hplan' & Hh0' & Hrest').
      exists N', bf', bi', h0', pts'. auto.
Qed.

(** The scalar [number_of_bins] is the count of the last detector
    visited. *)
Lemma setup_bins_loop_last fa pre ifo s s' :
  for_loop (pre ++ [ifo]) (setup_bins_interferometer fa) s = Ok s' ->
  exists N bf bi,
    setup_bins_plan fa (chi s) (epsilon s) ifo = Ok (N, (bf, bi)) /\
    number_of_bins s' = Some N.
Proof.
  rewrite for_loop_app. intros H. apply bind_Ok in H as (s1 & Hpre & Hlast).
  apply setup_bins_loop_frame in Hpre as (<- & <- & _).
  apply for_loop_cons_Ok in Hlast as (s2 & Hstep & Hnil). injection Hnil as <-.
  apply setup_bins_interferometer_Ok in Hstep
    as (N & bf & bi & h0 & pts & Hplan & _ & _ & ->).
  exists N, bf, bi. auto.
Qed.


(** C5, as the code has it.  With positive [chi] and [epsilon] on an
    increasing positive grid, for every detector the bin-edge frequencies
    never decrease, the edge indices never decrease, every bin width is
    non-negative, the first edge is the lowest and the last edge the highest
    grid frequency of the usable band; these are the detector's minimum and
    (clipped) maximum frequency when those lie on the grid. *)
Theorem bin_edges_are_ordered (self self' : State)
    (interferometer : Interferometer.t) :
  setup_bins self = Ok self' ->
  NoDup (map Interferometer.name (interferometers self)) ->
  interferometer ∈ interferometers self ->
  0 < chi self -> 0 < epsilon self ->
  Forall (fun f => 0 < f)
    (WaveformGenerator.frequency_array (waveform_generator self)) ->
  increasing (WaveformGenerator.frequency_array (waveform_generator self)) ->
  exists (edges : list R) (inds : list nat) (widths : list R),
    bin_freqs self' !! Interferometer.name interferometer = Some edges /\
    bin_inds self' !! Interferometer.name interferometer = Some inds /\
    bin_widths self' !! Interferometer.name interferometer = Some widths /\
    (2 <= length edges)%nat /\
    nondecreasing edges /\ nondecreasing_nat inds /\
    Forall (fun w => 0 <= w) widths /\
    head edges
    = head (filter (fun f => Interferometer.minimum_frequency interferometer <= f /\
                             f <= Interferometer.maximum_frequency interferometer)
              (WaveformGenerator.frequency_array (waveform_generator self))) /\
    last edges
    = last (filter (fun f => Interferometer.minimum_frequency interferometer <= f /\
                             f <= Interferometer.maximum_frequency interferometer)
              (WaveformGenerator.frequency_array (waveform_generator self))) /\
    (Interferometer.minimum_frequency interferometer
     <= Interferometer.maximum_frequency interferometer ->
     (Interferometer.minimum_frequency interferometer
        ∈ WaveformGenerator.frequency_array (waveform_generator self) ->
      head edges = Some (Interferometer.minimum_frequency interferometer)) /\
     (Interferometer.maximum_frequency interferometer
        ∈ WaveformGenerator.frequency_array (waveform_generator self) ->
      last edges = Some (Interferometer.maximum_frequency interferometer))).
Proof.
  unfold setup_bins. intros Hsetup Hnodup Hin Hchi Heps Hpos Hinc.
  set (fa := WaveformGenerator.frequency_array (waveform_generator self)) in *.
  destruct (setup_bins_loop_detector fa _ _ _ interferometer Hsetup Hnodup Hin)
    as (N & bf & bi & h0 & pts & Hplan & _ & _ & Hbf & Hbi & Hbw & _).
  pose proof (setup_bins_plan_order _ _ _ _ _ _ _ Hplan Hchi Heps Hpos Hinc)
    as (HN & Hnd & Hndi & Hhead & Hlast).
  apply setup_bins_plan_Ok in Hplan
    as (_ & _ & _ & _ & _ & _ & _ & _ & _ & Hlbf & _).
  exists bf, bi, (widths_of bf).
  split; [exact Hbf |]. split; [exact Hbi |]. split; [exact Hbw |].
  split; [rewrite Hlbf; lia |].
  split; [exact Hnd |]. split; [exact Hndi |].
  split; [apply nondecreasing_widths; exact Hnd |].
  split; [exact Hhead |]. split; [exact Hlast |].
  intros Hle. rewrite Hhead, Hlast. apply useful_band_ends; assumption.
Qed.

(** C8, as the code has it.  When a detector's total cumulative phase
    deviation is at least zero and smaller than [epsilon], its bin count is
    zero and the pass of [setup_bins] for it raises [ZeroDivisionError], from
    the division [i / number_of_bins] at its first edge; so [setup_bins]
    raises, with that exception when the detectors before it went through,
    and produces no BinSet. *)
Theorem zero_bin_count_raises (self : State)
    (earlier later : list Interferometer.t) (interferometer : Interferometer.t)
    (useful from_start : list R) (total : R) :
  interferometers self = earlier ++ interferometer :: later ->
  frequency_array_useful
    (WaveformGenerator.frequency_array (waveform_generator self)) interferometer
  = Ok useful ->
  d_phi_from_start (d_phi (d_alpha (chi self) interferometer) useful)
  = Ok from_start ->
  last from_start = Some total ->
  0 <= total < epsilon self ->
  setup_bins_interferometer
    (WaveformGenerator.frequency_array (waveform_generator self))
    interferometer self = Raise ZeroDivisionError
  /\ (exists e, setup_bins self = Raise e)
  /\ (forall reached,
        for_loop earlier
          (setup_bins_interferometer
             (WaveformGenerator.frequency_array (waveform_generator self))) self
        = Ok reached ->
        setup_bins self = Raise ZeroDivisionError).
Proof.
  intros Hifos Hfu Hdpfs Hlast Htotal.
  set (fa := WaveformGenerator.frequency_array (waveform_generator self)) in *.
  assert (Hplan : setup_bins_plan fa (chi self) (epsilon self) interferometer
                  = Raise ZeroDivisionError).
  { unfold setup_bins_plan. rewrite Hfu, Ok_bind, Hdpfs, Ok_bind.
    rewrite (proj2 (getitem_last_Ok _ _) Hlast), Ok_bind.
    assert (HN : int_floor_divide total (epsilon self) = Ok 0%Z).
    { apply int_floor_divide_Ok. split; [lra |]. symmetry. apply Zfloor_eq.
      simpl. split.
      - apply Rmult_le_pos; [lra |]. left. apply Rinv_0_lt_compat. lra.
      - rewrite Rplus_0_l. apply (Rmult_lt_reg_r (epsilon self)); [lra |].
        unfold Rdiv. rewrite Rmult_assoc, Rinv_l by lra. lra. }
    rewrite HN, Ok_bind. reflexivity. }
  assert (Hpass : forall s, chi s = chi self -> epsilon s = epsilon self ->
            setup_bins_interferometer fa interferometer s = Raise ZeroDivisionError).
  { intros s Hc He. unfold setup_bins_interferometer. rewrite Hc, He, Hplan.
    reflexivity. }
  assert (Hreached : forall reached,
            for_loop earlier (setup_bins_interferometer fa) self = Ok reached ->
            setup_bins self = Raise ZeroDivisionError).
  { intros reached Hpre. unfold setup_bins. fold fa. rewrite Hifos, for_loop_app, Hpre, Ok_bind.
    apply setup_bins_loop_frame in Hpre as (Hc & He & _).
    simpl. rewrite (Hpass reached Hc He). reflexivity. }
  split; [apply Hpass; reflexivity |]. split; [| exact Hreached].
  destruct (for_loop earlier (setup_bins_interferometer fa) self) as [reached|e] eqn:Hpre.
  - exists ZeroDivisionError. eapply Hreached. reflexivity.
  - exists e. unfold setup_bins. fold fa. rewrite Hifos, for_loop_app, Hpre. reflexivity.
Qed.

(* ===================================================================== *)
(** * Summary data                                                        *)
(* ===================================================================== *)

Lemma mapM_Ok {A B} (f : A -> result B) (l : list A) (k : list B) :
  mapM f l = Ok k <-> Forall2 (fun x y => f x = Ok y) l k.
Proof.
  revert k. induction l as [|x l IH]; intros k; simpl.
  - split; [intros [= <-]; constructor | intros H; inversion H; reflexivity].
  - split.
    + intros H. apply bind_Ok in H as (y & Hy & H).
      apply bind_Ok in H as (k' & Hk' & H). injection H as <-.
      constructor; [exact Hy | apply IH; exact Hk'].
    + intros H. inversion H as [|? y ? k' Hy Hk']; subst.
      rewrite Hy, Ok_bind. rewrite (proj2 (IH k') Hk'). reflexivity.
Qed.

Lemma where_first_equal (xs : list R) (x : R) j :
  where_first (map (fun f => bool_decide (f = x)) xs) = Ok j <-> first_equal xs x j.
Proof.
  rewrite where_first_Ok. unfold first_equal. split.
  - intros [H1 H2]. split.
    + rewrite list_lookup_fmap in H1. destruct (xs !! j) as [y|]; [| discriminate].
      simpl in H1. injection H1 as H1. apply bool_decide_eq_true in H1. congruence.
    + intros k y Hk Hy. specialize (H2 k Hk). rewrite list_lookup_fmap, Hy in H2.
      simpl in H2. injection H2 as H2. apply bool_decide_eq_false in H2. exact H2.
  - intros [Hx H2]. split.
    + rewrite list_lookup_fmap, Hx. simpl. f_equal. apply bool_decide_eq_true. reflexivity.
    + intros k Hk. rewrite list_lookup_fmap.
      destruct (xs !! k) as [y|] eqn:Hy.
      * simpl. f_equal. apply bool_decide_eq_false. eapply H2; eauto.
      * apply lookup_ge_None in Hy. apply lookup_lt_Some in Hx. lia.
Qed.

Lemma slice_as_map_seq {A} `{Inhabited A} (l : list A) lo hi :
  (hi <= length l)%nat ->
  slice lo hi l = map (fun k => l !!! k) (seq lo (hi - lo)).
Proof.
  intros Hhi. unfold slice. apply list_eq. intros i.
  rewrite list_lookup_fmap.
  destruct (decide (i < hi - lo)%nat) as [Hi|Hi].
  - rewrite lookup_take_lt by exact Hi. rewrite lookup_drop.
    rewrite lookup_seq_lt by exact Hi. simpl.
    apply list_lookup_lookup_total_lt. lia.
  - rewrite lookup_take_ge by lia. rewrite lookup_seq_ge by lia. reflexivity.
Qed.

Lemma zip_with_map_same {A B D E} (f : B -> D -> E) (g : A -> B) (h : A -> D)
    (ks : list A) :
  zip_with f (map g ks) (map h ks) = map (fun k => f (g k) (h k)) ks.
Proof. induction ks as [|k ks IH]; simpl; [reflexivity | f_equal; exact IH]. Qed.

(** The inner product of three slices of the masked arrays is the sum over
    the samples of the bin. *)
Lemma noise_weighted_inner_product_slices (a b : nat -> C) (p : nat -> R)
    (T : R) lo hi :
  noise_weighted_inner_product
    (map a (seq lo (hi - lo))) (map b (seq lo (hi - lo)))
    (map p (seq lo (hi - lo))) T
  = bin_inner_product T lo hi a b p.
Proof.
  unfold noise_weighted_inner_product, bin_inner_product.
  rewrite !zip_with_map_same. reflexivity.
Qed.

(** One bin of the loop of [compute_summary_data]. *)
Lemma compute_summary_bin_Ok mfa mbi ms mh mp T i a0 b0 a1 b1 a0' b0' a1' b1' :
  compute_summary_bin mfa mbi ms mh mp T i (a0, b0, a1, b1) = Ok (a0', b0', a1', b1') ->
  exists lo hi f_lo f_hi,
    mbi !! i = Some lo /\ mfa !! lo = Some f_lo /\
    mbi !! (i + 1)%nat = Some hi /\ mfa !! hi = Some f_hi /\
    (i < length a0)%nat /\ (i < length b0)%nat /\
    (i < length a1)%nat /\ (i < length b1)%nat /\
    let offset := map (fun f => RtoC (f - 0.5 * (f_lo + f_hi))) (slice lo hi mfa) in
    a0' = <[i := noise_weighted_inner_product (slice lo hi mh) (slice lo hi ms)
                   (slice lo hi mp) T]> a0 /\
    b0' = <[i := noise_weighted_inner_product (slice lo hi mh) (slice lo hi mh)
                   (slice lo hi mp) T]> b0 /\
    a1' = <[i := noise_weighted_inner_product (slice lo hi mh)
                   (zip_with Cmult (slice lo hi ms) offset) (slice lo hi mp) T]> a1 /\
    b1' = <[i := noise_weighted_inner_product (slice lo hi mh)
                   (zip_with Cmult (slice lo hi mh) offset) (slice lo hi mp) T]> b1.
Proof.
  unfold compute_summary_bin. intros H. inv_bind H.
  apply getitem_Ok in Hv, Hv0, Hv1, Hv2.
  apply setitem_Ok in Hv3 as [? ->]. apply setitem_Ok in Hv4 as [? ->].
  apply setitem_Ok in Hv5 as [? ->]. apply setitem_Ok in Hv6 as [? ->].
  injection H as <- <- <- <-.
  exists v, v1, v0, v2. cbv zeta. auto 15.
Qed.

Lemma compute_summary_bins_Ok mfa mbi ms mh mp T n :
  forall a a0 b0 a1 b1 a0' b0' a1' b1',
  for_loop (seq a n) (compute_summary_bin mfa mbi ms mh mp T) (a0, b0, a1, b1)
  = Ok (a0', b0', a1', b1') ->
  (length a0' = length a0 /\ length b0' = length b0 /\
   length a1' = length a1 /\ length b1' = length b1) /\
  (forall i, (a <= i < a + n)%nat ->
     summary_bin_written mfa mbi ms mh mp T i a0' b0' a1' b1') /\
  (forall i, ~ (a <= i < a + n)%nat ->
     a0' !! i = a0 !! i /\ b0' !! i = b0 !! i /\
     a1' !! i = a1 !! i /\ b1' !! i = b1 !! i).
Proof.
  induction n as [|n IH]; intros a a0 b0 a1 b1 a0' b0' a1' b1' H.
  - simpl in H. injection H as <- <- <- <-.
    split; [auto |]. split; [intros i Hi; lia | auto].
  - simpl in H. apply bind_Ok in H as ([[[a0m b0m] a1m] b1m] & Hstep & Hrest).
    apply compute_summary_bin_Ok in Hstep
      as (lo & hi & f_lo & f_hi & Hlo & Hflo & Hhi & Hfhi & L0 & L1 & L2 & L3 & Hw).
    cbv zeta in Hw. destruct Hw as (-> & -> & -> & ->).
    apply IH in Hrest as ((E0 & E1 & E2 & E3) & Hin & Hout).
    rewrite length_insert in E0. rewrite length_insert in E1.
    rewrite length_insert in E2. rewrite length_insert in E3.
    split; [auto |]. split.
    + intros i Hi. destruct (decide (i = a)) as [->|Hne]; [| apply Hin; lia].
      exists lo, hi, f_lo, f_hi. cbv zeta.
      destruct (Hout a ltac:(lia)) as (-> & -> & -> & ->).
      rewrite !list_lookup_insert_eq by assumption. auto 10.
    + intros i Hi. destruct (Hout i ltac:(lia)) as (-> & -> & -> & ->).
      rewrite !list_lookup_insert_ne by lia. auto.
Qed.

(** One detector of [compute_summary_data]. *)
Lemma compute_summary_data_interferometer_Ok self ifo sd sd' :
  compute_summary_data_interferometer self ifo sd = Ok sd' ->
  exists edges mbi h0 N a0 a1 b0 b1,
    let mask := Interferometer.frequency_mask ifo in
    let mfa := mask_filter mask (Interferometer.frequency_array ifo) in
    bin_freqs self !! Interferometer.name ifo = Some edges /\
    Forall2 (first_equal mfa) edges mbi /\
    per_detector_fiducial_waveforms self !! Interferometer.name ifo = Some h0 /\
    length mask = length (Interferometer.frequency_array ifo) /\
    length mask = length (Interferometer.frequency_domain_strain ifo) /\
    length mask = length h0 /\
    length mask = length (Interferometer.power_spectral_density_array ifo) /\
    number_of_bins self = Some N /\ (0 <= N)%Z /\
    length a0 = Z.to_nat N /\ length a1 = Z.to_nat N /\
    length b0 = Z.to_nat N /\ length b1 = Z.to_nat N /\
    (forall i, (i < Z.to_nat N)%nat ->
       summary_bin_written mfa mbi
         (mask_filter mask (Interferometer.frequency_domain_strain ifo))
         (mask_filter mask h0)
         (mask_filter mask (Interferometer.power_spectral_density_array ifo))
         (WaveformGenerator.duration (waveform_generator self)) i a0 b0 a1 b1) /\
    sd' = <[Interferometer.name ifo := (a0, a1, b0, b1)]> sd.
Proof.
  unfold compute_summary_data_interferometer. intros H. inv_bind H.
  apply mask_select_Ok in Hv as [L1 ->]. apply dict_get_Ok in Hv0.
  apply mapM_Ok in Hv1. apply mask_select_Ok in Hv2 as [L2 ->].
  apply dict_get_Ok in Hv3. apply mask_select_Ok in Hv4 as [L3 ->].
  apply mask_select_Ok in Hv5 as [L4 ->]. apply getattr_Ok in Hv6.
  apply np_zeros_Ok in Hv7 as [HN ->].
  destruct v8 as [[[a0 b0] a1] b1]. injection H as <-.
  unfold py_range in Hv8.
  apply compute_summary_bins_Ok in Hv8 as ((E0 & E1 & E2 & E3) & Hin & _).
  rewrite length_replicate in E0. rewrite length_replicate in E1.
  rewrite length_replicate in E2. rewrite length_replicate in E3.
  exists v0, v1, v3, v6, a0, a1, b0, b1. cbv zeta.
  split; [exact Hv0 |]. split.
  { eapply Forall2_impl; [exact Hv1 |]. intros e j Hj.
    apply where_first_equal. exact Hj. }
  split; [exact Hv3 |]. do 4 (split; [assumption |]).
  split; [exact Hv6 |]. split; [exact HN |]. do 4 (split; [assumption |]).
  split; [| reflexivity]. intros i Hi. apply Hin. lia.
Qed.

Lemma compute_summary_data_loop_frame self ifos : forall sd sd' name,
  for_loop ifos (compute_summary_data_interferometer self) sd = Ok sd' ->
  name ∉ map Interferometer.name ifos -> sd' !! name = sd !! name.
Proof.
  induction ifos as [|ifo ifos IH]; intros sd sd' name H Hname.
  - injection H as <-. reflexivity.
  - apply for_loop_cons_Ok in H as (sd1 & Hstep & Hrest).
    simpl in Hname. apply not_elem_of_cons in Hname as [Hne Hnot].
    rewrite (IH _ _ _ Hrest Hnot).
    apply compute_summary_data_interferometer_Ok in Hstep
      as (? & ? & ? & ? & ? & ? & ? & ? & Hstep).
    cbv zeta in Hstep. destruct Hstep as (_ & _ & _ & _ & _ & _ & _ & _ & _ & _ & _ & _ & _ & _ & ->).
    apply lookup_insert_ne. congruence.
Qed.

(** After [compute_summary_data] the entry of a detector is the one its own
    pass wrote. *)
Lemma compute_summary_data_loop_detector self ifos : forall sd sd' ifo,
  for_loop ifos (compute_summary_data_interferometer self) sd = Ok sd' ->
  NoDup (map Interferometer.name ifos) -> ifo ∈ ifos ->
  exists sd0 sd1,
    compute_summary_data_interferometer self ifo sd0 = Ok sd1 /\
    sd' !! Interferometer.name ifo = sd1 !! Interferometer.name ifo.
Proof.
  induction ifos as [|x ifos IH]; intros sd sd' ifo H Hnodup Hin.
  - inversion Hin.
  - apply for_loop_cons_Ok in H as (sd1 & Hstep & Hrest).
    simpl in Hnodup. apply NoDup_cons in Hnodup as [Hfresh Hnodup].
    apply elem_of_cons in Hin as [-> | Hin].
    + exists sd, sd1. split; [exact Hstep |].
      eapply compute_summary_data_loop_frame; eauto.
    + eapply IH; eauto.
Qed.

Lemma mask_filter_length {A B} (mask : list bool) (a : list A) (b : list B) :
  length mask = length a -> length mask = length b ->
  length (mask_filter mask a) = length (mask_filter mask b).
Proof.
  revert a b. induction mask as [|m mask IH]; intros [|x a] [|y b] Ha Hb;
    try discriminate; [reflexivity |].
  simpl in *. destruct m; simpl; [f_equal |]; apply IH; lia.
Qed.

(** What the loop wrote at a bin, in terms of the samples of the bin. *)
Lemma summary_bin_written_sums (mfa : list R) mbi (ms mh : list C) (mp : list R)
    T i a0 b0 a1 b1 edges :
  length ms = length mfa -> length mh = length mfa -> length mp = length mfa ->
  Forall2 (first_equal mfa) edges mbi ->
  summary_bin_written mfa mbi ms mh mp T i a0 b0 a1 b1 ->
  exists e_lo e_hi lo hi,
    edges !! i = Some e_lo /\ edges !! S i = Some e_hi /\
    first_equal mfa e_lo lo /\ first_equal mfa e_hi hi /\
    mfa !!! lo = e_lo /\ mfa !!! hi = e_hi /\
    (a0 !! i, a1 !! i, b0 !! i, b1 !! i)
    = (let '(x0, x1, y0, y1) :=
         summary_of_bin T (fun k => mfa !!! k) (fun k => ms !!! k)
           (fun k => mh !!! k) (fun k => mp !!! k) lo hi
           (edge_midpoint (fun k => mfa !!! k) lo hi)
       in (Some x0, Some x1, Some y0, Some y1)).
Proof.
  intros Ls Lh Lp Hedges (lo & hi & f_lo & f_hi & Hlo & Hflo & Hhi & Hfhi & Hw).
  cbv zeta in Hw. destruct Hw as (Ha0 & Hb0 & Ha1 & Hb1).
  replace (i + 1)%nat with (S i) in Hhi by lia.
  destruct (Forall2_lookup_r _ _ _ _ _ Hedges Hlo) as (e_lo & He_lo & Hfirst_lo).
  destruct (Forall2_lookup_r _ _ _ _ _ Hedges Hhi) as (e_hi & He_hi & Hfirst_hi).
  pose proof (proj1 Hfirst_lo) as Hlo'. pose proof (proj1 Hfirst_hi) as Hhi'.
  rewrite Hflo in Hlo'. injection Hlo' as ->.
  rewrite Hfhi in Hhi'. injection Hhi' as ->.
  exists e_lo, e_hi, lo, hi.
  split; [exact He_lo |]. split; [exact He_hi |].
  split; [exact Hfirst_lo |]. split; [exact Hfirst_hi |].
  split; [apply list_lookup_total_correct; exact Hflo |].
  split; [apply list_lookup_total_correct; exact Hfhi |].
  pose proof (lookup_lt_Some _ _ _ Hfhi) as Hlt.
  unfold summary_of_bin, edge_midpoint.
  rewrite (list_lookup_total_correct _ _ _ Hflo), (list_lookup_total_correct _ _ _ Hfhi).
  rewrite Ha0, Hb0, Ha1, Hb1.
  rewrite (slice_as_map_seq mh) by lia. rewrite (slice_as_map_seq ms) by lia.
  rewrite (slice_as_map_seq mp) by lia. rewrite (slice_as_map_seq mfa) by lia.
  rewrite map_map, !zip_with_map_same.
  rewrite !noise_weighted_inner_product_slices. reflexivity.
Qed.

(** C3, as the code has it.  For every detector and every bin [i],
    [compute_summary_data] sets a0[i], b0[i], a1[i], b1[i] to the
    noise-weighted inner products, over the masked samples from the index of
    edge [i] up to and excluding the index of edge [i+1], of the fiducial
    waveform h0 against the strain d, h0 itself, d * (f - fc) and
    h0 * (f - fc), where fc is the midpoint of the frequencies of edge [i] and
    edge [i+1] (the first sample of the bin and the first sample after it),
    and the inner product is (4/T) times the sum over the samples of
    conjugate(a) * b / p. *)
Theorem summary_data_inner_products (self self' : State)
    (interferometer : Interferometer.t) :
  compute_summary_data self = Ok self' ->
  NoDup (map Interferometer.name (interferometers self)) ->
  interferometer ∈ interferometers self ->
  exists (summary : gmap string SummaryData) (a0 a1 b0 b1 : list C)
         (edges : list R) (h0 : list C) (N : Z),
    let mask := Interferometer.frequency_mask interferometer in
    let f := fun k => mask_filter mask
                        (Interferometer.frequency_array interferometer) !!! k in
    let d := fun k => mask_filter mask
                        (Interferometer.frequency_domain_strain interferometer) !!! k in
    let h := fun k => mask_filter mask h0 !!! k in
    let p := fun k => mask_filter mask
                        (Interferometer.power_spectral_density_array interferometer)
                        !!! k in
    summary_data self' = Some summary /\
    summary !! Interferometer.name interferometer = Some (a0, a1, b0, b1) /\
    bin_freqs self !! Interferometer.name interferometer = Some edges /\
    per_detector_fiducial_waveforms self !! Interferometer.name interferometer
    = Some h0 /\
    number_of_bins self = Some N /\
    length a0 = Z.to_nat N /\ length a1 = Z.to_nat N /\
    length b0 = Z.to_nat N /\ length b1 = Z.to_nat N /\
    forall i, (i < Z.to_nat N)%nat ->
      exists e_lo e_hi lo hi,
        edges !! i = Some e_lo /\ edges !! S i = Some e_hi /\
        first_equal (mask_filter mask (Interferometer.frequency_array interferometer))
          e_lo lo /\
        first_equal (mask_filter mask (Interferometer.frequency_array interferometer))
          e_hi hi /\
        f lo = e_lo /\ f hi = e_hi /\
        (a0 !! i, a1 !! i, b0 !! i, b1 !! i)
        = (let '(x0, x1, y0, y1) :=
             summary_of_bin (WaveformGenerator.duration (waveform_generator self))
               f d h p lo hi (edge_midpoint f lo hi)
           in (Some x0, Some x1, Some y0, Some y1)).
Proof.
  unfold compute_summary_data. intros H Hnodup Hin.
  apply bind_Ok in H as (sd & Hloop & H). injection H as <-.
  destruct (compute_summary_data_loop_detector _ _ _ _ _ Hloop Hnodup Hin)
    as (sd0 & sd1 & Hstep & Hsame).
  apply compute_summary_data_interferometer_Ok in Hstep
    as (edges & mbi & h0 & N & a0 & a1 & b0 & b1 & Hstep).
  cbv zeta in Hstep.
  destruct Hstep as (Hedges & Hmbi & Hh0 & L1 & L2 & L3 & L4 & HN & HN0
                     & E0 & E1 & E2 & E3 & Hbins & ->).
  exists sd, a0, a1, b0, b1, edges, h0, N. cbv zeta.
  split; [reflexivity |].
  split; [rewrite Hsame; apply lookup_insert_eq |].
  do 7 (split; [assumption |]).
  intros i Hi. eapply summary_bin_written_sums; [| | | exact Hmbi | apply Hbins; exact Hi].
  - apply mask_filter_length; congruence.
  - apply mask_filter_length; congruence.
  - apply mask_filter_length; congruence.
Qed.

(* ===================================================================== *)
(** * Refreshing the fiducial waveform                                    *)
(* ===================================================================== *)

(** [set_fiducial_waveforms] writes the polarizations, the detectors'
    maximum frequencies and the fiducial waveforms, and nothing else. *)
Lemma set_fiducial_waveforms_frame
    (get_detector_response :
       Interferometer.t -> Polarizations -> Params -> option (list R) -> list C)
    (frequency_domain_strain : WaveformGenerator.t -> Params -> option Polarizations)
    (p : Params) (s s' : State) (written : Params) (v : pyval) :
  set_fiducial_waveforms get_detector_response frequency_domain_strain p s
  = Ok (s', written, v) ->
  BinSet s' = BinSet s /\
  per_detector_fiducial_waveform_points s' = per_detector_fiducial_waveform_points s /\
  number_of_bins s' = number_of_bins s /\
  parameters_to_be_updated s' = parameters_to_be_updated s /\
  fiducial_parameters s' = fiducial_parameters s /\
  exists polarizations cutoff,
    fiducial_polarizations s' = Some polarizations /\
    frequency_domain_strain (waveform_generator s) (<["fiducial" := 1]> p)
    = Some polarizations /\
    interferometers s' = map (clip_maximum_frequency cutoff) (interferometers s) /\
    per_detector_fiducial_waveforms s'
    = project_fiducial get_detector_response polarizations (<["fiducial" := 1]> p)
        (interferometers s') (per_detector_fiducial_waveforms s) /\
    written = <["fiducial" := 0]> (<["fiducial" := 1]> p).
Proof.
  unfold set_fiducial_waveforms. intros H.
  apply bind_Ok in H as (plus & Hplus & H).
  apply bind_Ok in H as (idx & Hidx & H).
  apply bind_Ok in H as (f & Hf & H).
  destruct s; simpl in *.
  destruct (frequency_domain_strain _ _) as [pol|] eqn:Hpol; [| discriminate Hplus].
  injection H as <- <- <-. simpl.
  do 5 (split; [reflexivity |]). exists pol, f. auto.
Qed.

(** [compute_summary_data] writes the summary data and nothing else, and
    running it again changes nothing. *)
Lemma compute_summary_data_frame (s s' : State) :
  compute_summary_data s = Ok s' ->
  exists summary, s' = set_summary_data (Some summary) s /\
                  compute_summary_data s' = Ok s'.
Proof.
  unfold compute_summary_data. intros H.
  apply bind_Ok in H as (sd & Hloop & H). injection H as <-.
  exists sd. split; [reflexivity |].
  change (for_loop (interferometers s)
            (compute_summary_data_interferometer s) ∅
          ≫= (fun summary => Ok (set_summary_data (Some summary)
                                  (set_summary_data (Some sd) s)))
          = Ok (set_summary_data (Some sd) s)).
  rewrite Hloop. reflexivity.
Qed.

Lemma optimizer_calls_frame (keys : list string) (calls : list (list R)) : forall s,
  let s' := foldl (fun s parameter_list =>
                     set_parameters
                       (parameter_dictionary keys (fiducial_parameters s) parameter_list)
                       s) s calls in
  BinSet s' = BinSet s /\ waveform_generator s' = waveform_generator s /\
  interferometers s' = interferometers s /\
  per_detector_fiducial_waveforms s' = per_detector_fiducial_waveforms s /\
  per_detector_fiducial_waveform_points s' = per_detector_fiducial_waveform_points s /\
  number_of_bins s' = number_of_bins s /\
  parameters_to_be_updated s' = parameters_to_be_updated s /\
  fiducial_parameters s' = fiducial_parameters s /\
  summary_data s' = summary_data s.
Proof.
  induction calls as [|c calls IH]; intros s; simpl; [repeat split |].
  specialize (IH (set_parameters
                    (parameter_dictionary keys (fiducial_parameters s) c) s)).
  simpl in IH. exact IH.
Qed.

(** One round of the search: the optimizer runs, the fiducial waveforms
    are rebuilt for the parameters it found, the summary data are
    recomputed, and the BinSet and the fiducial waveform points stay. *)
Lemma optimization_round_Ok
    (get_detector_response :
       Interferometer.t -> Polarizations -> Params -> option (list R) -> list C)
    (frequency_domain_strain : WaveformGenerator.t -> Params -> option Polarizations)
    (differential_evolution : (list R -> R) -> list (list R) -> OptimizeResult)
    (log_likelihood_ratio : State -> R)
    (bounds : list (list R)) (i : nat) (s s' : State) (prev updated : option Params) :
  optimization_round get_detector_response frequency_domain_strain
    differential_evolution log_likelihood_ratio bounds i (s, prev) = Ok (s', updated) ->
  exists searched candidate rebuilt written,
    BinSet searched = BinSet s /\
    set_fiducial_waveforms get_detector_response frequency_domain_strain
      candidate searched = Ok (rebuilt, written, PyNone) /\
    compute_summary_data rebuilt = Ok s' /\
    compute_summary_data s' = Ok s' /\
    per_detector_fiducial_waveforms s' = per_detector_fiducial_waveforms rebuilt /\
    updated = Some written /\
    BinSet s' = BinSet s /\
    number_of_bins s' = number_of_bins s /\
    per_detector_fiducial_waveform_points s'
    = per_detector_fiducial_waveform_points s /\
    parameters_to_be_updated s' = parameters_to_be_updated s.
Proof.
  unfold optimization_round. simpl. intros H.
  apply bind_Ok in H as (keys & Hkeys & H).
  set (searched := foldl _ s _) in H.
  apply bind_Ok in H as (candidate & Hcand & H).
  apply bind_Ok in H as ([[rebuilt written] v] & Hset & H).
  apply bind_Ok in H as (s2 & Hsum & H). injection H as <- <-.
  pose proof (set_fiducial_waveforms_returns_None _ _ _ _ _ _ _ Hset) as ->.
  destruct (optimizer_calls_frame keys
              (evaluated (differential_evolution
                 (fun parameter_list =>
                    - log_likelihood_ratio
                        (set_parameters
                           (parameter_dictionary keys (fiducial_parameters s)
                              parameter_list) s)) bounds)) s)
    as (B1 & _ & _ & _ & P1 & N1 & K1 & _).
  fold searched in B1, P1, N1, K1.
  destruct (set_fiducial_waveforms_frame _ _ _ _ _ _ _ Hset)
    as (B2 & P2 & N2 & K2 & _).
  destruct (compute_summary_data_frame _ _ Hsum) as (sd & -> & Hagain).
  exists searched, candidate, rebuilt, written.
  split; [exact B1 |]. split; [exact Hset |]. split; [exact Hsum |].
  split; [exact Hagain |]. split; [reflexivity |]. split; [reflexivity |].
  split; [unfold BinSet in *; simpl; congruence |].
  simpl. repeat split; congruence.
Qed.

Lemma optimization_rounds_frame
    (get_detector_response :
       Interferometer.t -> Polarizations -> Params -> option (list R) -> list C)
    (frequency_domain_strain : WaveformGenerator.t -> Params -> option Polarizations)
    (differential_evolution : (list R -> R) -> list (list R) -> OptimizeResult)
    (log_likelihood_ratio : State -> R)
    (bounds : list (list R)) (rounds : list nat) :
  forall s prev s' updated,
  for_loop rounds
    (optimization_round get_detector_response frequency_domain_strain
       differential_evolution log_likelihood_ratio bounds) (s, prev)
  = Ok (s', updated) ->
  BinSet s' = BinSet s /\ number_of_bins s' = number_of_bins s /\
  per_detector_fiducial_waveform_points s' = per_detector_fiducial_waveform_points s /\
  (rounds <> [] -> compute_summary_data s' = Ok s').
Proof.
  induction rounds as [|i rounds IH]; intros s prev s' updated H.
  - injection H as <- <-. repeat split; auto. congruence.
  - apply for_loop_cons_Ok in H as ([s1 up1] & Hround & Hrest).
    apply optimization_round_Ok in Hround
      as (? & ? & ? & ? & _ & _ & _ & Hagain & _ & _ & B & N & P & _).
    pose proof Hrest as Hrest'.
    apply IH in Hrest as (B' & N' & P' & Hsum).
    split; [congruence |]. split; [congruence |]. split; [congruence |].
    intros _. destruct rounds as [|j rounds]; [| apply Hsum; discriminate].
    injection Hrest' as <- _. exact Hagain.
Qed.

(* ===================================================================== *)
(** * The scalar bin count                                                *)
(* ===================================================================== *)

Lemma for_loop_body_ran {A S} (xs : list A) (body : A -> S -> result S) x :
  forall s s', for_loop xs body s = Ok s' -> x ∈ xs ->
  exists s1 s2, body x s1 = Ok s2.
Proof.
  induction xs as [|y xs IH]; intros s s' H Hin; [inversion Hin |].
  apply for_loop_cons_Ok in H as (s1 & Hstep & Hrest).
  apply elem_of_cons in Hin as [-> | Hin]; [eauto | eapply IH; eauto].
Qed.

Lemma length_widths_of (bf : list R) : length (widths_of bf) = (length bf - 1)%nat.
Proof. unfold widths_of. apply length_adjacent. Qed.

(* ===================================================================== *)
(** * A candidate equal to the fiducial waveform                          *)
(* ===================================================================== *)

Lemma C_eq (z w : C) : Re z = Re w -> Im z = Im w -> z = w.
Proof. destruct z, w. simpl. intros -> ->. reflexivity. Qed.

Lemma C_nonzero (z : C) : z <> Czero -> Re z * Re z + Im z * Im z <> 0.
Proof.
  intros Hz Hsum. apply Hz. apply C_eq; simpl; nra.
Qed.

Lemma Cdiv_same (z : C) : z <> Czero -> Cdiv z z = Cone.
Proof.
  intros Hz. apply C_nonzero in Hz.
  apply C_eq; simpl; field; exact Hz.
Qed.



Lemma ratio_mean_one : Cdiv (Cplus Cone Cone) (RtoC 2) = Cone.
Proof. apply C_eq; simpl; field. Qed.

Lemma ratio_slope_zero (w : R) : Cdiv (Cminus Cone Cone) (RtoC w) = Czero.
Proof. apply C_eq; simpl; ring. Qed.



Lemma zip_with_Cdiv_same (l : list C) :
  Forall (fun z => z <> Czero) l -> zip_with Cdiv l l = replicate (length l) Cone.
Proof.
  induction 1 as [|z l Hz _ IH]; simpl; [reflexivity |].
  rewrite Cdiv_same by exact Hz. f_equal. exact IH.
Qed.

Lemma from1_replicate {A} n (x : A) : from1 (replicate (S n) x) = replicate n x.
Proof. reflexivity. Qed.

Lemma upto_last_replicate {A} n (x : A) : upto_last (replicate (S n) x) = replicate n x.
Proof.
  unfold upto_last. rewrite length_replicate, take_replicate. f_equal. lia.
Qed.

Lemma zip_with_replicate_l {A B D} (f : A -> B -> D) (x : A) (d : D) (l : list B) :
  (forall y, f x y = d) ->
  zip_with f (replicate (length l) x) l = replicate (length l) d.
Proof.
  intros Hf. induction l as [|y l IH]; simpl; [reflexivity |].
  rewrite Hf. f_equal. exact IH.
Qed.

(** The waveform ratio of a candidate whose response at the bin edges is the
    fiducial waveform at the bin edges. *)
Lemma waveform_ratio_of_fiducial
    (get_detector_response :
       Interferometer.t -> Polarizations -> Params -> option (list R) -> list C)
    (self : State) (pols : Polarizations) (ifo : Interferometer.t)
    (edges widths : list R) (reference : list C) (n : nat) :
  bin_freqs self !! Interferometer.name ifo = Some edges ->
  per_detector_fiducial_waveform_points self !! Interferometer.name ifo
    = Some reference ->
  bin_widths self !! Interferometer.name ifo = Some widths ->
  get_detector_response ifo pols (parameters self) (Some edges) = reference ->
  length reference = S n -> length widths = n ->
  Forall (fun z => z <> Czero) reference ->
  compute_waveform_ratio_per_interferometer get_detector_response self pols ifo
  = Ok (replicate n Cone, replicate n Czero).
Proof.
  intros Hedges Href Hwidths Hresp Hlen Hwlen Hnz.
  rewrite (waveform_ratio_arrays get_detector_response self pols ifo edges widths
             reference reference n) by assumption.
  rewrite zip_with_Cdiv_same by exact Hnz. rewrite Hlen.
  rewrite from1_replicate, upto_last_replicate, !zip_with_replicate.
  rewrite <- Hwlen at 2.
  rewrite (zip_with_replicate_l _ _ Czero) by (intros w; apply ratio_slope_zero).
  rewrite Hwlen. f_equal. f_equal.
  change (map (fun z => Cdiv z (RtoC 2)) (replicate n (Cplus Cone Cone)))
    with ((fun z => Cdiv z (RtoC 2)) <$> replicate n (Cplus Cone Cone)).
  rewrite fmap_replicate, ratio_mean_one. reflexivity.
Qed.



(* ===================================================================== *)
(** * The worked example, evaluated                                       *)
(* ===================================================================== *)

Lemma np_power_one g : np_power 1 g = 1.
Proof. unfold np_power, Rpower. rewrite ln_1, Rmult_0_r. apply exp_0. Qed.

Lemma np_power_eight (k : R) : np_power 8 (k / 3) = Rpower 2 k.
Proof.
  unfold np_power. replace 8 with (Rpower 2 (INR 3)).
  - rewrite Rpower_mult. f_equal. simpl. field.
  - rewrite Rpower_pow by lra. simpl. lra.
Qed.

Lemma Rpower_two_nat (n : nat) : Rpower 2 (INR n) = 2 ^ n.
Proof. apply Rpower_pow. lra. Qed.

Lemma np_power_eight_values :
  np_power 8 (- 5 / 3) = / 32 /\ np_power 8 (- 2 / 3) = / 4 /\
  np_power 8 1 = 8 /\ np_power 8 (5 / 3) = 32 /\ np_power 8 (7 / 3) = 128.
Proof.
  repeat split.
  - rewrite np_power_eight. replace (- 5) with (- INR 5) by (simpl; lra).
    rewrite Rpower_Ropp, Rpower_two_nat. f_equal. simpl. lra.
  - rewrite np_power_eight. replace (- 2) with (- INR 2) by (simpl; lra).
    rewrite Rpower_Ropp, Rpower_two_nat. f_equal. simpl. lra.
  - unfold np_power. apply Rpower_1. lra.
  - rewrite np_power_eight. replace 5 with (INR 5) by (simpl; lra).
    rewrite Rpower_two_nat. simpl. lra.
  - rewrite np_power_eight. replace 7 with (INR 7) by (simpl; lra).
    rewrite Rpower_two_nat. simpl. lra.
Qed.

Lemma PI_bounds : 3 < PI <= 4.
Proof. split; [pose proof PI2_3_2; lra | apply PI_4]. Qed.

Lemma sign_and_steps (g : R) :
  (g < 0 -> np_sign g = -1 /\ heaviside (- g) 1 = 1 /\ heaviside g 1 = 0) /\
  (0 < g -> np_sign g = 1 /\ heaviside (- g) 1 = 0 /\ heaviside g 1 = 1).
Proof.
  unfold np_sign, heaviside. split; intros Hg; repeat case_bool_decide; (lra || auto).
Qed.

(** The phase curve of the example detector over the grid [1; 8]. *)
Lemma example_d_phi_from_start (chi0 : R) :
  d_phi_from_start (d_phi (d_alpha chi0 Example.H1) [1; 8])
  = Ok [0; Example.total chi0].
Proof.
  destruct np_power_eight_values as (P1 & P2 & P3 & P4 & P5).
  destruct (sign_and_steps (- 5 / 3)) as [[S1 [U1 V1]] _]; [lra |].
  destruct (sign_and_steps (- 2 / 3)) as [[S2 [U2 V2]] _]; [lra |].
  destruct (sign_and_steps 1) as [_ [S3 [U3 V3]]]; [lra |].
  destruct (sign_and_steps (5 / 3)) as [_ [S4 [U4 V4]]]; [lra |].
  destruct (sign_and_steps (7 / 3)) as [_ [S5 [U5 V5]]]; [lra |].
  apply d_phi_from_start_Ok.
  unfold d_phi, d_alpha, gamma, Example.H1, Example.total.
  cbn [map zip_with Rsum foldr Interferometer.minimum_frequency
       Interferometer.maximum_frequency lookup list_lookup].
  rewrite ?np_power_one, ?P1, ?P2, ?P3, ?P4, ?P5.
  rewrite ?S1, ?S2, ?S3, ?S4, ?S5, ?U1, ?U2, ?U3, ?U4, ?U5, ?V1, ?V2, ?V3, ?V4, ?V5.
  replace (1 * 1 - / 32 * 0) with 1 by lra.
  replace (1 * 1 - / 4 * 0) with 1 by lra.
  replace (1 * 0 - 8 * 1) with (- 8) by lra.
  replace (1 * 0 - 32 * 1) with (- 32) by lra.
  replace (1 * 0 - 128 * 1) with (- 128) by lra.
  assert (A1 : Rabs 1 = 1) by (apply Rabs_pos_eq; lra).
  assert (A8 : Rabs (-8) = 8) by (rewrite Rabs_left by lra; lra).
  assert (A32 : Rabs (-32) = 32) by (rewrite Rabs_left by lra; lra).
  assert (A128 : Rabs (-128) = 128) by (rewrite Rabs_left by lra; lra).
  rewrite A1, A8, A32, A128.
  eexists. split; [reflexivity |].
  f_equal; [lra |]. f_equal. lra.
Qed.

Lemma example_useful : frequency_array_useful [1; 8] Example.H1 = Ok [1; 8].
Proof.
  rewrite frequency_array_useful_filter. f_equal.
  rewrite filter_cons_True by (simpl; lra).
  rewrite filter_cons_True by (simpl; lra). reflexivity.
Qed.

Lemma setup_bins_edge_eval fa fu dpfs N i bf bi total j x k :
  N <> 0%Z -> (i < length bf)%nat -> (i < length bi)%nat ->
  last dpfs = Some total ->
  first_at_or_above dpfs (INR i / IZR N * total) j ->
  fu !! j = Some x ->
  first_at_or_above fa x k ->
  setup_bins_edge fa fu dpfs N i (bf, bi) = Ok (<[i := x]> bf, <[i := k]> bi).
Proof.
  intros. apply setup_bins_edge_Ok. repeat split; try assumption.
  exists x, k. repeat split. exists total, j. auto.
Qed.

(** Deciding [first_at_or_above] on a list that is written out. *)
Ltac first_at_or_above_by tac :=
  split;
  [ eexists; split; [reflexivity | tac]
  | let k := fresh "k" in let y := fresh "y" in
    let Hk := fresh "Hk" in let Hy := fresh "Hy" in
    intros k y Hk Hy;
    destruct k as [|[|[|k]]]; try lia;
    injection Hy as <-; tac ].

Lemma example_grid_index_low : first_at_or_above [1; 8] 1 0.
Proof. first_at_or_above_by lra. Qed.

Lemma example_grid_index_high : first_at_or_above [1; 8] 8 1.
Proof. first_at_or_above_by lra. Qed.

Lemma example_curve_start t : 0 < t -> first_at_or_above [0; t] 0 0.
Proof. intros. first_at_or_above_by lra. Qed.

Lemma example_curve_later t target :
  0 < target <= t -> first_at_or_above [0; t] target 1.
Proof. intros. first_at_or_above_by lra. Qed.

(** One bin: [chi = 1], [epsilon = 20]. *)
Lemma example_plan_one_bin :
  setup_bins_plan [1; 8] 1 20 Example.H1 = Ok (1%Z, ([1; 8], [0%nat; 1%nat])).
Proof.
  pose proof PI_bounds as Hpi.
  unfold setup_bins_plan.
  rewrite example_useful, Ok_bind, example_d_phi_from_start, Ok_bind.
  change (getitem_last [0; Example.total 1]) with (Ok (Example.total 1)).
  rewrite Ok_bind.
  assert (HN : int_floor_divide (Example.total 1) 20 = Ok 1%Z).
  { apply int_floor_divide_Ok. split; [lra |]. symmetry. apply Zfloor_eq.
    unfold Example.total. lra. }
  rewrite HN, Ok_bind.
  change (np_zeros 0 (1 + 1)%Z) with (Ok [0; 0]). rewrite Ok_bind.
  change (np_zeros 0%nat (1 + 1)%Z) with (Ok [0%nat; 0%nat]). rewrite Ok_bind.
  change (py_range (1 + 1)) with [0%nat; 1%nat].
  cbn [for_loop].
  rewrite (setup_bins_edge_eval [1; 8] [1; 8] [0; Example.total 1] 1 0
             [0; 0] [0%nat; 0%nat] (Example.total 1) 0 1 0);
    [| lia | simpl; lia | simpl; lia | reflexivity | | reflexivity
     | exact example_grid_index_low ].
  2:{ replace (INR 0 / 1 * Example.total 1) with 0 by (simpl; lra).
      apply example_curve_start. unfold Example.total. lra. }
  rewrite Ok_bind.
  rewrite (setup_bins_edge_eval [1; 8] [1; 8] [0; Example.total 1] 1 1
             _ _ (Example.total 1) 1 8 1);
    [| lia | simpl; lia | simpl; lia | reflexivity | | reflexivity
     | exact example_grid_index_high ].
  2:{ apply example_curve_later. unfold Example.total. simpl. lra. }
  reflexivity.
Qed.

(** Two bins: [chi = 1], [epsilon = 13].  The second and third edge fall on
    the same grid frequency. *)
Lemma example_plan_two_bins :
  setup_bins_plan [1; 8] 1 13 Example.H1
  = Ok (2%Z, ([1; 8; 8], [0%nat; 1%nat; 1%nat])).
Proof.
  pose proof PI_bounds as Hpi.
  unfold setup_bins_plan.
  rewrite example_useful, Ok_bind, example_d_phi_from_start, Ok_bind.
  change (getitem_last [0; Example.total 1]) with (Ok (Example.total 1)).
  rewrite Ok_bind.
  assert (HN : int_floor_divide (Example.total 1) 13 = Ok 2%Z).
  { apply int_floor_divide_Ok. split; [lra |]. symmetry. apply Zfloor_eq.
    unfold Example.total. lra. }
  rewrite HN, Ok_bind.
  change (np_zeros 0 (2 + 1)%Z) with (Ok [0; 0; 0]). rewrite Ok_bind.
  change (np_zeros 0%nat (2 + 1)%Z) with (Ok [0%nat; 0%nat; 0%nat]). rewrite Ok_bind.
  change (py_range (2 + 1)) with [0%nat; 1%nat; 2%nat].
  cbn [for_loop].
  rewrite (setup_bins_edge_eval [1; 8] [1; 8] [0; Example.total 1] 2 0
             _ _ (Example.total 1) 0 1 0);
    [| lia | simpl; lia | simpl; lia | reflexivity | | reflexivity
     | exact example_grid_index_low ].
  2:{ replace (INR 0 / 2 * Example.total 1) with 0 by (simpl; lra).
      apply example_curve_start. unfold Example.total. lra. }
  rewrite Ok_bind.
  rewrite (setup_bins_edge_eval [1; 8] [1; 8] [0; Example.total 1] 2 1
             _ _ (Example.total 1) 1 8 1);
    [| lia | simpl; lia | simpl; lia | reflexivity | | reflexivity
     | exact example_grid_index_high ].
  2:{ apply example_curve_later. unfold Example.total. simpl. lra. }
  rewrite Ok_bind.
  rewrite (setup_bins_edge_eval [1; 8] [1; 8] [0; Example.total 1] 2 2
             _ _ (Example.total 1) 1 8 1);
    [| lia | simpl; lia | simpl; lia | reflexivity | | reflexivity
     | exact example_grid_index_high ].
  2:{ apply example_curve_later. unfold Example.total. simpl. lra. }
  reflexivity.
Qed.

(** A negative [chi]: [chi = -1], [epsilon = 40].  The total deviation is
    negative, the bin count is -1, and the plan is a pair of empty arrays. *)
Lemma example_plan_no_bins :
  setup_bins_plan [1; 8] (-1) 40 Example.H1 = Ok ((-1)%Z, ([], [])).
Proof.
  pose proof PI_bounds as Hpi.
  unfold setup_bins_plan.
  rewrite example_useful, Ok_bind, example_d_phi_from_start, Ok_bind.
  change (getitem_last [0; Example.total (-1)]) with (Ok (Example.total (-1))).
  rewrite Ok_bind.
  assert (HN : int_floor_divide (Example.total (-1)) 40 = Ok (-1)%Z).
  { apply int_floor_divide_Ok. split; [lra |]. symmetry. apply Zfloor_eq.
    unfold Example.total. lra. }
  rewrite HN, Ok_bind. reflexivity.
Qed.

(** A zero bin count: [chi = 1], [epsilon = 40]. *)
Lemma example_total_below_epsilon : 0 <= Example.total 1 < 40.
Proof. pose proof PI_bounds. unfold Example.total. lra. Qed.

Lemma example_setup_bins_one_bin :
  setup_bins (Example.projected 1 20) = Ok Example.one_bin.
Proof.
  unfold setup_bins.
  change (interferometers (Example.projected 1 20)) with [Example.H1].
  change (WaveformGenerator.frequency_array
            (waveform_generator (Example.projected 1 20))) with [1; 8].
  cbn [for_loop].
  rewrite (proj2 (setup_bins_interferometer_Ok [1; 8] Example.H1
                    (Example.projected 1 20) Example.one_bin)); [reflexivity |].
  exists 1%Z, [1; 8], [0%nat; 1%nat], [Cone; Cone], [Cone; Cone].
  split; [exact example_plan_one_bin |]. repeat split; reflexivity.
Qed.

Lemma example_setup_bins_two_bins :
  setup_bins (Example.projected 1 13) = Ok Example.two_bins.
Proof.
  unfold setup_bins.
  change (interferometers (Example.projected 1 13)) with [Example.H1].
  change (WaveformGenerator.frequency_array
            (waveform_generator (Example.projected 1 13))) with [1; 8].
  cbn [for_loop].
  rewrite (proj2 (setup_bins_interferometer_Ok [1; 8] Example.H1
                    (Example.projected 1 13) Example.two_bins)); [reflexivity |].
  exists 2%Z, [1; 8; 8], [0%nat; 1%nat; 1%nat], [Cone; Cone], [Cone; Cone; Cone].
  split; [exact example_plan_two_bins |]. repeat split; reflexivity.
Qed.

Lemma example_setup_bins_no_bins :
  setup_bins (Example.projected (-1) 40) = Ok Example.no_bins.
Proof.
  unfold setup_bins.
  change (interferometers (Example.projected (-1) 40)) with [Example.H1].
  change (WaveformGenerator.frequency_array
            (waveform_generator (Example.projected (-1) 40))) with [1; 8].
  cbn [for_loop].
  rewrite (proj2 (setup_bins_interferometer_Ok [1; 8] Example.H1
                    (Example.projected (-1) 40) Example.no_bins)); [reflexivity |].
  exists (-1)%Z, [], [], [Cone; Cone], [].
  split; [exact example_plan_no_bins |]. repeat split; reflexivity.
Qed.

Lemma Cone_nonzero : Cone <> Czero.
Proof. intros H. apply (f_equal Re) in H. simpl in H. lra. Qed.

(** [set_fiducial_waveforms] on any state that holds the example detector
    and waveform generator. *)
Lemma example_set_fiducial_waveforms (p : Params) (s : State) :
  WaveformGenerator.frequency_array (waveform_generator s) = [1; 8] ->
  interferometers s = [Example.H1] ->
  set_fiducial_waveforms Example.response Example.strain_model p s
  = Ok (set_per_detector_fiducial_waveforms
          (<["H1" := [Cone; Cone]]> (per_detector_fiducial_waveforms s))
          (set_interferometers [Example.H1]
             (set_fiducial_polarizations (Some Example.polarizations) s)),
        <["fiducial" := 0]> (<["fiducial" := 1]> p), PyNone).
Proof.
  intros Hwg Hifos. unfold set_fiducial_waveforms.
  destruct s; simpl in *. subst. rewrite Hwg.
  change (dict_get Example.polarizations "plus") with (Ok [Cone; Cone] : result (list C)).
  rewrite Ok_bind.
  assert (Hlast : where_last (map (fun z => bool_decide (z ≠ Czero)) [Cone; Cone])
                  = Ok 1%nat).
  { cbn [map]. rewrite !(bool_decide_eq_true_2 _ Cone_nonzero). reflexivity. }
  rewrite Hlast, Ok_bind.
  change (getitem [1; 8] 1) with (Ok 8 : result R).
  rewrite Ok_bind.
  cbn [map]. unfold clip_maximum_frequency.
  rewrite bool_decide_eq_false_2 by (simpl; lra).
  reflexivity.
Qed.

Lemma example_first_equal_low : first_equal [1; 8] 1 0.
Proof. split; [reflexivity |]. intros k y Hk. lia. Qed.

Lemma example_first_equal_high : first_equal [1; 8] 8 1.
Proof.
  split; [reflexivity |]. intros [|[|k]] y Hk Hy; try lia.
  injection Hy as <-. lra.
Qed.

(** [compute_summary_data] on any state that holds the example detector and
    the BinSet of one bin. *)
Lemma example_compute_summary_data (s : State) :
  interferometers s = [Example.H1] ->
  bin_freqs s !! "H1" = Some [1; 8] ->
  per_detector_fiducial_waveforms s !! "H1" = Some [Cone; Cone] ->
  number_of_bins s = Some 1%Z ->
  WaveformGenerator.duration (waveform_generator s) = 4 ->
  compute_summary_data s
  = Ok (set_summary_data (Some (<["H1" := Example.summary]> ∅)) s).
Proof.
  intros Hifos Hbf Hh0 HN HT. unfold compute_summary_data.
  rewrite Hifos. cbn [for_loop].
  assert (Hone : compute_summary_data_interferometer s Example.H1 ∅
                 = Ok (<["H1" := Example.summary]> ∅)).
  { unfold compute_summary_data_interferometer.
    change (Interferometer.name Example.H1) with "H1".
    change (mask_select (Interferometer.frequency_mask Example.H1)
              (Interferometer.frequency_array Example.H1))
      with (Ok [1; 8] : result (list R)).
    rewrite Ok_bind, (proj2 (dict_get_Ok _ _ _) Hbf), Ok_bind.
    assert (Hmbi : mapM (fun edge => where_first
                     (map (fun f => bool_decide (f = edge)) [1; 8])) [1; 8]
                   = Ok [0%nat; 1%nat]).
    { apply mapM_Ok. repeat constructor; apply where_first_equal;
        [exact example_first_equal_low | exact example_first_equal_high]. }
    rewrite Hmbi, Ok_bind.
    change (mask_select (Interferometer.frequency_mask Example.H1)
              (Interferometer.frequency_domain_strain Example.H1))
      with (Ok [RtoC 2; RtoC 2] : result (list C)).
    rewrite Ok_bind, (proj2 (dict_get_Ok _ _ _) Hh0), Ok_bind.
    change (mask_select (Interferometer.frequency_mask Example.H1) [Cone; Cone])
      with (Ok [Cone; Cone] : result (list C)).
    rewrite Ok_bind.
    change (mask_select (Interferometer.frequency_mask Example.H1)
              (Interferometer.power_spectral_density_array Example.H1))
      with (Ok [1; 1] : result (list R)).
    rewrite Ok_bind, HN. unfold getattr. rewrite Ok_bind.
    change (np_zeros Czero 1) with (Ok [Czero] : result (list C)).
    rewrite Ok_bind, HT.
    reflexivity. }
  rewrite Hone. reflexivity.
Qed.

Lemma example_summarized : compute_summary_data Example.one_bin = Ok Example.summarized.
Proof. apply example_compute_summary_data; reflexivity. Qed.

(** The constructor, without the search. *)
Lemma example_init :
  init Example.response Example.strain_model Example.optimizer
    Example.likelihood_ratio Example.base None None false 1 20
  = Ok Example.summarized.
Proof.
  unfold init.
  rewrite example_set_fiducial_waveforms by reflexivity.
  rewrite Ok_bind.
  change (setup_bins (Example.projected 1 20)
          ≫= (fun self => compute_summary_data self ≫= (fun self0 => Ok self0))
          = Ok Example.summarized).
  rewrite example_setup_bins_one_bin, Ok_bind, example_summarized. reflexivity.
Qed.

Lemma example_search :
  find_maximum_likelihood_parameters Example.response Example.strain_model
    Example.optimizer Example.likelihood_ratio [] 1 Example.searchable
  = Ok (Example.refreshed, Example.found).
Proof.
  unfold find_maximum_likelihood_parameters.
  change (py_range 1) with [0%nat]. cbn [for_loop].
  unfold optimization_round.
  change (getattr (parameters_to_be_updated (Example.searchable, None).1))
    with (Ok [] : result (list string)).
  rewrite Ok_bind. cbv zeta.
  change (evaluated (Example.optimizer _ [])) with ([] : list (list R)).
  cbn [foldl fst].
  change (get_parameter_dictionary_from_list Example.searchable
            (x (Example.optimizer _ [])))
    with (Ok (parameter_dictionary [] Example.written []) : result Params).
  rewrite Ok_bind.
  rewrite example_set_fiducial_waveforms by reflexivity.
  rewrite Ok_bind.
  rewrite example_compute_summary_data by reflexivity.
  reflexivity.
Qed.

Lemma example_ratio (s : State) :
  bin_freqs s !! "H1" = Some [1; 8] ->
  per_detector_fiducial_waveform_points s !! "H1" = Some [Cone; Cone] ->
  bin_widths s !! "H1" = Some (widths_of [1; 8]) ->
  compute_waveform_ratio_per_interferometer Example.response s
    Example.polarizations Example.H1 = Ok ([Cone], [Czero]).
Proof.
  intros Hbf Hpts Hbw.
  apply (waveform_ratio_of_fiducial Example.response s Example.polarizations
           Example.H1 [1; 8] (widths_of [1; 8]) [Cone; Cone] 1);
    try assumption; try reflexivity.
  repeat constructor; exact Cone_nonzero.
Qed.

Lemma example_NoDup : NoDup (map Interferometer.name [Example.H1]).
Proof. apply NoDup_singleton. Qed.

Lemma example_increasing_grid : increasing [1; 8].
Proof.
  apply increasing_cons. split; [repeat constructor; lra |].
  apply increasing_cons. split; [constructor |]. intros i j a b _ Ha. discriminate Ha.
Qed.

Lemma example_positive_grid : Forall (fun f => 0 < f) [1; 8].
Proof. repeat constructor; lra. Qed.

(* ===================================================================== *)
(** * The properties on the worked example                                *)
(* ===================================================================== *)

Lemma calculate_snrs_inner_products_witness :
  calculate_snrs Example.response Example.fft Example.summarized
    Example.polarizations Example.H1
  = Ok (mkCalculatedSNRs
          (d_inner_h_sum 1 Example.a0 Example.a1 [Cone] [Czero])
          (h_inner_h_sum 1 Example.b0 Example.b1 [Cone] [Czero])
          (Cdiv (d_inner_h_sum 1 Example.a0 Example.a1 [Cone] [Czero])
                (Csqrt (h_inner_h_sum 1 Example.b0 Example.b1 [Cone] [Czero])))
          None None None).
Proof.
  apply (calculate_snrs_inner_products Example.response Example.fft
           Example.summarized Example.polarizations Example.H1
           (<["H1" := Example.summary]> ∅)
           Example.a0 Example.a1 Example.b0 Example.b1 [Cone] [Czero] 1);
    try reflexivity.
  apply example_ratio; reflexivity.
Defined.

Lemma waveform_ratio_from_bin_edges_witness :
  exists r0 r1,
    compute_waveform_ratio_per_interferometer Example.response Example.one_bin
      Example.polarizations Example.H1 = Ok (r0, r1) /\
    length r0 = 1%nat /\ length r1 = 1%nat.
Proof.
  destruct (waveform_ratio_from_bin_edges Example.response Example.one_bin
              Example.polarizations Example.H1 [1; 8] (widths_of [1; 8])
              [Cone; Cone] 1 eq_refl eq_refl eq_refl eq_refl eq_refl eq_refl)
    as (r0 & r1 & H & L0 & L1 & _).
  exists r0, r1. auto.
Defined.

Lemma all_zero_fiducial_waveform_is_fatal_witness :
  set_fiducial_waveforms Example.response Example.silent_model ∅ Example.base
  = Raise IndexError.
Proof.
  apply (all_zero_fiducial_waveform_is_fatal Example.response Example.silent_model
           Example.optimizer Example.likelihood_ratio Example.base ∅
           (<["plus" := [Czero; Czero]]> ∅) [Czero; Czero]).
  - reflexivity.
  - reflexivity.
  - repeat constructor.
Defined.


(** C5 fails as stated: with [chi = 1] and [epsilon = 13] the example
    detector gets the edges [1; 8; 8], so the edge frequencies are not
    strictly increasing and the second bin has width zero. *)
Lemma bin_edges_can_repeat :
  exists self' edges inds widths,
    setup_bins (Example.projected 1 13) = Ok self' /\
    bin_freqs self' !! "H1" = Some edges /\
    bin_inds self' !! "H1" = Some inds /\
    bin_widths self' !! "H1" = Some widths /\
    ~ increasing edges /\ ~ increasing_nat inds /\
    ~ Forall (fun w => 0 < w) widths.
Proof.
  exists Example.two_bins, [1; 8; 8], [0%nat; 1%nat; 1%nat], [8 - 1; 8 - 8].
  split; [exact example_setup_bins_two_bins |].
  split; [reflexivity |]. split; [reflexivity |]. split; [reflexivity |].
  split; [| split].
  - intros H. specialize (H 1%nat 2%nat 8 8 ltac:(lia) eq_refl eq_refl). lra.
  - intros H. specialize (H 1%nat 2%nat 1%nat 1%nat ltac:(lia) eq_refl eq_refl). lia.
  - intros H. apply Forall_cons in H as [_ H]. apply Forall_cons in H as [H _]. lra.
Qed.

Lemma bin_edges_are_ordered_witness :
  exists edges inds widths,
    bin_freqs Example.one_bin !! "H1" = Some edges /\
    bin_inds Example.one_bin !! "H1" = Some inds /\
    bin_widths Example.one_bin !! "H1" = Some widths /\
    nondecreasing edges /\ nondecreasing_nat inds /\
    Forall (fun w => 0 <= w) widths /\
    head edges = Some 1 /\ last edges = Some 8.
Proof.
  destruct (bin_edges_are_ordered (Example.projected 1 20) Example.one_bin
              Example.H1 example_setup_bins_one_bin example_NoDup
              (list_elem_of_here _ _) ltac:(simpl; lra) ltac:(simpl; lra)
              example_positive_grid example_increasing_grid)
    as (edges & inds & widths & H1 & H2 & H3 & _ & H4 & H5 & H6 & _ & _ & Hends).
  destruct (Hends ltac:(simpl; lra)) as [Hlo Hhi].
  exists edges, inds, widths.
  split; [exact H1 |]. split; [exact H2 |]. split; [exact H3 |].
  split; [exact H4 |]. split; [exact H5 |]. split; [exact H6 |].
  split; [apply Hlo; left | apply Hhi; right; left].
Defined.

(** C8 fails as stated: with [chi = -1] and [epsilon = 40] the total
    deviation of the example detector is below [epsilon], the bin count is
    -1, and [setup_bins] returns with empty bin arrays. *)
Lemma negative_bin_count_gives_empty_bins :
  exists useful from_start total self',
    frequency_array_useful [1; 8] Example.H1 = Ok useful /\
    d_phi_from_start (d_phi (d_alpha (-1) Example.H1) useful) = Ok from_start /\
    last from_start = Some total /\
    total < epsilon (Example.projected (-1) 40) /\
    setup_bins (Example.projected (-1) 40) = Ok self' /\
    number_of_bins self' = Some (-1)%Z /\
    bin_freqs self' !! "H1" = Some [] /\
    bin_inds self' !! "H1" = Some [] /\
    bin_widths self' !! "H1" = Some [] /\
    bin_centers self' !! "H1" = Some [].
Proof.
  exists [1; 8], [0; Example.total (-1)], (Example.total (-1)), Example.no_bins.
  split; [exact example_useful |].
  split; [apply example_d_phi_from_start |].
  split; [reflexivity |].
  split; [pose proof PI_bounds; unfold Example.total; simpl; lra |].
  split; [exact example_setup_bins_no_bins |].
  repeat split; reflexivity.
Qed.

Lemma zero_bin_count_raises_witness :
  setup_bins (Example.projected 1 40) = Raise ZeroDivisionError.
Proof.
  destruct (zero_bin_count_raises (Example.projected 1 40) [] [] Example.H1
              [1; 8] [0; Example.total 1] (Example.total 1)
              eq_refl example_useful (example_d_phi_from_start 1) eq_refl
              example_total_below_epsilon)
    as (_ & _ & H).
  apply (H (Example.projected 1 40)). reflexivity.
Defined.

Lemma summary_data_inner_products_witness :
  exists summary a0 a1 b0 b1,
    summary_data Example.summarized = Some summary /\
    summary !! "H1" = Some (a0, a1, b0, b1) /\
    length a0 = 1%nat /\ length a1 = 1%nat /\
    length b0 = 1%nat /\ length b1 = 1%nat.
Proof.
  destruct (summary_data_inner_products Example.one_bin Example.summarized
              Example.H1 example_summarized example_NoDup (list_elem_of_here _ _))
    as (summary & a0 & a1 & b0 & b1 & edges & h0 & N & H).
  cbv zeta in H.
  destruct H as (H1 & H2 & _ & _ & HN & L0 & L1 & L2 & L3 & _).
  change (number_of_bins Example.one_bin) with (Some 1%Z) in HN.
  injection HN as <-.
  exists summary, a0, a1, b0, b1. auto 10.
Defined.



Lemma example_a1_real_part :
  forall z, Example.a1 !! 0%nat = Some z -> Re z = -7.
Proof.
  intros z [= <-]. unfold noise_weighted_inner_product. simpl.
  replace (1 * 1 + 0 * 0) with 1 by lra. lra.
Qed.

Lemma example_claimed_a1_real_part :
  Re (snd (fst (fst
        (summary_of_bin 4 (fun k => [1; 8] !!! k) (fun k => [RtoC 2; RtoC 2] !!! k)
           (fun k => [Cone; Cone] !!! k) (fun k => [1; 1] !!! k) 0 1
           (sample_midpoint (fun k => [1; 8] !!! k) 0 1))))) = 0.
Proof.
  unfold summary_of_bin, bin_inner_product, sample_midpoint. simpl.
  replace (1 * 1 + 0 * 0) with 1 by lra. lra.
Qed.

(** C3 fails as stated: in the bin of the example, whose only sample is the
    frequency 1, the midpoint of the first and last sample is 1 and gives
    a1 = 0, while [compute_summary_data] centres the bin on (1 + 8) / 2 and
    stores a1 = -7. *)
Lemma summary_center_is_not_the_sample_midpoint :
  exists self' summary a0 a1 b0 b1,
    compute_summary_data Example.one_bin = Ok self' /\
    summary_data self' = Some summary /\
    summary !! "H1" = Some (a0, a1, b0, b1) /\
    first_equal (mask_filter (Interferometer.frequency_mask Example.H1)
                   (Interferometer.frequency_array Example.H1)) 1 0 /\
    first_equal (mask_filter (Interferometer.frequency_mask Example.H1)
                   (Interferometer.frequency_array Example.H1)) 8 1 /\
    a1 !! 0%nat
    <> Some (snd (fst (fst
         (summary_of_bin 4 (fun k => [1; 8] !!! k) (fun k => [RtoC 2; RtoC 2] !!! k)
            (fun k => [Cone; Cone] !!! k) (fun k => [1; 1] !!! k) 0 1
            (sample_midpoint (fun k => [1; 8] !!! k) 0 1))))).
Proof.
  exists Example.summarized, (<["H1" := Example.summary]> ∅),
    Example.a0, Example.a1, Example.b0, Example.b1.
  split; [exact example_summarized |]. split; [reflexivity |].
  split; [reflexivity |].
  split; [exact example_first_equal_low |].
  split; [exact example_first_equal_high |].
  intros H. apply example_a1_real_part in H.
  rewrite example_claimed_a1_real_part in H. lra.
Qed.


(* ===================================================================== *)
(** * Further properties of [setup_bins]                                  *)
(* ===================================================================== *)

Lemma filter_nil_none {A} (P : A -> Prop) `{!forall x, Decision (P x)} (l : list A) :
  (forall x, x ∈ l -> ~ P x) -> filter P l = [].
Proof.
  induction l as [|x l IH]; intros Hnone; [reflexivity |].
  rewrite filter_cons_False by (apply Hnone; left).
  apply IH. intros y Hy. apply Hnone. right. exact Hy.
Qed.

(** X1.  When no frequency of the grid lies between a detector's minimum
    and maximum frequency (in particular when the maximum frequency is below
    the minimum frequency), the pass of [setup_bins] for that detector raises
    [IndexError], at [d_phi[0]] of line 172; so does [setup_bins] when the
    detectors before it went through. *)
Theorem setup_bins_empty_band_raises (self : State)
    (earlier later : list Interferometer.t) (interferometer : Interferometer.t) :
  interferometers self = earlier ++ interferometer :: later ->
  (forall f, f ∈ WaveformGenerator.frequency_array (waveform_generator self) ->
     ~ (Interferometer.minimum_frequency interferometer <= f /\
        f <= Interferometer.maximum_frequency interferometer)) ->
  setup_bins_interferometer
    (WaveformGenerator.frequency_array (waveform_generator self))
    interferometer self = Raise IndexError
  /\ (forall reached,
        for_loop earlier
          (setup_bins_interferometer
             (WaveformGenerator.frequency_array (waveform_generator self))) self
        = Ok reached ->
        setup_bins self = Raise IndexError).
Proof.
  intros Hifos Hnone.
  set (fa := WaveformGenerator.frequency_array (waveform_generator self)) in *.
  assert (Hplan : forall c e, setup_bins_plan fa c e interferometer = Raise IndexError).
  { intros c e. unfold setup_bins_plan.
    rewrite frequency_array_useful_filter, Ok_bind.
    rewrite filter_nil_none by exact Hnone. reflexivity. }
  assert (Hpass : forall s, setup_bins_interferometer fa interferometer s
                            = Raise IndexError).
  { intros s. unfold setup_bins_interferometer. rewrite Hplan. reflexivity. }
  split; [apply Hpass |].
  intros reached Hpre. unfold setup_bins. fold fa.
  rewrite Hifos, for_loop_app, Hpre, Ok_bind. simpl. rewrite Hpass. reflexivity.
Qed.

(** X2.  After [setup_bins], every bin edge of every detector is a
    frequency of the waveform generator's grid that lies between the
    detector's minimum and maximum frequency. *)
Theorem bin_edges_lie_in_the_band (self self' : State)
    (interferometer : Interferometer.t) (edges : list R) (x : R) :
  setup_bins self = Ok self' ->
  NoDup (map Interferometer.name (interferometers self)) ->
  interferometer ∈ interferometers self ->
  bin_freqs self' !! Interferometer.name interferometer = Some edges ->
  x ∈ edges ->
  x ∈ WaveformGenerator.frequency_array (waveform_generator self) /\
  Interferometer.minimum_frequency interferometer <= x /\
  x <= Interferometer.maximum_frequency interferometer.
Proof.
  unfold setup_bins. intros Hsetup Hnodup Hin Hedges Hx.
  destruct (setup_bins_loop_detector _ _ _ _ interferometer Hsetup Hnodup Hin)
    as (N & bf & bi & h0 & pts & Hplan & _ & _ & Hbf & _).
  rewrite Hedges in Hbf. injection Hbf as <-.
  apply setup_bins_plan_Ok in Hplan
    as (fu & dpfs & total & Hfu & _ & _ & _ & _ & _ & Hlbf & _ & Hplaced).
  rewrite frequency_array_useful_filter in Hfu. injection Hfu as <-.
  apply list_elem_of_lookup in Hx as [i Hi].
  pose proof (lookup_lt_Some _ _ _ Hi) as Hlt. rewrite Hlbf in Hlt.
  destruct (Hplaced i Hlt) as (y & k & (t & j & _ & _ & Hy & _) & Hiy & _).
  rewrite Hi in Hiy. injection Hiy as <-.
  apply list_elem_of_lookup_2 in Hy. apply list_elem_of_filter in Hy as [[? ?] ?].
  auto.
Qed.

(** On an increasing grid, the first index at or above a grid frequency is
    the index of that frequency. *)
Lemma first_at_or_above_grid (fa : list R) x k :
  increasing fa -> x ∈ fa -> first_at_or_above fa x k -> fa !! k = Some x.
Proof.
  intros Hinc Hx [(y & Hy & Hle) Hbefore].
  apply list_elem_of_lookup in Hx as [k' Hk'].
  destruct (lt_eq_lt_dec k k') as [[Hlt | ->] | Hgt].
  - pose proof (Hinc k k' y x Hlt Hy Hk'). lra.
  - exact Hk'.
  - pose proof (Hbefore k' x Hgt Hk'). lra.
Qed.

(** X3.  After [setup_bins] on an increasing frequency grid, the edge
    indices locate the edge frequencies: for every detector and every edge
    [i], the grid frequency at index [bin_inds[i]] is [bin_freqs[i]]. *)
Theorem bin_inds_locate_bin_freqs (self self' : State)
    (interferometer : Interferometer.t) :
  setup_bins self = Ok self' ->
  NoDup (map Interferometer.name (interferometers self)) ->
  interferometer ∈ interferometers self ->
  increasing (WaveformGenerator.frequency_array (waveform_generator self)) ->
  exists (edges : list R) (inds : list nat),
    bin_freqs self' !! Interferometer.name interferometer = Some edges /\
    bin_inds self' !! Interferometer.name interferometer = Some inds /\
    length inds = length edges /\
    forall i x, edges !! i = Some x ->
      exists k, inds !! i = Some k /\
                WaveformGenerator.frequency_array (waveform_generator self) !! k
                = Some x.
Proof.
  unfold setup_bins. intros Hsetup Hnodup Hin Hinc.
  destruct (setup_bins_loop_detector _ _ _ _ interferometer Hsetup Hnodup Hin)
    as (N & bf & bi & h0 & pts & Hplan & _ & _ & Hbf & Hbi & _).
  apply setup_bins_plan_Ok in Hplan
    as (fu & dpfs & total & Hfu & _ & _ & _ & _ & _ & Hlbf & Hlbi & Hplaced).
  rewrite frequency_array_useful_filter in Hfu. injection Hfu as <-.
  exists bf, bi. split; [exact Hbf |]. split; [exact Hbi |].
  split; [congruence |].
  intros i x Hi.
  pose proof (lookup_lt_Some _ _ _ Hi) as Hlt. rewrite Hlbf in Hlt.
  destruct (Hplaced i Hlt) as (y & k & (t & j & _ & _ & Hy & Hk) & Hiy & Hik).
  rewrite Hi in Hiy. injection Hiy as <-.
  exists k. split; [exact Hik |].
  apply first_at_or_above_grid; [exact Hinc | | exact Hk].
  apply list_elem_of_lookup_2 in Hy. apply list_elem_of_filter in Hy as [_ Hy].
  exact Hy.
Qed.

Lemma centers_of_lookup (bf : list R) i a b :
  bf !! i = Some a -> bf !! S i = Some b ->
  centers_of bf !! i = Some ((b + a) / 2) /\ widths_of bf !! i = Some (b - a).
Proof.
  intros Ha Hb. pose proof (lookup_lt_Some _ _ _ Hb) as Hlt.
  unfold centers_of, widths_of.
  rewrite list_lookup_fmap, !lookup_adjacent by exact Hlt.
  rewrite (list_lookup_total_correct _ _ _ Ha), (list_lookup_total_correct _ _ _ Hb).
  auto.
Qed.

Lemma length_centers_of (bf : list R) : length (centers_of bf) = (length bf - 1)%nat.
Proof. unfold centers_of. rewrite length_map. apply length_adjacent. Qed.

(** X4.  After [setup_bins] the BinSet of every detector is consistent:
    the edge indices and the fiducial waveform points are as many as the
    edges, the widths and centres one fewer; width [i] is edge [i+1] minus edge
    [i] and centre [i] is their mean; and point [i] is the fiducial waveform
    at index [bin_inds[i]]. *)
Theorem bin_set_is_consistent (self self' : State)
    (interferometer : Interferometer.t) :
  setup_bins self = Ok self' ->
  NoDup (map Interferometer.name (interferometers self)) ->
  interferometer ∈ interferometers self ->
  exists (edges : list R) (inds : list nat) (widths centers : list R)
         (points h0 : list C),
    bin_freqs self' !! Interferometer.name interferometer = Some edges /\
    bin_inds self' !! Interferometer.name interferometer = Some inds /\
    bin_widths self' !! Interferometer.name interferometer = Some widths /\
    bin_centers self' !! Interferometer.name interferometer = Some centers /\
    per_detector_fiducial_waveform_points self' !! Interferometer.name interferometer
    = Some points /\
    per_detector_fiducial_waveforms self !! Interferometer.name interferometer
    = Some h0 /\
    length inds = length edges /\ length points = length edges /\
    length widths = (length edges - 1)%nat /\
    length centers = (length edges - 1)%nat /\
    (forall i a b, edges !! i = Some a -> edges !! S i = Some b ->
       widths !! i = Some (b - a) /\ centers !! i = Some ((b + a) / 2)) /\
    (forall i k, inds !! i = Some k ->
       exists z, h0 !! k = Some z /\ points !! i = Some z).
Proof.
  unfold setup_bins. intros Hsetup Hnodup Hin.
  destruct (setup_bins_loop_detector _ _ _ _ interferometer Hsetup Hnodup Hin)
    as (N & bf & bi & h0 & pts & Hplan & Hh0 & Hpts & Hbf & Hbi & Hbw & Hbc & Hp).
  apply setup_bins_plan_Ok in Hplan
    as (fu & dpfs & total & _ & _ & _ & _ & _ & _ & Hlbf & Hlbi & _).
  unfold take_indices in Hpts. apply mapM_Ok in Hpts.
  exists bf, bi, (widths_of bf), (centers_of bf), pts, h0.
  do 6 (split; [assumption |]).
  split; [congruence |].
  split; [rewrite <- (Forall2_length _ _ _ Hpts); congruence |].
  split; [apply length_widths_of |]. split; [apply length_centers_of |].
  split.
  - intros i a b Ha Hb. destruct (centers_of_lookup bf i a b Ha Hb). auto.
  - intros i k Hk.
    destruct (Forall2_lookup_l _ _ _ _ _ Hpts Hk) as (z & Hz & Hget).
    apply getitem_Ok in Hget. eauto.
Qed.

(** X5.  [setup_bins] leaves in the waveform generator's
    ["frequency_bin_edges"] argument the bin edges of the detector that comes
    last in the list, and leaves the generator's frequency grid and duration
    as they were. *)
Theorem frequency_bin_edges_are_the_last_detectors (self self' : State)
    (earlier : list Interferometer.t) (last_interferometer : Interferometer.t) :
  setup_bins self = Ok self' ->
  interferometers self = earlier ++ [last_interferometer] ->
  (exists edges,
     WaveformGenerator.waveform_arguments (waveform_generator self')
       !! "frequency_bin_edges" = Some edges /\
     bin_freqs self' !! Interferometer.name last_interferometer = Some edges) /\
  WaveformGenerator.frequency_array (waveform_generator self')
  = WaveformGenerator.frequency_array (waveform_generator self) /\
  WaveformGenerator.duration (waveform_generator self')
  = WaveformGenerator.duration (waveform_generator self).
Proof.
  unfold setup_bins. intros Hsetup Hifos. rewrite Hifos in Hsetup.
  rewrite for_loop_app in Hsetup. apply bind_Ok in Hsetup as (s1 & Hpre & Hlast).
  apply for_loop_cons_Ok in Hlast as (s2 & Hstep & Hnil). injection Hnil as <-.
  apply setup_bins_interferometer_Ok in Hstep
    as (N & bf & bi & h0 & pts & _ & _ & _ & ->).
  assert (Hduration : forall ifos s s',
            for_loop ifos
              (setup_bins_interferometer
                 (WaveformGenerator.frequency_array (waveform_generator self))) s
            = Ok s' ->
            WaveformGenerator.duration (waveform_generator s')
            = WaveformGenerator.duration (waveform_generator s)).
  { induction ifos as [|ifo ifos IH]; intros s s' H.
    - injection H as <-. reflexivity.
    - apply for_loop_cons_Ok in H as (sm & Hs & Hr).
      apply setup_bins_interferometer_Ok in Hs as (? & ? & ? & ? & ? & _ & _ & _ & ->).
      rewrite (IH _ _ Hr). reflexivity. }
  pose proof (Hduration _ _ _ Hpre) as Hd.
  apply setup_bins_loop_frame in Hpre as (_ & _ & _ & _ & Hfa & _).
  split; [| split].
  - exists bf. simpl. rewrite !lookup_insert_eq. auto.
  - simpl. exact Hfa.
  - simpl. exact Hd.
Qed.

(** X6.  [setup_bins] needs the fiducial waveform of every detector: when
    the bins of the first detector can be planned but
    [per_detector_fiducial_waveforms] has no entry under its name (as before
    [set_fiducial_waveforms]), [setup_bins] raises [KeyError]. *)
Theorem setup_bins_without_fiducial_waveform_raises (self : State)
    (interferometer : Interferometer.t) (later : list Interferometer.t)
    (plan : Z * (list R * list nat)) :
  interferometers self = interferometer :: later ->
  setup_bins_plan (WaveformGenerator.frequency_array (waveform_generator self))
    (chi self) (epsilon self) interferometer = Ok plan ->
  per_detector_fiducial_waveforms self !! Interferometer.name interferometer = None ->
  setup_bins self = Raise KeyError.
Proof.
  intros Hifos Hplan Hnone. unfold setup_bins. rewrite Hifos. simpl.
  unfold setup_bins_interferometer. rewrite Hplan, Ok_bind.
  destruct plan as [N [bf bi]]. unfold dict_get. rewrite Hnone. reflexivity.
Qed.

(* ===================================================================== *)
(** * Running [setup_bins] again                                          *)
(* ===================================================================== *)

Lemma agree_outside_refl names s : agree_outside names s s.
Proof. unfold agree_outside. auto 20. Qed.

Lemma store_bins_agree name N bf bi widths centers points names s t :
  agree_outside (name :: names) s t ->
  agree_outside names (store_bins name N bf bi widths centers points s)
    (store_bins name N bf bi widths centers points t) /\
  WaveformGenerator.waveform_arguments
    (waveform_generator (store_bins name N bf bi widths centers points t))
    !! "frequency_bin_edges"
  = WaveformGenerator.waveform_arguments
      (waveform_generator (store_bins name N bf bi widths centers points s))
      !! "frequency_bin_edges".
Proof.
  intros (A1 & A2 & A3 & A4 & A5 & A6 & A7 & A8 & A9 & A10 & A11 & A12 & A13
          & A14 & Hargs & Hnames).
  split; [| simpl; rewrite !lookup_insert_eq; reflexivity].
  unfold agree_outside. simpl.
  do 14 (split; [assumption |]). split.
  - intros k Hk. rewrite !lookup_insert_ne by congruence. apply Hargs, Hk.
  - intros other Hother.
    destruct (decide (other = name)) as [->|Hne].
    + rewrite !lookup_insert_eq. auto.
    + rewrite !lookup_insert_ne by congruence. apply Hnames.
      apply not_elem_of_cons. auto.
Qed.

Lemma store_bins_left_agree name N bf bi widths centers points names s t :
  agree_outside names (store_bins name N bf bi widths centers points s) t ->
  agree_outside (name :: names) s t.
Proof.
  intros (A1 & A2 & A3 & A4 & A5 & A6 & A7 & A8 & A9 & A10 & A11 & A12 & A13
          & A14 & Hargs & Hnames).
  simpl in *. unfold agree_outside.
  do 14 (split; [assumption |]). split.
  - intros k Hk. rewrite (Hargs k Hk). apply lookup_insert_ne. congruence.
  - intros other Hother. apply not_elem_of_cons in Hother as [Hne Hother].
    destruct (Hnames other Hother) as (-> & -> & -> & -> & ->).
    rewrite !lookup_insert_ne by congruence. auto.
Qed.

(** What the loop of [setup_bins] leaves differs from what it started with
    only in what its passes write. *)
Lemma setup_bins_loop_agree fa ifos : forall s s',
  for_loop ifos (setup_bins_interferometer fa) s = Ok s' ->
  agree_outside (map Interferometer.name ifos) s s'.
Proof.
  induction ifos as [|ifo ifos IH]; intros s s' H.
  - injection H as <-. apply agree_outside_refl.
  - apply for_loop_cons_Ok in H as (s1 & Hstep & Hrest).
    apply setup_bins_interferometer_Ok in Hstep
      as (N & bf & bi & h0 & pts & _ & _ & _ & ->).
    apply IH in Hrest. simpl. eapply store_bins_left_agree. exact Hrest.
Qed.

(** The loop of [setup_bins] run from a state that agrees with [s] outside
    what the loop writes ends in the same state. *)
Lemma setup_bins_loop_replay fa ifos : forall s s' t,
  ifos <> [] ->
  for_loop ifos (setup_bins_interferometer fa) s = Ok s' ->
  agree_outside (map Interferometer.name ifos) s t ->
  exists t',
    for_loop ifos (setup_bins_interferometer fa) t = Ok t' /\
    agree_outside [] s' t' /\
    number_of_bins t' = number_of_bins s' /\
    WaveformGenerator.waveform_arguments (waveform_generator t')
      !! "frequency_bin_edges"
    = WaveformGenerator.waveform_arguments (waveform_generator s')
        !! "frequency_bin_edges".
Proof.
  induction ifos as [|ifo ifos IH]; intros s s' t Hne H Hagree; [contradiction |].
  apply for_loop_cons_Ok in H as (s1 & Hstep & Hrest).
  apply setup_bins_interferometer_Ok in Hstep
    as (N & bf & bi & h0 & pts & Hplan & Hh0 & Hpts & ->).
  pose proof Hagree as (_ & _ & _ & _ & _ & Hchi & Heps & _ & Hw & _).
  assert (Hstep' : setup_bins_interferometer fa ifo t
                   = Ok (store_bins (Interferometer.name ifo) N bf bi
                           (widths_of bf) (centers_of bf) pts t)).
  { apply setup_bins_interferometer_Ok. exists N, bf, bi, h0, pts.
    rewrite Hchi, Heps, Hw. auto. }
  simpl in Hagree.
  destruct (store_bins_agree (Interferometer.name ifo) N bf bi (widths_of bf)
              (centers_of bf) pts (map Interferometer.name ifos) s t Hagree)
    as [Hagree1 Hargs1].
  cbn [for_loop]. rewrite Hstep', Ok_bind.
  destruct ifos as [|ifo' ifos].
  - injection Hrest as <-. eexists. split; [reflexivity |].
    split; [exact Hagree1 |]. split; [reflexivity | exact Hargs1].
  - eapply IH; [discriminate | exact Hrest | exact Hagree1].
Qed.

Lemma agree_outside_nil_eq (s t : State) :
  agree_outside [] s t ->
  number_of_bins t = number_of_bins s ->
  WaveformGenerator.waveform_arguments (waveform_generator t)
    !! "frequency_bin_edges"
  = WaveformGenerator.waveform_arguments (waveform_generator s)
      !! "frequency_bin_edges" ->
  t = s.
Proof.
  intros (A1 & A2 & A3 & A4 & A5 & A6 & A7 & A8 & A9 & A10 & A11 & A12 & A13
          & A14 & Hargs & Hnames) HN Hedge.
  assert (Hwg : waveform_generator t = waveform_generator s).
  { destruct (waveform_generator t) as [fa1 d1 args1].
    destruct (waveform_generator s) as [fa2 d2 args2]. simpl in *.
    f_equal; [assumption | assumption |].
    apply map_eq. intros k.
    destruct (decide (k = "frequency_bin_edges")) as [->|Hk]; [exact Hedge |].
    apply Hargs, Hk. }
  assert (Hmaps : bin_freqs t = bin_freqs s /\ bin_inds t = bin_inds s /\
                  bin_widths t = bin_widths s /\ bin_centers t = bin_centers s /\
                  per_detector_fiducial_waveform_points t
                  = per_detector_fiducial_waveform_points s).
  { repeat split; apply map_eq; intros name;
      apply (Hnames name); apply not_elem_of_nil. }
  destruct Hmaps as (M1 & M2 & M3 & M4 & M5).
  clear Hargs Hnames Hedge A13 A14.
  destruct t, s. simpl in *. subst. reflexivity.
Qed.

(** X24.  [setup_bins] is idempotent: run again on the state it left, it
    returns that state. *)
Theorem setup_bins_twice (self self' : State) :
  setup_bins self = Ok self' -> setup_bins self' = Ok self'.
Proof.
  unfold setup_bins. intros H.
  pose proof (setup_bins_loop_agree _ _ _ _ H) as Hagree.
  pose proof Hagree as (Hifos & _ & _ & _ & _ & _ & _ & _ & _ & _ & _ & _ & Hfa & _).
  rewrite Hifos, Hfa.
  destruct (interferometers self) as [|ifo ifos] eqn:Hl.
  - injection H as <-. reflexivity.
  - assert (Hne : ifo :: ifos <> []) by discriminate.
    destruct (setup_bins_loop_replay _ _ _ _ self' Hne H Hagree)
      as (t' & Hrun & Hnil & HN & Hedge).
    rewrite Hrun. f_equal. apply agree_outside_nil_eq; assumption.
Qed.

(* ===================================================================== *)
(** * Further properties of [set_fiducial_waveforms]                      *)
(* ===================================================================== *)

(** The last hit of [np.where]. *)
Lemma np_where_from_last k cond i :
  last (np_where_from k cond) = Some i <->
  exists j, i = (k + j)%nat /\ cond !! j = Some true /\
            forall j', (j < j')%nat -> cond !! j' <> Some true.
Proof.
  revert k. induction cond as [|b cond IH]; intros k.
  - simpl. split; [discriminate | intros (j & _ & H & _); discriminate].
  - assert (Hshift : last (np_where_from (S k) cond) = Some i <->
              exists j, i = (k + S j)%nat /\ (b :: cond) !! S j = Some true /\
                        forall j', (S j < S j')%nat -> (b :: cond) !! S j' <> Some true).
    { rewrite IH. split; intros (j & -> & Hj & Hafter); exists j;
        (split; [lia |]); (split; [exact Hj |]); intros j' Hlt; apply Hafter; lia. }
    simpl. destruct b.
    + rewrite last_cons. destruct (last (np_where_from (S k) cond)) as [x|] eqn:Hl.
      * split.
        -- intros Hx. apply Hshift in Hx as (j & -> & Hj & Hafter).
           exists (S j). split; [reflexivity |]. split; [exact Hj |].
           intros [|j'] Hlt; [lia |]. apply Hafter. lia.
        -- intros (j & -> & Hj & Hafter). apply Hshift.
           destruct j as [|j].
           ++ exfalso. apply last_Some_elem_of, elem_of_np_where_from in Hl as [Hle Hx].
              apply (Hafter (S (x - S k))); [lia |]. exact Hx.
           ++ exists j. split; [reflexivity |]. split; [exact Hj |].
              intros j' Hlt. apply Hafter. lia.
      * split.
        -- intros [= <-]. exists 0%nat. split; [lia |]. split; [reflexivity |].
           intros [|j'] Hlt; [lia |]. simpl. intros Hj'.
           apply last_None in Hl.
           assert (Hin : (S k + j')%nat ∈ np_where_from (S k) cond).
           { apply elem_of_np_where_from. split; [lia |].
             replace (S k + j' - S k)%nat with j' by lia. exact Hj'. }
           rewrite Hl in Hin. inversion Hin.
        -- intros (j & -> & Hj & Hafter). destruct j as [|j]; [f_equal; lia |].
           exfalso. apply last_None in Hl.
           assert (Hin : (S k + j)%nat ∈ np_where_from (S k) cond).
           { apply elem_of_np_where_from. split; [lia |].
             replace (S k + j - S k)%nat with j by lia. exact Hj. }
           rewrite Hl in Hin. inversion Hin.
    + rewrite Hshift. split.
      * intros (j & -> & Hj & Hafter). exists (S j). split; [reflexivity |].
        split; [exact Hj |]. intros [|j'] Hlt; [lia |]. apply Hafter. lia.
      * intros (j & -> & Hj & Hafter). destruct j as [|j]; [discriminate |].
        exists j. split; [reflexivity |]. split; [exact Hj |].
        intros j' Hlt. apply Hafter. lia.
Qed.

Lemma where_last_Ok cond j :
  where_last cond = Ok j <->
  cond !! j = Some true /\ forall k, (j < k)%nat -> cond !! k <> Some true.
Proof.
  unfold where_last. rewrite getitem_last_Ok. unfold np_where.
  rewrite np_where_from_last. split.
  - intros (j' & -> & H). exact H.
  - intros H. exists j. split; [reflexivity | exact H].
Qed.

Lemma clip_maximum_frequency_min cutoff ifo :
  Interferometer.maximum_frequency (clip_maximum_frequency cutoff ifo)
  = Rmin (Interferometer.maximum_frequency ifo) cutoff /\
  Interferometer.name (clip_maximum_frequency cutoff ifo) = Interferometer.name ifo /\
  Interferometer.minimum_frequency (clip_maximum_frequency cutoff ifo)
  = Interferometer.minimum_frequency ifo /\
  Interferometer.frequency_array (clip_maximum_frequency cutoff ifo)
  = Interferometer.frequency_array ifo /\
  Interferometer.frequency_mask (clip_maximum_frequency cutoff ifo)
  = Interferometer.frequency_mask ifo /\
  Interferometer.frequency_domain_strain (clip_maximum_frequency cutoff ifo)
  = Interferometer.frequency_domain_strain ifo /\
  Interferometer.power_spectral_density_array (clip_maximum_frequency cutoff ifo)
  = Interferometer.power_spectral_density_array ifo.
Proof.
  unfold clip_maximum_frequency, Rmin. case_bool_decide as Hlt; simpl.
  - destruct (Rle_dec _ _); repeat split; lra.
  - destruct (Rle_dec _ _); repeat split; lra.
Qed.

(** X7.  When [set_fiducial_waveforms] returns, the cutoff it used is the
    grid frequency at the last index at which the ["plus"] polarization is not
    zero, and every detector keeps its place in the list and all its
    attributes except that its maximum frequency is the smaller of its former
    maximum frequency and the cutoff. *)
Theorem set_fiducial_waveforms_clips_maximum_frequency
    (get_detector_response :
       Interferometer.t -> Polarizations -> Params -> option (list R) -> list C)
    (frequency_domain_strain : WaveformGenerator.t -> Params -> option Polarizations)
    (parameters : Params) (self self' : State) (written : Params) (v : pyval) :
  set_fiducial_waveforms get_detector_response frequency_domain_strain
    parameters self = Ok (self', written, v) ->
  exists (polarizations : Polarizations) (plus : list C) (index : nat) (cutoff : R),
    fiducial_polarizations self' = Some polarizations /\
    polarizations !! "plus" = Some plus /\
    (exists z, plus !! index = Some z /\ z <> Czero) /\
    (forall k z, (index < k)%nat -> plus !! k = Some z -> z = Czero) /\
    WaveformGenerator.frequency_array (waveform_generator self) !! index
    = Some cutoff /\
    length (interferometers self') = length (interferometers self) /\
    forall i interferometer, interferometers self !! i = Some interferometer ->
      exists clipped,
        interferometers self' !! i = Some clipped /\
        Interferometer.maximum_frequency clipped
        = Rmin (Interferometer.maximum_frequency interferometer) cutoff /\
        Interferometer.name clipped = Interferometer.name interferometer /\
        Interferometer.minimum_frequency clipped
        = Interferometer.minimum_frequency interferometer /\
        Interferometer.frequency_array clipped
        = Interferometer.frequency_array interferometer.
Proof.
  unfold set_fiducial_waveforms. intros H.
  apply bind_Ok in H as (plus & Hplus & H).
  apply bind_Ok in H as (idx & Hidx & H).
  apply bind_Ok in H as (f & Hf & H).
  destruct self; simpl in *.
  destruct (frequency_domain_strain _ _) as [pol|] eqn:Hpol; [| discriminate Hplus].
  injection H as <- <- <-. simpl in *.
  apply dict_get_Ok in Hplus. apply getitem_Ok in Hf.
  apply where_last_Ok in Hidx as [Hhit Hafter].
  exists pol, plus, idx, f.
  split; [reflexivity |]. split; [exact Hplus |]. split; [| split; [| split; [| split]]].
  - rewrite list_lookup_fmap in Hhit. destruct (plus !! idx) as [z|]; [| discriminate].
    exists z. split; [reflexivity |]. simpl in Hhit. injection Hhit as Hhit.
    apply bool_decide_eq_true in Hhit. exact Hhit.
  - intros k z Hk Hz. specialize (Hafter k Hk).
    rewrite list_lookup_fmap, Hz in Hafter. simpl in Hafter.
    destruct (decide (z = Czero)) as [|Hne]; [assumption |].
    exfalso. apply Hafter. f_equal. apply bool_decide_eq_true. exact Hne.
  - exact Hf.
  - apply length_map.
  - intros i ifo Hi. exists (clip_maximum_frequency f ifo).
    split; [rewrite list_lookup_fmap, Hi; reflexivity |].
    destruct (clip_maximum_frequency_min f ifo) as (E1 & E2 & E3 & E4 & _). auto.
Qed.

Lemma project_fiducial_lookup
    (get_detector_response :
       Interferometer.t -> Polarizations -> Params -> option (list R) -> list C)
    (pols : Polarizations) (p : Params) (l : list Interferometer.t) :
  forall w,
  (forall name, name ∉ map Interferometer.name l ->
     project_fiducial get_detector_response pols p l w !! name = w !! name) /\
  (NoDup (map Interferometer.name l) ->
   forall ifo, ifo ∈ l ->
     project_fiducial get_detector_response pols p l w !! Interferometer.name ifo
     = Some (get_detector_response ifo pols p None)).
Proof.
  unfold project_fiducial. induction l as [|x l IH]; intros w.
  - split; [reflexivity | intros _ ifo Hin; inversion Hin].
  - simpl. destruct (IH (<[Interferometer.name x :=
                            get_detector_response x pols p None]> w)) as [Hout Hin].
    split.
    + intros name Hname. apply not_elem_of_cons in Hname as [Hne Hnot].
      rewrite (Hout name Hnot). apply lookup_insert_ne. congruence.
    + intros Hnodup ifo Hifo. apply NoDup_cons in Hnodup as [Hfresh Hnodup].
      apply elem_of_cons in Hifo as [-> | Hifo].
      * rewrite (Hout _ Hfresh). apply lookup_insert_eq.
      * apply Hin; assumption.
Qed.

(** X8.  When [set_fiducial_waveforms] returns and the detectors have
    distinct names, the fiducial waveform stored for each detector is the
    detector response, over the full grid, of the detector as clipped, to the
    new polarizations and to the parameters with ["fiducial"] set to 1;
    entries under other names are untouched; and the caller's parameter dict
    is left with ["fiducial"] set to 0. *)
Theorem set_fiducial_waveforms_projects_clipped_detectors
    (get_detector_response :
       Interferometer.t -> Polarizations -> Params -> option (list R) -> list C)
    (frequency_domain_strain : WaveformGenerator.t -> Params -> option Polarizations)
    (parameters : Params) (self self' : State) (written : Params) (v : pyval) :
  set_fiducial_waveforms get_detector_response frequency_domain_strain
    parameters self = Ok (self', written, v) ->
  NoDup (map Interferometer.name (interferometers self)) ->
  exists polarizations,
    frequency_domain_strain (waveform_generator self) (<["fiducial" := 1]> parameters)
    = Some polarizations /\
    (forall clipped, clipped ∈ interferometers self' ->
       per_detector_fiducial_waveforms self' !! Interferometer.name clipped
       = Some (get_detector_response clipped polarizations
                 (<["fiducial" := 1]> parameters) None)) /\
    (forall name, name ∉ map Interferometer.name (interferometers self) ->
       per_detector_fiducial_waveforms self' !! name
       = per_detector_fiducial_waveforms self !! name) /\
    written !! "fiducial" = Some 0 /\
    (forall key, key <> "fiducial" -> written !! key = parameters !! key).
Proof.
  intros H Hnodup.
  destruct (set_fiducial_waveforms_frame _ _ _ _ _ _ _ H)
    as (_ & _ & _ & _ & _ & pol & cutoff & _ & Hpol & Hifos & Hw & ->).
  assert (Hnames : map Interferometer.name (interferometers self')
                   = map Interferometer.name (interferometers self)).
  { rewrite Hifos, map_map. apply map_ext. intros ifo.
    apply clip_maximum_frequency_min. }
  exists pol. split; [exact Hpol |].
  destruct (project_fiducial_lookup get_detector_response pol
              (<["fiducial" := 1]> parameters) (interferometers self')
              (per_detector_fiducial_waveforms self)) as [Hout Hin].
  rewrite <- Hw in Hout, Hin.
  split; [apply Hin; rewrite Hnames; exact Hnodup |].
  split; [intros name Hname; apply Hout; rewrite Hnames; exact Hname |].
  split; [apply lookup_insert_eq |].
  intros key Hkey. rewrite !lookup_insert_ne by congruence. reflexivity.
Qed.

(** X9.  When the waveform generator returns [None] for the fiducial
    parameters, [set_fiducial_waveforms] raises [TypeError], at the subscript
    of line 199, before the test of line 204 is reached; and so does the
    constructor. *)
Theorem missing_fiducial_polarizations_raise
    (get_detector_response :
       Interferometer.t -> Polarizations -> Params -> option (list R) -> list C)
    (frequency_domain_strain : WaveformGenerator.t -> Params -> option Polarizations)
    (differential_evolution : (list R -> R) -> list (list R) -> OptimizeResult)
    (log_likelihood_ratio : State -> R)
    (self : State) (parameters : Params) :
  frequency_domain_strain (waveform_generator self) (<["fiducial" := 1]> parameters)
    = None ->
  set_fiducial_waveforms get_detector_response frequency_domain_strain
    parameters self = Raise TypeError
  /\ (forall parameter_bounds update_fiducial_parameters chi epsilon,
        init get_detector_response frequency_domain_strain differential_evolution
          log_likelihood_ratio self (Some parameters) parameter_bounds
          update_fiducial_parameters chi epsilon = Raise TypeError).
Proof.
  intros Hnone.
  assert (Hraise : forall s, waveform_generator s = waveform_generator self ->
    set_fiducial_waveforms get_detector_response frequency_domain_strain
      parameters s = Raise TypeError).
  { intros s Hs. unfold set_fiducial_waveforms.
    destruct s; simpl in *. subst. rewrite Hnone. reflexivity. }
  split; [apply Hraise; reflexivity |].
  intros bounds update chi0 epsilon0. unfold init.
  change (fiducial_parameters
            (init_attributes (default ∅ (Some parameters)) chi0 epsilon0 self))
    with parameters.
  rewrite Hraise by reflexivity. reflexivity.
Qed.

Lemma clip_maximum_frequency_idempotent cutoff ifo :
  clip_maximum_frequency cutoff (clip_maximum_frequency cutoff ifo)
  = clip_maximum_frequency cutoff ifo.
Proof.
  destruct (decide (cutoff < Interferometer.maximum_frequency ifo)) as [Hlt|Hge].
  - assert (E : clip_maximum_frequency cutoff ifo
                = Interferometer.set_maximum_frequency cutoff ifo).
    { unfold clip_maximum_frequency. rewrite bool_decide_eq_true_2 by exact Hlt.
      reflexivity. }
    rewrite E. unfold clip_maximum_frequency. simpl.
    rewrite bool_decide_eq_false_2 by lra. reflexivity.
  - assert (E : clip_maximum_frequency cutoff ifo = ifo).
    { unfold clip_maximum_frequency. rewrite bool_decide_eq_false_2 by exact Hge.
      reflexivity. }
    rewrite !E. reflexivity.
Qed.

Lemma project_fiducial_agree
    (get_detector_response :
       Interferometer.t -> Polarizations -> Params -> option (list R) -> list C)
    (pols : Polarizations) (p : Params) (l : list Interferometer.t) :
  forall w1 w2,
  (forall name, name ∉ map Interferometer.name l -> w1 !! name = w2 !! name) ->
  project_fiducial get_detector_response pols p l w1
  = project_fiducial get_detector_response pols p l w2.
Proof.
  unfold project_fiducial. induction l as [|x l IH]; intros w1 w2 Hagree.
  - apply map_eq. intros name. apply Hagree. simpl. apply not_elem_of_nil.
  - simpl. apply IH. intros name Hname.
    destruct (decide (name = Interferometer.name x)) as [->|Hne].
    + rewrite !lookup_insert_eq. reflexivity.
    + rewrite !lookup_insert_ne by congruence. apply Hagree.
      simpl. apply not_elem_of_cons. auto.
Qed.

(** X10.  [set_fiducial_waveforms] is idempotent: called again with the
    parameter dict that its first call left, on the state that its first call
    left, it returns the same state and the same dict. *)
Theorem set_fiducial_waveforms_twice
    (get_detector_response :
       Interferometer.t -> Polarizations -> Params -> option (list R) -> list C)
    (frequency_domain_strain : WaveformGenerator.t -> Params -> option Polarizations)
    (parameters : Params) (self self' : State) (written : Params) (v : pyval) :
  set_fiducial_waveforms get_detector_response frequency_domain_strain
    parameters self = Ok (self', written, v) ->
  set_fiducial_waveforms get_detector_response frequency_domain_strain
    written self' = Ok (self', written, v).
Proof.
  intros H.
  unfold set_fiducial_waveforms in H.
  apply bind_Ok in H as (plus & Hplus & H).
  apply bind_Ok in H as (idx & Hidx & H).
  apply bind_Ok in H as (f & Hf & H).
  destruct self as [ifos wg pr tm pa fp ch ep fpol pdfw pts bf bi bw bc nb sd ptu pb];
    simpl in *.
  destruct (frequency_domain_strain _ _) as [pol|] eqn:Hpol; [| discriminate Hplus].
  injection H as <- <- <-.
  unfold set_fiducial_waveforms. simpl.
  rewrite !insert_insert_eq, Hpol.
  change (subscript (Some pol) "plus") with (dict_get pol "plus") in *.
  rewrite Hplus, Ok_bind, Hidx, Ok_bind, Hf, Ok_bind.
  rewrite map_map.
  rewrite (map_ext _ (clip_maximum_frequency f))
    by (intros ifo; apply clip_maximum_frequency_idempotent).
  rewrite (project_fiducial_agree get_detector_response pol
             (<["fiducial" := 1]> parameters)
             (map (clip_maximum_frequency f) ifos)
             (project_fiducial get_detector_response pol
                (<["fiducial" := 1]> parameters)
                (map (clip_maximum_frequency f) ifos)
                pdfw)
             pdfw).
  - reflexivity.
  - intros name Hname. apply project_fiducial_lookup. exact Hname.
Qed.

(* ===================================================================== *)
(** * Parameter lists and parameter dicts                                 *)
(* ===================================================================== *)

(** [dict(zip(keys, values))]. *)
Lemma zip_dict_outside {V} (keys : list string) :
  forall (values : list V) (d : gmap string V) key,
  key ∉ keys ->
  foldl (fun d kv => <[kv.1 := kv.2]> d) d (zip keys values) !! key = d !! key.
Proof.
  induction keys as [|k keys IH]; intros values d key Hkey; [reflexivity |].
  destruct values as [|v values]; [reflexivity |]. simpl.
  apply not_elem_of_cons in Hkey as [Hne Hkey].
  rewrite IH by exact Hkey. apply lookup_insert_ne. congruence.
Qed.

Lemma zip_dict_lookup {V} (keys : list string) :
  forall (values : list V) (d : gmap string V) i key,
  NoDup keys -> keys !! i = Some key ->
  foldl (fun d kv => <[kv.1 := kv.2]> d) d (zip keys values) !! key
  = match values !! i with Some v => Some v | None => d !! key end.
Proof.
  induction keys as [|k keys IH]; intros values d i key Hnodup Hi; [discriminate |].
  apply NoDup_cons in Hnodup as [Hfresh Hnodup].
  destruct values as [|v values]; [rewrite lookup_nil; reflexivity |]. simpl.
  destruct i as [|i]; simpl in *.
  - injection Hi as ->. rewrite zip_dict_outside by exact Hfresh.
    apply lookup_insert_eq.
  - rewrite (IH values _ i key Hnodup Hi).
    destruct (values !! i); [reflexivity |].
    apply lookup_insert_ne. intros ->. apply Hfresh.
    eapply list_elem_of_lookup_2. exact Hi.
Qed.

Lemma parameter_dictionary_lookup (keys : list string) (fiducial : Params)
    (parameter_list : list R) :
  (forall key, key ∉ keys ->
     parameter_dictionary keys fiducial parameter_list !! key = fiducial !! key) /\
  (NoDup keys -> forall i key, keys !! i = Some key ->
     parameter_dictionary keys fiducial parameter_list !! key = parameter_list !! i).
Proof.
  unfold parameter_dictionary. split.
  - intros key Hkey. rewrite lookup_union_r.
    + destruct (fiducial !! key) as [v|] eqn:Hv.
      * apply map_lookup_filter_Some. split; [exact Hv | exact Hkey].
      * apply map_lookup_filter_None. left. exact Hv.
    + rewrite zip_dict_outside by exact Hkey. apply lookup_empty.
  - intros Hnodup i key Hi.
    assert (Hin : key ∈ keys) by (eapply list_elem_of_lookup_2; exact Hi).
    assert (Hnone : filter (fun kv : string * R => kv.1 ∉ keys) fiducial !! key = None).
    { apply map_lookup_filter_None. right. intros v _ Hout. apply Hout. exact Hin. }
    destruct (parameter_list !! i) as [v|] eqn:Hv.
    + apply lookup_union_Some_raw. left.
      rewrite (zip_dict_lookup keys parameter_list ∅ i key Hnodup Hi), Hv. reflexivity.
    + apply lookup_union_None. split; [| exact Hnone].
      rewrite (zip_dict_lookup keys parameter_list ∅ i key Hnodup Hi), Hv.
      apply lookup_empty.
Qed.

(** X11.  With distinct parameter names to update,
    [get_parameter_dictionary_from_list] returns a dict that maps the [i]-th
    name to the [i]-th entry of the list, has no entry for a name whose
    position is beyond the end of the list (even when the fiducial parameters
    have one), and maps every other key to what the fiducial parameters map
    it to. *)
Theorem parameter_dictionary_entries (self : State) (keys : list string)
    (parameter_list : list R) :
  parameters_to_be_updated self = Some keys ->
  NoDup keys ->
  exists dictionary,
    get_parameter_dictionary_from_list self parameter_list = Ok dictionary /\
    (forall i key, keys !! i = Some key ->
       dictionary !! key = parameter_list !! i) /\
    (forall key, key ∉ keys ->
       dictionary !! key = fiducial_parameters self !! key).
Proof.
  intros Hkeys Hnodup. unfold get_parameter_dictionary_from_list.
  rewrite Hkeys. simpl. eexists. split; [reflexivity |].
  destruct (parameter_dictionary_lookup keys (fiducial_parameters self) parameter_list)
    as [Hout Hin].
  split; [apply Hin; exact Hnodup | exact Hout].
Qed.

Lemma mapM_Raise {A B} (f : A -> result B) (before : list A) (x : A)
    (after : list A) (e : exn) :
  Forall (fun y => exists v, f y = Ok v) before ->
  f x = Raise e ->
  mapM f (before ++ x :: after) = Raise e.
Proof.
  intros Hbefore Hx. induction Hbefore as [|y before [v Hv] _ IH]; simpl.
  - rewrite Hx. reflexivity.
  - rewrite Hv, Ok_bind, IH. reflexivity.
Qed.

(** X12.  With distinct parameter names to update, the list of a dict made
    from a list of as many entries as there are names is that list; and the
    dict made from a shorter list has no list: the lookup of the first name
    beyond the end of the list raises [KeyError]. *)
Theorem parameter_list_round_trip (self : State) (keys : list string)
    (parameter_list : list R) :
  parameters_to_be_updated self = Some keys ->
  NoDup keys ->
  (length parameter_list = length keys ->
   get_parameter_dictionary_from_list self parameter_list
   ≫= get_parameter_list_from_dictionary self = Ok parameter_list) /\
  ((length parameter_list < length keys)%nat ->
   get_parameter_dictionary_from_list self parameter_list
   ≫= get_parameter_list_from_dictionary self = Raise KeyError).
Proof.
  intros Hkeys Hnodup.
  destruct (parameter_dictionary_entries self keys parameter_list Hkeys Hnodup)
    as (d & -> & Hin & _).
  rewrite Ok_bind. unfold get_parameter_list_from_dictionary. rewrite Hkeys. simpl.
  split.
  - intros Hlen. apply mapM_Ok. apply Forall2_same_length_lookup_2; [lia |].
    intros i key v Hi Hv. apply dict_get_Ok. rewrite (Hin i key Hi). exact Hv.
  - intros Hlen.
    destruct (lookup_lt_is_Some_2 keys (length parameter_list) Hlen) as [key Hkey].
    rewrite <- (take_drop_middle keys (length parameter_list) key Hkey).
    apply mapM_Raise.
    + apply Forall_lookup_2. intros i key' Hi.
      assert (Hlt : (i < length parameter_list)%nat).
      { apply lookup_lt_Some in Hi. rewrite length_take in Hi. lia. }
      rewrite lookup_take_lt in Hi by exact Hlt.
      destruct (lookup_lt_is_Some_2 parameter_list i Hlt) as [v Hv].
      exists v. apply dict_get_Ok. rewrite (Hin i key' Hi). exact Hv.
    + unfold dict_get. rewrite (Hin _ key Hkey).
      rewrite lookup_ge_None_2 by lia. reflexivity.
Qed.

(* ===================================================================== *)
(** * Bounds from the priors                                              *)
(* ===================================================================== *)

Lemma list_find_key {V} (l : list (string * V)) (i : nat) (key : string) (v : V) :
  NoDup (map fst l) -> l !! i = Some (key, v) ->
  list_find (fun kp : string * V => kp.1 = key) l = Some (i, (key, v)).
Proof.
  intros Hnodup Hi. apply list_find_Some. split; [exact Hi |]. split; [reflexivity |].
  intros j [k w] Hj Hlt Hk. simpl in Hk. subst k.
  assert (Hij : i = j).
  { eapply NoDup_lookup; [exact Hnodup | |].
    - change (map fst l) with (fst <$> l). rewrite list_lookup_fmap, Hi. reflexivity.
    - change (map fst l) with (fst <$> l). rewrite list_lookup_fmap, Hj. reflexivity. }
  lia.
Qed.

(** X13.  [get_bounds_from_priors], on priors with distinct names: when
    every name to update has a prior, the result has one entry per name, in
    the order of the names, and the entry of a name is the two-element list of
    the minimum and the maximum of its prior; when some name has no prior, the
    call raises [KeyError]. *)
Theorem bounds_from_priors_follow_the_names (self : State) (keys : list string)
    (prior_list : list (string * Prior)) :
  parameters_to_be_updated self = Some keys ->
  NoDup (map fst prior_list) ->
  ((forall key, key ∈ keys -> key ∈ map fst prior_list) ->
   exists bounds,
     get_bounds_from_priors self prior_list = Ok bounds /\
     length bounds = length keys /\
     forall i key prior, keys !! i = Some key -> (key, prior) ∈ prior_list ->
       bounds !! i = Some [minimum prior; maximum prior]) /\
  ((exists key, key ∈ keys /\ key ∉ map fst prior_list) ->
   get_bounds_from_priors self prior_list = Raise KeyError).
Proof.
  intros Hkeys Hnodup. unfold get_bounds_from_priors. rewrite Hkeys. simpl.
  set (bound := fun key : string =>
         match list_find (fun kp : string * Prior => kp.1 = key) prior_list with
         | Some (_, (_, p)) => Ok [minimum p; maximum p]
         | None => Raise KeyError
         end).
  assert (Hfound : forall key prior, (key, prior) ∈ prior_list ->
            bound key = Ok [minimum prior; maximum prior]).
  { intros key prior Hin. apply list_elem_of_lookup in Hin as [j Hj].
    unfold bound. rewrite (list_find_key prior_list j key prior Hnodup Hj).
    reflexivity. }
  assert (Hany : forall key, key ∈ map fst prior_list -> exists v, bound key = Ok v).
  { intros key Hin. change (map fst prior_list) with (fst <$> prior_list) in Hin.
    apply list_elem_of_fmap in Hin as ([k prior] & -> & Hin).
    eexists. apply Hfound. exact Hin. }
  assert (Hmissing : forall key, key ∉ map fst prior_list -> bound key = Raise KeyError).
  { intros key Hout. unfold bound.
    destruct (list_find _ prior_list) as [[j [k prior]]|] eqn:Hfind; [| reflexivity].
    exfalso. apply list_find_Some in Hfind as (Hj & Hk & _). simpl in Hk. subst k.
    apply Hout. change (map fst prior_list) with (fst <$> prior_list).
    apply list_elem_of_fmap. exists (key, prior). split; [reflexivity |].
    eapply list_elem_of_lookup_2. exact Hj. }
  split.
  - intros Hall.
    assert (Hok : exists bounds, mapM bound keys = Ok bounds).
    { clear Hkeys. induction keys as [|key keys IH]; [exists []; reflexivity |].
      destruct (Hany key) as [v Hv]; [apply Hall; left |].
      destruct IH as [bounds Hb]; [intros k Hk; apply Hall; right; exact Hk |].
      exists (v :: bounds). simpl. rewrite Hv, Ok_bind, Hb. reflexivity. }
    destruct Hok as [bounds Hb]. exists bounds. split; [exact Hb |].
    apply mapM_Ok in Hb. split.
    + symmetry. eapply Forall2_length. exact Hb.
    + intros i key prior Hi Hin.
      destruct (Forall2_lookup_l _ _ _ _ _ Hb Hi) as (v & Hv & Hbound).
      rewrite (Hfound key prior Hin) in Hbound. congruence.
  - intros (key & Hin & Hout). clear Hkeys.
    induction keys as [|k keys IH]; [inversion Hin |]. simpl.
    destruct (decide (k ∈ map fst prior_list)) as [Hk|Hk].
    + destruct (Hany k Hk) as [v ->]. rewrite Ok_bind.
      apply elem_of_cons in Hin as [-> | Hin]; [contradiction |].
      rewrite (IH Hin). reflexivity.
    + rewrite (Hmissing k Hk). reflexivity.
Qed.

(* ===================================================================== *)
(** * The search, continued                                               *)
(* ===================================================================== *)

(** X14.  With [iterations] zero or negative,
    [find_maximum_likelihood_parameters] runs no round and raises
    [UnboundLocalError] at its [return], whatever the state and the bounds:
    the optimizer is never called and the state is not touched. *)
Theorem search_without_rounds_raises
    (get_detector_response :
       Interferometer.t -> Polarizations -> Params -> option (list R) -> list C)
    (frequency_domain_strain : WaveformGenerator.t -> Params -> option Polarizations)
    (differential_evolution : (list R -> R) -> list (list R) -> OptimizeResult)
    (log_likelihood_ratio : State -> R)
    (parameter_bounds : list (list R)) (iterations : Z) (self : State) :
  (iterations <= 0)%Z ->
  find_maximum_likelihood_parameters get_detector_response frequency_domain_strain
    differential_evolution log_likelihood_ratio parameter_bounds iterations self
  = Raise UnboundLocalError
  /\ (forall other_optimizer other_likelihood,
        find_maximum_likelihood_parameters get_detector_response
          frequency_domain_strain other_optimizer other_likelihood
          parameter_bounds iterations self = Raise UnboundLocalError).
Proof.
  intros Hle.
  assert (Hrange : py_range iterations = []).
  { unfold py_range. replace (Z.to_nat iterations) with 0%nat by lia. reflexivity. }
  split; [| intros other_optimizer other_likelihood];
    unfold find_maximum_likelihood_parameters; rewrite Hrange; reflexivity.
Qed.

(** One round of the search, seen from the parameter dicts. *)
Lemma optimization_round_parameters
    (get_detector_response :
       Interferometer.t -> Polarizations -> Params -> option (list R) -> list C)
    (frequency_domain_strain : WaveformGenerator.t -> Params -> option Polarizations)
    (differential_evolution : (list R -> R) -> list (list R) -> OptimizeResult)
    (log_likelihood_ratio : State -> R)
    (bounds : list (list R)) (i : nat) (s s' : State) (prev updated : option Params) :
  optimization_round get_detector_response frequency_domain_strain
    differential_evolution log_likelihood_ratio bounds i (s, prev) = Ok (s', updated) ->
  fiducial_parameters s' = fiducial_parameters s /\
  parameters_to_be_updated s' = parameters_to_be_updated s /\
  exists keys found,
    parameters_to_be_updated s = Some keys /\
    updated = Some (<["fiducial" := 0]>
                      (parameter_dictionary keys (fiducial_parameters s) found)).
Proof.
  unfold optimization_round. simpl. intros H.
  apply bind_Ok in H as (keys & Hkeys & H).
  set (output := differential_evolution _ bounds) in H.
  set (searched := foldl _ s _) in H.
  apply bind_Ok in H as (candidate & Hcand & H).
  apply bind_Ok in H as ([[rebuilt written] v] & Hset & H).
  apply bind_Ok in H as (s2 & Hsum & H). injection H as <- <-.
  destruct (optimizer_calls_frame keys (evaluated output) s)
    as (_ & _ & _ & _ & _ & _ & K1 & F1 & _).
  fold searched in K1, F1.
  destruct (set_fiducial_waveforms_frame _ _ _ _ _ _ _ Hset)
    as (_ & _ & _ & K2 & F2 & _ & _ & _ & _ & _ & _ & ->).
  destruct (compute_summary_data_frame _ _ Hsum) as (sd & -> & _).
  apply getattr_Ok in Hkeys.
  unfold get_parameter_dictionary_from_list in Hcand.
  rewrite K1, Hkeys in Hcand. simpl in Hcand. injection Hcand as <-.
  simpl. split; [congruence |]. split; [congruence |].
  exists keys, (x output). split; [exact Hkeys |].
  rewrite insert_insert_eq, F1. reflexivity.
Qed.

Lemma optimization_rounds_parameters
    (get_detector_response :
       Interferometer.t -> Polarizations -> Params -> option (list R) -> list C)
    (frequency_domain_strain : WaveformGenerator.t -> Params -> option Polarizations)
    (differential_evolution : (list R -> R) -> list (list R) -> OptimizeResult)
    (log_likelihood_ratio : State -> R)
    (bounds : list (list R)) (rounds : list nat) :
  forall s prev s' updated,
  for_loop rounds
    (optimization_round get_detector_response frequency_domain_strain
       differential_evolution log_likelihood_ratio bounds) (s, prev)
  = Ok (s', updated) ->
  fiducial_parameters s' = fiducial_parameters s /\
  parameters_to_be_updated s' = parameters_to_be_updated s /\
  (rounds <> [] ->
   exists keys found,
     parameters_to_be_updated s = Some keys /\
     updated = Some (<["fiducial" := 0]>
                       (parameter_dictionary keys (fiducial_parameters s) found))).
Proof.
  induction rounds as [|i rounds IH]; intros s prev s' updated H.
  - injection H as <- <-. split; [reflexivity |]. split; [reflexivity |].
    intros Hne. contradiction.
  - apply for_loop_cons_Ok in H as ([s1 up1] & Hround & Hrest).
    apply optimization_round_parameters in Hround
      as (F & K & keys & found & Hkeys & Hup).
    pose proof Hrest as Hrest'.
    apply IH in Hrest as (F' & K' & Hlast).
    split; [congruence |]. split; [congruence |]. intros _.
    destruct rounds as [|j rounds].
    + injection Hrest' as <- <-. exists keys, found. auto.
    + destruct Hlast as (keys' & found' & Hkeys' & Hup'); [discriminate |].
      exists keys', found'. split; [congruence |]. rewrite Hup', F. reflexivity.
Qed.

(** X15.  When [find_maximum_likelihood_parameters] returns, [iterations]
    was at least 1; the attribute [fiducial_parameters] of the state is what
    it was (the method returns the parameters it found and leaves the
    assignment to its caller); the fiducial waveform points at the bin edges
    and the bin count are what they were (no round refreshes them, although
    every round replaces the fiducial waveforms); and the dict returned has
    ["fiducial"] set to 0, takes every key that is not a parameter to update
    from the fiducial parameters, and, for distinct parameter names, maps the
    [i]-th name to the [i]-th entry of one list. *)
Theorem search_returns_the_updated_parameters
    (get_detector_response :
       Interferometer.t -> Polarizations -> Params -> option (list R) -> list C)
    (frequency_domain_strain : WaveformGenerator.t -> Params -> option Polarizations)
    (differential_evolution : (list R -> R) -> list (list R) -> OptimizeResult)
    (log_likelihood_ratio : State -> R)
    (parameter_bounds : list (list R)) (iterations : Z)
    (self self' : State) (updated_parameters : Params) :
  find_maximum_likelihood_parameters get_detector_response frequency_domain_strain
    differential_evolution log_likelihood_ratio parameter_bounds iterations self
  = Ok (self', updated_parameters) ->
  (1 <= iterations)%Z /\
  fiducial_parameters self' = fiducial_parameters self /\
  parameters_to_be_updated self' = parameters_to_be_updated self /\
  per_detector_fiducial_waveform_points self'
  = per_detector_fiducial_waveform_points self /\
  number_of_bins self' = number_of_bins self /\
  updated_parameters !! "fiducial" = Some 0 /\
  exists (keys : list string) (found : list R),
    parameters_to_be_updated self = Some keys /\
    (forall key, key ∉ keys -> key <> "fiducial" ->
       updated_parameters !! key = fiducial_parameters self !! key) /\
    (NoDup keys -> forall i key, keys !! i = Some key -> key <> "fiducial" ->
       updated_parameters !! key = found !! i).
Proof.
  unfold find_maximum_likelihood_parameters. intros H.
  apply bind_Ok in H as ([s up] & Hloop & H).
  destruct up as [p|]; [| discriminate]. injection H as <- <-.
  assert (Hrounds : py_range iterations <> []).
  { intros Hnil. rewrite Hnil in Hloop. discriminate Hloop. }
  destruct (optimization_rounds_frame _ _ _ _ _ _ _ _ _ _ Hloop)
    as (_ & N & P & _).
  apply optimization_rounds_parameters in Hloop as (F & K & Hlast).
  destruct (Hlast Hrounds) as (keys & found & Hkeys & [= ->]).
  split.
  { destruct (decide (1 <= iterations)%Z) as [|Hlt]; [assumption |].
    exfalso. apply Hrounds. unfold py_range.
    replace (Z.to_nat iterations) with 0%nat by lia. reflexivity. }
  split; [exact F |]. split; [exact K |]. split; [exact P |]. split; [exact N |].
  split; [apply lookup_insert_eq |].
  exists keys, found. split; [exact Hkeys |].
  destruct (parameter_dictionary_lookup keys (fiducial_parameters self) found)
    as [Hout Hin].
  split.
  - intros key Hkey Hne. rewrite lookup_insert_ne by congruence. apply Hout, Hkey.
  - intros Hnodup i key Hi Hne. rewrite lookup_insert_ne by congruence.
    apply Hin; assumption.
Qed.

(* ===================================================================== *)
(** * Summary data, continued                                             *)
(* ===================================================================== *)

Lemma compute_summary_data_loop_names self ifos : forall sd sd',
  for_loop ifos (compute_summary_data_interferometer self) sd = Ok sd' ->
  forall name, is_Some (sd' !! name) <->
               is_Some (sd !! name) \/ name ∈ map Interferometer.name ifos.
Proof.
  induction ifos as [|ifo ifos IH]; intros sd sd' H name.
  - injection H as <-. simpl. split; [auto | intros [Hs | Hin]; [exact Hs | inversion Hin]].
  - apply for_loop_cons_Ok in H as (sd1 & Hstep & Hrest).
    rewrite (IH _ _ Hrest name).
    apply compute_summary_data_interferometer_Ok in Hstep
      as (? & ? & ? & ? & ? & ? & ? & ? & Hstep).
    cbv zeta in Hstep.
    destruct Hstep as (_ & _ & _ & _ & _ & _ & _ & _ & _ & _ & _ & _ & _ & _ & ->).
    simpl. rewrite elem_of_cons.
    destruct (decide (name = Interferometer.name ifo)) as [->|Hne].
    + rewrite lookup_insert_eq. split; [auto | intros _; left; eauto].
    + rewrite lookup_insert_ne by congruence. tauto.
Qed.

(** X16.  When [compute_summary_data] returns, the state differs from the
    one it started with in the attribute [summary_data] only; the new summary
    data are a fresh dict with an entry under the name of every detector and
    under no other key, whatever the summary data were before; and with at
    least one detector the bin count was set and not negative. *)
Theorem summary_data_is_rebuilt (self self' : State) :
  compute_summary_data self = Ok self' ->
  exists summary,
    self' = set_summary_data (Some summary) self /\
    (forall name, is_Some (summary !! name) <->
                  name ∈ map Interferometer.name (interferometers self)) /\
    (interferometers self <> [] ->
     exists N, number_of_bins self = Some N /\ (0 <= N)%Z).
Proof.
  unfold compute_summary_data. intros H.
  apply bind_Ok in H as (sd & Hloop & H). injection H as <-.
  exists sd. split; [reflexivity |]. split.
  - intros name. rewrite (compute_summary_data_loop_names _ _ _ _ Hloop name).
    rewrite lookup_empty. split; [intros [[v Hv] | Hin]; [discriminate | exact Hin] | auto].
  - intros Hne. destruct (interferometers self) as [|ifo ifos]; [contradiction |].
    apply for_loop_cons_Ok in Hloop as (sd1 & Hstep & _).
    apply compute_summary_data_interferometer_Ok in Hstep
      as (? & ? & ? & N & ? & ? & ? & ? & Hstep).
    cbv zeta in Hstep.
    destruct Hstep as (_ & _ & _ & _ & _ & _ & _ & HN & Hpos & _).
    exists N. auto.
Qed.

Lemma where_first_of_none cond :
  Forall (fun b => b = false) cond -> where_first cond = Raise IndexError.
Proof.
  intros Hall. unfold where_first, getitem.
  destruct (np_where cond !! 0%nat) as [i|] eqn:Hi; [| reflexivity].
  exfalso. apply list_elem_of_lookup_2 in Hi.
  unfold np_where in Hi. apply elem_of_np_where_from in Hi as [_ Hi].
  rewrite Forall_lookup in Hall. specialize (Hall _ _ Hi). discriminate.
Qed.

Lemma where_first_cases cond :
  (exists j, where_first cond = Ok j) \/ where_first cond = Raise IndexError.
Proof.
  unfold where_first, getitem. destruct (np_where cond !! 0%nat); eauto.
Qed.

Lemma mapM_some_Raise {A B} (f : A -> result B) (l : list A) (e : exn) :
  (forall x, (exists v, f x = Ok v) \/ f x = Raise e) ->
  (exists x, x ∈ l /\ f x = Raise e) ->
  mapM f l = Raise e.
Proof.
  intros Hcases (x & Hin & Hx).
  induction l as [|y l IH]; [inversion Hin |]. simpl.
  destruct (Hcases y) as [[v Hv] | Hy].
  - rewrite Hv, Ok_bind. apply elem_of_cons in Hin as [-> | Hin]; [congruence |].
    rewrite (IH Hin). reflexivity.
  - rewrite Hy. reflexivity.
Qed.

(** X17.  The edges are looked up by exact equality in the detector's own
    masked frequency array: when a detector, reached by the loop of
    [compute_summary_data], has a bin edge stored under its name that is not
    one of its masked frequencies, [compute_summary_data] raises
    [IndexError]. *)
Theorem edge_off_the_masked_grid_raises (self : State)
    (earlier later : list Interferometer.t) (interferometer : Interferometer.t)
    (reached : gmap string SummaryData) (edges : list R) (edge : R) :
  interferometers self = earlier ++ interferometer :: later ->
  for_loop earlier (compute_summary_data_interferometer self) ∅ = Ok reached ->
  length (Interferometer.frequency_mask interferometer)
  = length (Interferometer.frequency_array interferometer) ->
  bin_freqs self !! Interferometer.name interferometer = Some edges ->
  edge ∈ edges ->
  edge ∉ mask_filter (Interferometer.frequency_mask interferometer)
           (Interferometer.frequency_array interferometer) ->
  compute_summary_data self = Raise IndexError.
Proof.
  intros Hifos Hearlier Hmask Hedges Hin Hout.
  unfold compute_summary_data. rewrite Hifos, for_loop_app, Hearlier, Ok_bind.
  simpl. apply bind_Raise. apply bind_Raise.
  unfold compute_summary_data_interferometer.
  rewrite (proj2 (mask_select_Ok _ _ _) (conj Hmask eq_refl)), Ok_bind.
  rewrite (proj2 (dict_get_Ok _ _ _) Hedges), Ok_bind.
  apply bind_Raise. apply mapM_some_Raise.
  - intros e. destruct (where_first_cases
      (map (fun f => bool_decide (f = e))
         (mask_filter (Interferometer.frequency_mask interferometer)
            (Interferometer.frequency_array interferometer)))) as [[j Hj] | Hr]; eauto.
  - exists edge. split; [exact Hin |]. apply where_first_of_none.
    apply Forall_forall. intros b Hb.
    change (map ?g ?l) with (g <$> l) in Hb.
    apply list_elem_of_fmap in Hb as (f & -> & Hf).
    apply bool_decide_eq_false. intros ->. apply Hout. exact Hf.
Qed.

(* ===================================================================== *)
(** * The waveform ratio of every detector                                *)
(* ===================================================================== *)

Lemma compute_waveform_ratio_loop
    (get_detector_response :
       Interferometer.t -> Polarizations -> Params -> option (list R) -> list C)
    (self : State) (waveform_polarizations : Polarizations)
    (ifos : list Interferometer.t) :
  forall d d' : gmap string (list C * list C),
  for_loop ifos
    (fun interferometer waveform_ratio =>
       r ← compute_waveform_ratio_per_interferometer get_detector_response self
             waveform_polarizations interferometer;
       Ok (<[Interferometer.name interferometer := r]> waveform_ratio)) d = Ok d' ->
  (forall name, name ∉ map Interferometer.name ifos -> d' !! name = d !! name) /\
  (forall name, name ∈ map Interferometer.name ifos -> is_Some (d' !! name)) /\
  (NoDup (map Interferometer.name ifos) ->
   forall ifo, ifo ∈ ifos ->
     exists r, compute_waveform_ratio_per_interferometer get_detector_response self
                 waveform_polarizations ifo = Ok r /\
               d' !! Interferometer.name ifo = Some r).
Proof.
  induction ifos as [|x ifos IH]; intros d d' H.
  - injection H as <-. split; [reflexivity |].
    split; [intros name Hin; inversion Hin | intros _ ifo Hin; inversion Hin].
  - apply for_loop_cons_Ok in H as (d1 & Hstep & Hrest).
    apply bind_Ok in Hstep as (r & Hr & Hstep). injection Hstep as <-.
    destruct (IH _ _ Hrest) as (Hout & Hdom & Hin).
    split; [| split].
    + intros name Hname. simpl in Hname.
      apply not_elem_of_cons in Hname as [Hne Hnot].
      rewrite (Hout name Hnot). apply lookup_insert_ne. congruence.
    + intros name Hname. simpl in Hname.
      destruct (decide (name ∈ map Interferometer.name ifos)) as [Hn|Hn].
      * apply Hdom, Hn.
      * apply elem_of_cons in Hname as [-> | Hname]; [| contradiction].
        rewrite (Hout _ Hn), lookup_insert_eq. eauto.
    + intros Hnodup ifo Hifo. simpl in Hnodup.
      apply NoDup_cons in Hnodup as [Hfresh Hnodup].
      apply elem_of_cons in Hifo as [-> | Hifo].
      * exists r. split; [exact Hr |]. rewrite (Hout _ Hfresh).
        apply lookup_insert_eq.
      * apply Hin; assumption.
Qed.

(** X18.  When [compute_waveform_ratio] returns, with detectors of
    distinct names, the dict it returns has an entry under the name of every
    detector and under no other key, and the entry of a detector is what
    [compute_waveform_ratio_per_interferometer] returns for it. *)
Theorem waveform_ratio_of_every_detector
    (get_detector_response :
       Interferometer.t -> Polarizations -> Params -> option (list R) -> list C)
    (self : State) (waveform_polarizations : Polarizations)
    (waveform_ratio : gmap string (list C * list C)) :
  compute_waveform_ratio get_detector_response self waveform_polarizations
  = Ok waveform_ratio ->
  NoDup (map Interferometer.name (interferometers self)) ->
  (forall name, is_Some (waveform_ratio !! name) <->
                name ∈ map Interferometer.name (interferometers self)) /\
  (forall interferometer, interferometer ∈ interferometers self ->
     exists r,
       compute_waveform_ratio_per_interferometer get_detector_response self
         waveform_polarizations interferometer = Ok r /\
       waveform_ratio !! Interferometer.name interferometer = Some r).
Proof.
  unfold compute_waveform_ratio. intros H Hnodup.
  destruct (compute_waveform_ratio_loop _ _ _ _ _ _ H) as (Hout & Hdom & Hin).
  split.
  - intros name. split.
    + intros Hsome.
      destruct (decide (name ∈ map Interferometer.name (interferometers self)))
        as [|Hn]; [assumption |].
      rewrite (Hout name Hn), lookup_empty in Hsome. destruct Hsome; discriminate.
    + apply Hdom.
  - apply Hin, Hnodup.
Qed.

(* ===================================================================== *)
(** * The reconstructed waveform                                          *)
(* ===================================================================== *)

Lemma slice_fill_lookup {A} (lo hi : nat) (v : A) (a : list A) (k : nat) :
  slice_fill lo hi v a !! k
  = if bool_decide (lo <= k < hi)%nat
    then (if bool_decide (k < length a)%nat then Some v else None)
    else a !! k.
Proof.
  unfold slice_fill. rewrite list_lookup_imap.
  destruct (a !! k) as [y|] eqn:Hk; simpl.
  - apply lookup_lt_Some in Hk.
    rewrite (bool_decide_eq_true_2 (k < length a)%nat) by exact Hk.
    destruct (bool_decide (lo <= k < hi)%nat); reflexivity.
  - apply lookup_ge_None in Hk.
    rewrite (bool_decide_eq_false_2 (k < length a)%nat) by lia.
    destruct (bool_decide (lo <= k < hi)%nat); reflexivity.
Qed.

Lemma length_slice_fill {A} (lo hi : nat) (v : A) (a : list A) :
  length (slice_fill lo hi v a) = length a.
Proof. unfold slice_fill. apply length_imap. Qed.

(** The loop of lines 344-348 after its first [m] passes: every position
    holds the values of the last bin that covers it, and zero when no bin
    does. *)
Lemma duplicate_bins_loop (ind : list nat) (centers : gmap string (list R))
    (name : string) (r0 r1 : list C) (size : nat) (m : nat) :
  forall out0 out1 outm,
  for_loop (seq 0 m) (duplicate_bin ind centers name r0 r1)
    (replicate size Czero, replicate size Czero, replicate size Czero)
  = Ok (out0, out1, outm) ->
  length out0 = size /\ length out1 = size /\ length outm = size /\
  (forall k, (k < size)%nat ->
     (forall i lo hi, (i < m)%nat ->
        ind !! i = Some lo -> ind !! (i + 1)%nat = Some hi -> (lo <= k < hi)%nat ->
        (forall j lo' hi', (i < j < m)%nat ->
           ind !! j = Some lo' -> ind !! (j + 1)%nat = Some hi' ->
           ~ (lo' <= k < hi')%nat) ->
        exists fm a b c,
          centers !! name = Some fm /\
          r0 !! i = Some a /\ r1 !! i = Some b /\ fm !! i = Some c /\
          out0 !! k = Some a /\ out1 !! k = Some b /\ outm !! k = Some (RtoC c)) /\
     ((forall i lo hi, (i < m)%nat ->
         ind !! i = Some lo -> ind !! (i + 1)%nat = Some hi ->
         ~ (lo <= k < hi)%nat) ->
      out0 !! k = Some Czero /\ out1 !! k = Some Czero /\ outm !! k = Some Czero)).
Proof.
  induction m as [|m IH]; intros out0 out1 outm H.
  - injection H as <- <- <-. rewrite length_replicate.
    split; [reflexivity |]. split; [reflexivity |]. split; [reflexivity |].
    intros k Hk. split; [intros i lo hi Hi; lia |].
    intros _. rewrite !lookup_replicate_2 by exact Hk. auto.
  - rewrite seq_S, for_loop_app in H. simpl in H.
    apply bind_Ok in H as ([[p0 p1] pm] & Hloop & H).
    apply bind_Ok in H as ([[q0 q1] qm] & Hstep & H). injection H as <- <- <-.
    destruct (IH _ _ _ Hloop) as (L0 & L1 & Lm & Hinv).
    unfold duplicate_bin in Hstep.
    apply bind_Ok in Hstep as (fm & Hfm & Hstep).
    apply bind_Ok in Hstep as (c & Hc & Hstep).
    apply bind_Ok in Hstep as (lo & Hlo & Hstep).
    apply bind_Ok in Hstep as (hi & Hhi & Hstep).
    apply bind_Ok in Hstep as (a & Ha & Hstep).
    apply bind_Ok in Hstep as (b & Hb & Hstep).
    injection Hstep as <- <- <-.
    apply dict_get_Ok in Hfm. apply getitem_Ok in Hc, Hlo, Hhi, Ha, Hb.
    rewrite !length_slice_fill.
    split; [exact L0 |]. split; [exact L1 |]. split; [exact Lm |].
    intros k Hk. destruct (Hinv k Hk) as [Hcovered Hfree].
    rewrite !slice_fill_lookup, L0, L1, Lm.
    rewrite (bool_decide_eq_true_2 (k < size)%nat) by exact Hk.
    destruct (decide (lo <= k < hi)%nat) as [Hin|Hout].
    + rewrite (bool_decide_eq_true_2 _ Hin). split.
      * intros i lo' hi' Hi Hlo' Hhi' Hin' Hlater.
        destruct (decide (i = m)) as [->|Hne].
        -- exists fm, a, b, c. auto 10.
        -- exfalso. apply (Hlater m lo hi); [lia | assumption | assumption | exact Hin].
      * intros Hnone. exfalso.
        apply (Hnone m lo hi); [lia | assumption | assumption | exact Hin].
    + rewrite (bool_decide_eq_false_2 _ Hout). split.
      * intros i lo' hi' Hi Hlo' Hhi' Hin' Hlater.
        destruct (decide (i = m)) as [->|Hne].
        -- exfalso. apply Hout. congruence.
        -- apply (Hcovered i lo' hi'); [lia | assumption | assumption | exact Hin' |].
           intros j lo2 hi2 Hj. apply Hlater. lia.
      * intros Hnone. apply Hfree. intros i lo' hi' Hi. apply Hnone. lia.
Qed.

(** X19.  What [_compute_full_waveform] returns, for a fiducial waveform
    as long as the detector's frequency array and edge indices that never
    decrease: at a grid index [k] inside bin [i] (from the index of edge [i]
    up to and excluding the index of edge [i+1]) the value is the fiducial
    waveform at [k] times [r0[i] + r1[i] * (f[k] - bin_centers[i])]; and at a
    grid index that no bin covers, as are the indices before the first edge
    and from the last edge on, the value is zero. *)
Theorem full_waveform_is_linear_in_each_bin
    (get_detector_response :
       Interferometer.t -> Polarizations -> Params -> option (list R) -> list C)
    (self : State) (signal_polarizations : Polarizations)
    (interferometer : Interferometer.t) (full_waveform : list C)
    (fiducial_waveform r0 r1 : list C) (ind : list nat) (N : Z) :
  _compute_full_waveform get_detector_response self signal_polarizations
    interferometer = Ok full_waveform ->
  per_detector_fiducial_waveforms self !! Interferometer.name interferometer
  = Some fiducial_waveform ->
  compute_waveform_ratio_per_interferometer get_detector_response self
    signal_polarizations interferometer = Ok (r0, r1) ->
  bin_inds self !! Interferometer.name interferometer = Some ind ->
  number_of_bins self = Some N ->
  length fiducial_waveform = length (Interferometer.frequency_array interferometer) ->
  nondecreasing_nat ind ->
  length full_waveform = length (Interferometer.frequency_array interferometer) /\
  (forall i lo hi k h f,
     (i < Z.to_nat N)%nat ->
     ind !! i = Some lo -> ind !! (i + 1)%nat = Some hi -> (lo <= k < hi)%nat ->
     fiducial_waveform !! k = Some h ->
     Interferometer.frequency_array interferometer !! k = Some f ->
     exists centers a b c,
       bin_centers self !! Interferometer.name interferometer = Some centers /\
       r0 !! i = Some a /\ r1 !! i = Some b /\ centers !! i = Some c /\
       full_waveform !! k
       = Some (Cmult h (Cplus a (Cmult b (Cminus (RtoC f) (RtoC c)))))) /\
  (forall k,
     (k < length (Interferometer.frequency_array interferometer))%nat ->
     (forall i lo hi, (i < Z.to_nat N)%nat ->
        ind !! i = Some lo -> ind !! (i + 1)%nat = Some hi ->
        ~ (lo <= k < hi)%nat) ->
     full_waveform !! k = Some Czero).
Proof.
  unfold _compute_full_waveform.
  intros H Hh0 Hratio Hind HN Hlen Hmono.
  rewrite (proj2 (dict_get_Ok _ _ _) Hh0), Ok_bind in H.
  rewrite Hratio, Ok_bind in H.
  rewrite (proj2 (dict_get_Ok _ _ _) Hind), Ok_bind in H.
  rewrite HN in H. simpl getattr in H. rewrite Ok_bind in H.
  apply bind_Ok in H as ([[out0 out1] outm] & Hloop & H).
  unfold py_range in Hloop.
  apply duplicate_bins_loop in Hloop as (L0 & L1 & Lm & Hinv).
  set (fa := Interferometer.frequency_array interferometer) in *.
  assert (Lratio : length (zip_with Cplus out0
            (zip_with Cmult out1
               (zip_with (fun x m => Cminus (RtoC x) m) fa outm))) = length fa).
  { rewrite !length_zip_with. lia. }
  rewrite broadcast2_same in H by lia. injection H as <-.
  split; [rewrite length_zip_with; lia |].
  split.
  - intros i lo hi k h f Hi Hlo Hhi Hk Hh Hf.
    assert (Hklen : (k < length fa)%nat) by (apply lookup_lt_Some in Hf; exact Hf).
    destruct (Hinv k Hklen) as [Hcovered _].
    destruct (Hcovered i lo hi Hi Hlo Hhi Hk) as (fm & a & b & c & Hfm & Ha & Hb & Hc & E0 & E1 & Em).
    { intros j lo' hi' Hj Hlo' Hhi' Hin.
      assert (hi <= lo')%nat by (apply (Hmono (i + 1)%nat j hi lo'); [lia | assumption..]).
      lia. }
    exists fm, a, b, c. split; [exact Hfm |]. split; [exact Ha |].
    split; [exact Hb |]. split; [exact Hc |].
    rewrite !lookup_zip_with, Hh, E0, E1, Hf, Em. reflexivity.
  - intros k Hk Hnone. destruct (Hinv k Hk) as [_ Hfree].
    destruct (Hfree Hnone) as (E0 & E1 & Em).
    destruct (lookup_lt_is_Some_2 fiducial_waveform k ltac:(lia)) as [h Hh].
    destruct (lookup_lt_is_Some_2 fa k Hk) as [f Hf].
    rewrite !lookup_zip_with, Hh, E0, E1, Hf, Em. simpl. f_equal.
    apply C_eq; simpl; ring.
Qed.

(* ===================================================================== *)
(** * Shapes in [calculate_snrs]                                          *)
(* ===================================================================== *)

Lemma broadcast2_mismatch {A B D} (f : A -> B -> D) (xs : list A) (ys : list B) :
  length xs <> length ys -> length xs <> 1%nat -> length ys <> 1%nat ->
  broadcast2 f xs ys = Raise ValueError.
Proof.
  intros Hne Hx Hy. unfold broadcast2.
  rewrite bool_decide_eq_false_2 by exact Hne.
  destruct xs as [|x [|x' xs]]; destruct ys as [|y [|y' ys]];
    simpl in *; try reflexivity; try lia.
Qed.

(** X20.  When the summary arrays of a detector and its waveform ratio
    differ in length and neither has length one, [calculate_snrs] raises
    [ValueError]: this is what happens for a detector whose own bin count is
    not the scalar [number_of_bins] with which the summary arrays were
    allocated. *)
Theorem calculate_snrs_shape_mismatch
    (get_detector_response :
       Interferometer.t -> Polarizations -> Params -> option (list R) -> list C)
    (np_fft : list C -> list C)
    (self : State) (waveform_polarizations : Polarizations)
    (interferometer : Interferometer.t)
    (summary : gmap string SummaryData) (a0 a1 b0 b1 r0 r1 : list C) :
  compute_waveform_ratio_per_interferometer get_detector_response self
    waveform_polarizations interferometer = Ok (r0, r1) ->
  summary_data self = Some summary ->
  summary !! Interferometer.name interferometer = Some (a0, a1, b0, b1) ->
  length a0 <> length r0 -> length a0 <> 1%nat -> length r0 <> 1%nat ->
  calculate_snrs get_detector_response np_fft self waveform_polarizations
    interferometer = Raise ValueError.
Proof.
  intros Hratio Hsd Hlook Hne Ha Hr. unfold calculate_snrs.
  rewrite Hratio, Ok_bind, Hsd. simpl getattr. rewrite Ok_bind.
  rewrite (proj2 (dict_get_Ok _ _ _) Hlook), Ok_bind.
  rewrite (broadcast2_mismatch Cmult a0 (map Cconj r0));
    [reflexivity | | exact Ha |]; rewrite length_map; assumption.
Qed.

(* ===================================================================== *)
(** * The constructor                                                     *)
(* ===================================================================== *)

Lemma set_fiducial_waveforms_attributes
    (get_detector_response :
       Interferometer.t -> Polarizations -> Params -> option (list R) -> list C)
    (frequency_domain_strain : WaveformGenerator.t -> Params -> option Polarizations)
    (p : Params) (s s' : State) (written : Params) (v : pyval) :
  set_fiducial_waveforms get_detector_response frequency_domain_strain p s
  = Ok (s', written, v) ->
  priors s' = priors s /\ chi s' = chi s /\ epsilon s' = epsilon s /\
  number_of_bins s' = number_of_bins s /\
  length (interferometers s') = length (interferometers s).
Proof.
  unfold set_fiducial_waveforms. intros H.
  apply bind_Ok in H as (plus & Hplus & H).
  apply bind_Ok in H as (idx & Hidx & H).
  apply bind_Ok in H as (f & Hf & H).
  destruct s; simpl in *.
  destruct (frequency_domain_strain _ _) as [pol|] eqn:Hpol; [| discriminate Hplus].
  injection H as <- <- <-. simpl. rewrite length_map. auto.
Qed.

Lemma setup_bins_loop_attributes fa ifos : forall s s',
  for_loop ifos (setup_bins_interferometer fa) s = Ok s' ->
  priors s' = priors s /\ fiducial_parameters s' = fiducial_parameters s /\
  summary_data s' = summary_data s /\
  parameters_to_be_updated s' = parameters_to_be_updated s /\
  parameter_bounds s' = parameter_bounds s.
Proof.
  induction ifos as [|ifo ifos IH]; intros s s' H.
  - injection H as <-. auto.
  - apply for_loop_cons_Ok in H as (s1 & Hstep & Hrest).
    apply setup_bins_interferometer_Ok in Hstep
      as (N & bf & bi & h0 & pts & _ & _ & _ & ->).
    apply IH in Hrest as (-> & -> & -> & -> & ->). auto.
Qed.

(** A list that is not empty has a last element. *)
Lemma list_last_split {A} (l : list A) :
  l <> [] -> exists pre x, l = pre ++ [x].
Proof.
  intros Hne. destruct l as [|y l] using rev_ind; [contradiction | eauto].
Qed.

Lemma setup_bins_bin_count (s s' : State) :
  setup_bins s = Ok s' -> interferometers s <> [] ->
  exists N, number_of_bins s' = Some N /\ (N = (-1)%Z \/ (1 <= N)%Z).
Proof.
  unfold setup_bins. intros H Hne.
  destruct (list_last_split _ Hne) as (pre & ifo & Hl). rewrite Hl in H.
  apply setup_bins_loop_last in H as (N & bf & bi & Hplan & HN).
  apply setup_bins_plan_Ok in Hplan
    as (? & ? & ? & _ & _ & _ & _ & _ & Hcases & _).
  exists N. auto.
Qed.

Lemma compute_summary_data_bin_count (s s' : State) :
  compute_summary_data s = Ok s' -> interferometers s <> [] ->
  exists N, number_of_bins s = Some N /\ (0 <= N)%Z.
Proof.
  unfold compute_summary_data. intros H Hne.
  apply bind_Ok in H as (sd & Hloop & _).
  destruct (interferometers s) as [|ifo ifos]; [contradiction |].
  apply for_loop_cons_Ok in Hloop as (sd1 & Hstep & _).
  apply compute_summary_data_interferometer_Ok in Hstep
    as (? & ? & ? & N & ? & ? & ? & ? & Hstep).
  cbv zeta in Hstep.
  destruct Hstep as (_ & _ & _ & _ & _ & _ & _ & HN & Hpos & _).
  exists N. auto.
Qed.

Lemma search_frame
    (get_detector_response :
       Interferometer.t -> Polarizations -> Params -> option (list R) -> list C)
    (frequency_domain_strain : WaveformGenerator.t -> Params -> option Polarizations)
    (differential_evolution : (list R -> R) -> list (list R) -> OptimizeResult)
    (log_likelihood_ratio : State -> R)
    (bounds : list (list R)) (iterations : Z) (s s' : State) (found : Params) :
  find_maximum_likelihood_parameters get_detector_response frequency_domain_strain
    differential_evolution log_likelihood_ratio bounds iterations s = Ok (s', found) ->
  number_of_bins s' = number_of_bins s /\
  is_Some (summary_data s') /\
  found !! "fiducial" = Some 0.
Proof.
  unfold find_maximum_likelihood_parameters. intros H.
  apply bind_Ok in H as ([s1 up] & Hloop & H).
  destruct up as [p|]; [| discriminate]. injection H as <- <-.
  assert (Hrounds : py_range iterations <> []).
  { intros Hnil. rewrite Hnil in Hloop. discriminate Hloop. }
  destruct (optimization_rounds_frame _ _ _ _ _ _ _ _ _ _ Hloop)
    as (_ & N & _ & Hsum).
  destruct (optimization_rounds_parameters _ _ _ _ _ _ _ _ _ _ Hloop)
    as (_ & _ & Hlast).
  destruct (Hlast Hrounds) as (keys & x & _ & [= ->]).
  split; [exact N |]. split; [| apply lookup_insert_eq].
  destruct (compute_summary_data_frame _ _ (Hsum Hrounds)) as (sd & Hs1 & _).
  rewrite Hs1. simpl. eauto.
Qed.

(** The first three calls of the constructor (lines 133-136). *)
Lemma init_first_calls
    (get_detector_response :
       Interferometer.t -> Polarizations -> Params -> option (list R) -> list C)
    (frequency_domain_strain : WaveformGenerator.t -> Params -> option Polarizations)
    (differential_evolution : (list R -> R) -> list (list R) -> OptimizeResult)
    (log_likelihood_ratio : State -> R)
    (self : State) (fiducial_parameters_arg : option Params)
    (parameter_bounds_arg : option (gmap string (list R)))
    (chi0 epsilon0 : R) (built : State) :
  init get_detector_response frequency_domain_strain differential_evolution
    log_likelihood_ratio self fiducial_parameters_arg parameter_bounds_arg
    false chi0 epsilon0 = Ok built ->
  priors built = priors self /\
  fiducial_parameters built !! "fiducial" = Some 0 /\
  is_Some (summary_data built) /\
  parameters_to_be_updated built = None /\
  (interferometers self <> [] ->
   exists N, number_of_bins built = Some N /\ (1 <= N)%Z) /\
  (forall update,
     init get_detector_response frequency_domain_strain differential_evolution
       log_likelihood_ratio self fiducial_parameters_arg parameter_bounds_arg
       update chi0 epsilon0
     = if update : bool then
         prior_list ← match priors built with
                      | Some l => Ok l
                      | None => Raise TypeError
                      end;
         let keys := map fst (filter (fun kp => is_delta_or_constraint kp.2 = false)
                                prior_list) in
         let self := set_optimizer_inputs (Some keys) (parameter_bounds built) built in
         bounds ← match parameter_bounds_arg with
                  | None => get_bounds_from_priors self prior_list
                  | Some d => get_parameter_list_from_dictionary self d
                  end;
         let self := set_optimizer_inputs (Some keys) (Some bounds) self in
         '(self, found) ← find_maximum_likelihood_parameters get_detector_response
                            frequency_domain_strain differential_evolution
                            log_likelihood_ratio bounds 1 self;
         Ok (set_fiducial_parameters found self)
       else Ok built).
Proof.
  unfold init. intros H.
  apply bind_Ok in H as ([[s1 written] v] & Hset & H).
  apply bind_Ok in H as (s2 & Hbins & H).
  apply bind_Ok in H as (s3 & Hsum & H). injection H as <-.
  destruct (set_fiducial_waveforms_frame _ _ _ _ _ _ _ Hset)
    as (_ & _ & _ & K1 & _ & _ & _ & _ & _ & _ & _ & Hwritten).
  destruct (set_fiducial_waveforms_attributes _ _ _ _ _ _ _ Hset)
    as (P1 & _ & _ & _ & L1).
  pose proof Hbins as Hbins'. unfold setup_bins in Hbins'.
  destruct (setup_bins_loop_attributes _ _ _ _ Hbins') as (P2 & F2 & _ & K2 & _).
  destruct (setup_bins_loop_frame _ _ _ _ Hbins') as (_ & _ & _ & I2 & _).
  destruct (compute_summary_data_frame _ _ Hsum) as (sd & -> & _).
  split; [simpl; rewrite P2; simpl; exact P1 |].
  split; [simpl; rewrite F2, Hwritten; simpl; apply lookup_insert_eq |].
  split; [simpl; eauto |].
  split; [simpl; rewrite K2; simpl; rewrite K1; reflexivity |].
  split.
  - intros Hne.
    assert (Hne1 : interferometers (set_fiducial_parameters written s1) <> []).
    { simpl. intros Hnil. apply Hne. apply length_zero_iff_nil.
      rewrite Hnil in L1. simpl in L1. simpl. lia. }
    destruct (setup_bins_bin_count _ _ Hbins Hne1) as (N & HN & Hcases).
    destruct (compute_summary_data_bin_count _ _ Hsum) as (N' & HN' & Hpos).
    { rewrite I2. exact Hne1. }
    exists N. split; [exact HN |]. rewrite HN in HN'. injection HN' as <-. lia.
  - intros update. rewrite Hset, Ok_bind, Hbins, Ok_bind, Hsum, Ok_bind.
    destruct update; reflexivity.
Qed.

(** X21.  When the constructor returns, with or without the search, for
    at least one detector: the bin count is at least 1 (a count of -1, which
    [setup_bins] lets through, is stopped by [compute_summary_data]), the
    summary data are set, and the fiducial parameters have ["fiducial"] set
    to 0. *)
Theorem constructor_leaves_bins_and_summary_data
    (get_detector_response :
       Interferometer.t -> Polarizations -> Params -> option (list R) -> list C)
    (frequency_domain_strain : WaveformGenerator.t -> Params -> option Polarizations)
    (differential_evolution : (list R -> R) -> list (list R) -> OptimizeResult)
    (log_likelihood_ratio : State -> R)
    (self : State) (fiducial_parameters_arg : option Params)
    (parameter_bounds_arg : option (gmap string (list R)))
    (update_fiducial_parameters : bool) (chi0 epsilon0 : R) (built : State) :
  init get_detector_response frequency_domain_strain differential_evolution
    log_likelihood_ratio self fiducial_parameters_arg parameter_bounds_arg
    update_fiducial_parameters chi0 epsilon0 = Ok built ->
  interferometers self <> [] ->
  (exists N, number_of_bins built = Some N /\ (1 <= N)%Z) /\
  is_Some (summary_data built) /\
  fiducial_parameters built !! "fiducial" = Some 0.
Proof.
  intros H Hne.
  destruct (init get_detector_response frequency_domain_strain
              differential_evolution log_likelihood_ratio self
              fiducial_parameters_arg parameter_bounds_arg false chi0 epsilon0)
    as [plain|e] eqn:Hplain.
  - destruct (init_first_calls _ _ _ _ _ _ _ _ _ _ Hplain)
      as (_ & F & S & _ & HN & Hinit).
    rewrite (Hinit update_fiducial_parameters) in H.
    destruct update_fiducial_parameters.
    + apply bind_Ok in H as (prior_list & _ & H). cbv zeta in H.
      apply bind_Ok in H as (bounds & _ & H).
      apply bind_Ok in H as ([s5 found] & Hsearch & H). injection H as <-.
      apply search_frame in Hsearch as (N5 & S5 & F5).
      simpl. split; [rewrite N5; simpl; apply HN, Hne |]. auto.
    + injection H as <-. auto.
  - exfalso. unfold init in H, Hplain.
    destruct (set_fiducial_waveforms _ _ _ _) as [[[s1 written] v]|e1];
      [| discriminate H].
    rewrite Ok_bind in H, Hplain.
    destruct (setup_bins _) as [s2|e2]; [| discriminate H].
    rewrite Ok_bind in H, Hplain.
    destruct (compute_summary_data s2) as [s3|e3]; [| discriminate H].
    discriminate Hplain.
Qed.

(** X22.  The search branch of the constructor, when the calls before it
    succeed: without priors it raises [TypeError] (the check that line 140
    asks for is not there); and with priors, when bounds are given as a dict
    that has no entry for a prior that is neither a [DeltaFunction] nor a
    [Constraint], it raises [KeyError]. *)
Theorem constructor_search_needs_priors_and_bounds
    (get_detector_response :
       Interferometer.t -> Polarizations -> Params -> option (list R) -> list C)
    (frequency_domain_strain : WaveformGenerator.t -> Params -> option Polarizations)
    (differential_evolution : (list R -> R) -> list (list R) -> OptimizeResult)
    (log_likelihood_ratio : State -> R)
    (self : State) (fiducial_parameters_arg : option Params)
    (parameter_bounds_arg : option (gmap string (list R)))
    (chi0 epsilon0 : R) (built : State) :
  init get_detector_response frequency_domain_strain differential_evolution
    log_likelihood_ratio self fiducial_parameters_arg parameter_bounds_arg
    false chi0 epsilon0 = Ok built ->
  (priors self = None ->
   init get_detector_response frequency_domain_strain differential_evolution
     log_likelihood_ratio self fiducial_parameters_arg parameter_bounds_arg
     true chi0 epsilon0 = Raise TypeError) /\
  (forall prior_list bounds key prior,
     priors self = Some prior_list ->
     parameter_bounds_arg = Some bounds ->
     (key, prior) ∈ prior_list -> is_delta_or_constraint prior = false ->
     bounds !! key = None ->
     init get_detector_response frequency_domain_strain differential_evolution
       log_likelihood_ratio self fiducial_parameters_arg parameter_bounds_arg
       true chi0 epsilon0 = Raise KeyError).
Proof.
  intros H.
  destruct (init_first_calls _ _ _ _ _ _ _ _ _ _ H) as (P & _ & _ & _ & _ & Hinit).
  rewrite (Hinit true), P. split.
  - intros ->. reflexivity.
  - intros prior_list bounds key prior -> -> Hin Hfree Hmissing.
    rewrite Ok_bind. cbv zeta. apply bind_Raise.
    unfold get_parameter_list_from_dictionary. simpl. apply mapM_some_Raise.
    + intros k. unfold dict_get. destruct (bounds !! k); eauto.
    + exists key. split.
      * change (map fst ?l) with (fst <$> l). apply list_elem_of_fmap.
        exists (key, prior). split; [reflexivity |].
        apply list_elem_of_filter. split; [exact Hfree | exact Hin].
      * unfold dict_get. rewrite Hmissing. reflexivity.
Qed.

(** X23.  With priors of distinct names, and the parameters to update
    chosen as the constructor chooses them (the names of the priors that are
    neither a [DeltaFunction] nor a [Constraint], in the order of the
    priors), [get_bounds_from_priors] returns, without a [KeyError], the
    list of [minimum, maximum] pairs of exactly those priors, in that
    order. *)
Theorem bounds_of_the_free_priors (self : State) (prior_list : list (string * Prior)) :
  NoDup (map fst prior_list) ->
  parameters_to_be_updated self
  = Some (map fst (filter (fun kp => is_delta_or_constraint kp.2 = false) prior_list)) ->
  get_bounds_from_priors self prior_list
  = Ok (map (fun kp : string * Prior => [minimum kp.2; maximum kp.2])
          (filter (fun kp => is_delta_or_constraint kp.2 = false) prior_list)).
Proof.
  intros Hnodup Hkeys. unfold get_bounds_from_priors. rewrite Hkeys. simpl.
  apply mapM_Ok.
  change (map ?f ?l) with (f <$> l).
  apply Forall2_fmap. apply Forall_Forall2_diag. apply Forall_forall.
  intros [key prior] Hin. apply list_elem_of_filter in Hin as [_ Hin].
  apply list_elem_of_lookup in Hin as [j Hj]. simpl.
  rewrite (list_find_key prior_list j key prior Hnodup Hj). reflexivity.
Qed.

(* ===================================================================== *)
(** * The further properties on the worked example                        *)
(* ===================================================================== *)

Lemma example_band_above_grid (f : R) :
  f ∈ [1; 8] -> ~ (10 <= f /\ f <= 20).
Proof.
  intros Hin [Hlo _].
  apply elem_of_cons in Hin as [-> | Hin]; [lra |].
  apply elem_of_cons in Hin as [-> | Hin]; [lra | inversion Hin].
Qed.

Lemma example_upper_edge : (8 : R) ∈ [1; 8].
Proof. right. left. Qed.

Lemma example_names_NoDup : NoDup Cases.names.
Proof.
  apply NoDup_cons. split.
  - intros Hin. apply elem_of_cons in Hin as [Hin | Hin]; [discriminate |].
    inversion Hin.
  - apply NoDup_singleton.
Qed.

Lemma example_prior_names_NoDup : NoDup (map fst Cases.prior_list).
Proof.
  apply NoDup_cons. split.
  - intros Hin. apply elem_of_cons in Hin as [Hin | Hin]; [discriminate |].
    apply elem_of_cons in Hin as [Hin | Hin]; [discriminate | inversion Hin].
  - apply NoDup_cons. split; [| apply NoDup_singleton].
    intros Hin. apply elem_of_cons in Hin as [Hin | Hin]; [discriminate |].
    inversion Hin.
Qed.

Lemma example_names_have_priors (key : string) :
  key ∈ Cases.names -> key ∈ map fst Cases.prior_list.
Proof.
  intros Hin. apply elem_of_cons in Hin as [-> | Hin]; [left |].
  apply elem_of_cons in Hin as [-> | Hin]; [right; right; left | inversion Hin].
Qed.

Lemma example_nondecreasing_inds : nondecreasing_nat [0%nat; 1%nat].
Proof.
  intros i j a b Hij Hi Hj.
  destruct i as [|[|i]]; destruct j as [|[|j]]; simpl in *;
    try discriminate; try lia; injection Hi as <-; injection Hj as <-; lia.
Qed.

Lemma example_projection :
  set_fiducial_waveforms Example.response Example.strain_model ∅ Example.base
  = Ok (set_per_detector_fiducial_waveforms
          (<["H1" := [Cone; Cone]]> (per_detector_fiducial_waveforms Example.base))
          (set_interferometers [Example.H1]
             (set_fiducial_polarizations (Some Example.polarizations) Example.base)),
        Example.written, PyNone).
Proof. exact (example_set_fiducial_waveforms ∅ Example.base eq_refl eq_refl). Qed.

Lemma example_compute_waveform_ratio :
  compute_waveform_ratio Example.response Example.one_bin Example.polarizations
  = Ok (<["H1" := ([Cone], [Czero])]> ∅).
Proof.
  unfold compute_waveform_ratio.
  change (interferometers Example.one_bin) with [Example.H1].
  cbn [for_loop]. rewrite example_ratio by reflexivity. reflexivity.
Qed.

Lemma example_full_waveform :
  _compute_full_waveform Example.response Example.one_bin Example.polarizations
    Example.H1
  = Ok [Cmult Cone (Cplus Cone (Cmult Czero (Cminus (RtoC 1) (RtoC ((8 + 1) / 2)))));
        Cmult Cone (Cplus Czero (Cmult Czero (Cminus (RtoC 8) Czero)))].
Proof.
  unfold _compute_full_waveform.
  rewrite example_ratio by reflexivity. reflexivity.
Qed.

Lemma example_ratio_two_bins :
  compute_waveform_ratio_per_interferometer Example.response Cases.misshapen
    Example.polarizations Example.H1
  = Ok (map (fun z => Cdiv z (RtoC 2))
          (zip_with Cplus (from1 (zip_with Cdiv [Cone; Cone; Cone] [Cone; Cone; Cone]))
             (upto_last (zip_with Cdiv [Cone; Cone; Cone] [Cone; Cone; Cone]))),
        zip_with (fun z w => Cdiv z (RtoC w))
          (zip_with Cminus (from1 (zip_with Cdiv [Cone; Cone; Cone] [Cone; Cone; Cone]))
             (upto_last (zip_with Cdiv [Cone; Cone; Cone] [Cone; Cone; Cone])))
          (widths_of [1; 8; 8])).
Proof.
  apply (waveform_ratio_arrays Example.response Cases.misshapen Example.polarizations
           Example.H1 [1; 8; 8] (widths_of [1; 8; 8]) [Cone; Cone; Cone]
           [Cone; Cone; Cone] 2); reflexivity.
Qed.

Lemma setup_bins_empty_band_raises_witness :
  setup_bins Cases.out_of_band = Raise IndexError.
Proof.
  destruct (setup_bins_empty_band_raises Cases.out_of_band [] [] Cases.L1
              eq_refl example_band_above_grid) as [_ Hall].
  apply (Hall Cases.out_of_band). reflexivity.
Defined.

Lemma bin_edges_lie_in_the_band_witness :
  8 ∈ WaveformGenerator.frequency_array (waveform_generator (Example.projected 1 20)) /\
  Interferometer.minimum_frequency Example.H1 <= 8 /\
  8 <= Interferometer.maximum_frequency Example.H1.
Proof.
  exact (bin_edges_lie_in_the_band (Example.projected 1 20) Example.one_bin
           Example.H1 [1; 8] 8 example_setup_bins_one_bin example_NoDup
           (list_elem_of_here _ _) eq_refl example_upper_edge).
Defined.

Lemma bin_inds_locate_bin_freqs_witness :
  exists edges inds,
    bin_freqs Example.one_bin !! "H1" = Some edges /\
    bin_inds Example.one_bin !! "H1" = Some inds /\
    length inds = length edges.
Proof.
  destruct (bin_inds_locate_bin_freqs (Example.projected 1 20) Example.one_bin
              Example.H1 example_setup_bins_one_bin example_NoDup
              (list_elem_of_here _ _) example_increasing_grid)
    as (edges & inds & H1 & H2 & H3 & _).
  exists edges, inds. auto.
Defined.

Lemma bin_set_is_consistent_witness :
  exists edges widths centers,
    bin_freqs Example.one_bin !! "H1" = Some edges /\
    bin_widths Example.one_bin !! "H1" = Some widths /\
    bin_centers Example.one_bin !! "H1" = Some centers /\
    length widths = (length edges - 1)%nat /\
    length centers = (length edges - 1)%nat.
Proof.
  destruct (bin_set_is_consistent (Example.projected 1 20) Example.one_bin
              Example.H1 example_setup_bins_one_bin example_NoDup
              (list_elem_of_here _ _))
    as (edges & inds & widths & centers & points & h0
        & H1 & _ & H3 & H4 & _ & _ & _ & _ & H5 & H6 & _).
  exists edges, widths, centers. auto.
Defined.

Lemma frequency_bin_edges_are_the_last_detectors_witness :
  exists edges,
    WaveformGenerator.waveform_arguments (waveform_generator Example.one_bin)
      !! "frequency_bin_edges" = Some edges /\
    bin_freqs Example.one_bin !! "H1" = Some edges.
Proof.
  exact (proj1 (frequency_bin_edges_are_the_last_detectors (Example.projected 1 20)
                  Example.one_bin [] Example.H1 example_setup_bins_one_bin eq_refl)).
Defined.

Lemma setup_bins_without_fiducial_waveform_raises_witness :
  setup_bins (init_attributes ∅ 1 20 Example.base) = Raise KeyError.
Proof.
  exact (setup_bins_without_fiducial_waveform_raises
           (init_attributes ∅ 1 20 Example.base) Example.H1 []
           (1%Z, ([1; 8], [0%nat; 1%nat])) eq_refl example_plan_one_bin eq_refl).
Defined.

Lemma set_fiducial_waveforms_clips_maximum_frequency_witness :
  exists self' written polarizations,
    set_fiducial_waveforms Example.response Example.strain_model ∅ Example.base
    = Ok (self', written, PyNone) /\
    fiducial_polarizations self' = Some polarizations /\
    length (interferometers self') = length (interferometers Example.base).
Proof.
  destruct (set_fiducial_waveforms_clips_maximum_frequency Example.response
              Example.strain_model ∅ Example.base _ _ _ example_projection)
    as (polarizations & plus & index & cutoff & H1 & _ & _ & _ & _ & H2 & _).
  eexists _, _, polarizations.
  split; [exact example_projection |]. split; [exact H1 | exact H2].
Defined.

Lemma set_fiducial_waveforms_projects_clipped_detectors_witness :
  exists self' written,
    set_fiducial_waveforms Example.response Example.strain_model ∅ Example.base
    = Ok (self', written, PyNone) /\
    written !! "fiducial" = Some 0.
Proof.
  destruct (set_fiducial_waveforms_projects_clipped_detectors Example.response
              Example.strain_model ∅ Example.base _ _ _ example_projection
              example_NoDup)
    as (polarizations & _ & _ & _ & H & _).
  eexists _, _. split; [exact example_projection | exact H].
Defined.

Lemma missing_fiducial_polarizations_raise_witness :
  set_fiducial_waveforms Example.response Cases.absent_model ∅ Example.base
  = Raise TypeError.
Proof.
  exact (proj1 (missing_fiducial_polarizations_raise Example.response
                  Cases.absent_model Example.optimizer Example.likelihood_ratio
                  Example.base ∅ eq_refl)).
Defined.

Lemma set_fiducial_waveforms_twice_witness :
  exists self' written,
    set_fiducial_waveforms Example.response Example.strain_model ∅ Example.base
    = Ok (self', written, PyNone) /\
    set_fiducial_waveforms Example.response Example.strain_model written self'
    = Ok (self', written, PyNone).
Proof.
  eexists _, _. split; [exact example_projection |].
  exact (set_fiducial_waveforms_twice Example.response Example.strain_model ∅
           Example.base _ _ _ example_projection).
Defined.

Lemma parameter_dictionary_entries_witness :
  exists dictionary,
    get_parameter_dictionary_from_list Cases.tunable [3; 4] = Ok dictionary /\
    dictionary !! "mass" = Some 3 /\ dictionary !! "spin" = Some 4.
Proof.
  destruct (parameter_dictionary_entries Cases.tunable Cases.names [3; 4]
              eq_refl example_names_NoDup) as (dictionary & H & Hin & _).
  exists dictionary. split; [exact H |].
  split; [exact (Hin 0%nat "mass" eq_refl) | exact (Hin 1%nat "spin" eq_refl)].
Defined.

Lemma parameter_list_round_trip_witness :
  get_parameter_dictionary_from_list Cases.tunable [3; 4]
  ≫= get_parameter_list_from_dictionary Cases.tunable = Ok [3; 4].
Proof.
  exact (proj1 (parameter_list_round_trip Cases.tunable Cases.names [3; 4]
                  eq_refl example_names_NoDup) eq_refl).
Defined.

Lemma bounds_from_priors_follow_the_names_witness :
  exists bounds,
    get_bounds_from_priors Cases.tunable Cases.prior_list = Ok bounds /\
    length bounds = length Cases.names.
Proof.
  destruct (proj1 (bounds_from_priors_follow_the_names Cases.tunable Cases.names
                     Cases.prior_list eq_refl example_prior_names_NoDup)
              example_names_have_priors) as (bounds & H & L & _).
  exists bounds. auto.
Defined.

Lemma search_without_rounds_raises_witness :
  find_maximum_likelihood_parameters Example.response Example.strain_model
    Example.optimizer Example.likelihood_ratio [] 0 Example.searchable
  = Raise UnboundLocalError.
Proof.
  exact (proj1 (search_without_rounds_raises Example.response Example.strain_model
                  Example.optimizer Example.likelihood_ratio [] 0
                  Example.searchable (Z.le_refl 0))).
Defined.

Lemma search_returns_the_updated_parameters_witness :
  fiducial_parameters Example.refreshed = fiducial_parameters Example.searchable /\
  Example.found !! "fiducial" = Some 0.
Proof.
  destruct (search_returns_the_updated_parameters Example.response
              Example.strain_model Example.optimizer Example.likelihood_ratio [] 1
              Example.searchable Example.refreshed Example.found example_search)
    as (_ & H1 & _ & _ & _ & H2 & _).
  split; assumption.
Defined.

Lemma summary_data_is_rebuilt_witness :
  exists summary,
    Example.summarized = set_summary_data (Some summary) Example.one_bin /\
    is_Some (summary !! "H1").
Proof.
  destruct (summary_data_is_rebuilt Example.one_bin Example.summarized
              example_summarized) as (summary & H & Hdom & _).
  exists summary. split; [exact H |]. apply Hdom. left.
Defined.

Lemma edge_off_the_masked_grid_raises_witness :
  compute_summary_data Cases.masked = Raise IndexError.
Proof.
  apply (edge_off_the_masked_grid_raises Cases.masked [] [] Cases.H1_masked ∅
           [1; 8] 8 eq_refl eq_refl eq_refl eq_refl example_upper_edge).
  intros Hin. apply elem_of_cons in Hin as [Hin | Hin]; [lra | inversion Hin].
Defined.

Lemma waveform_ratio_of_every_detector_witness :
  exists r,
    compute_waveform_ratio_per_interferometer Example.response Example.one_bin
      Example.polarizations Example.H1 = Ok r /\
    (<["H1" := ([Cone], [Czero])]> ∅ : gmap string (list C * list C)) !! "H1" = Some r.
Proof.
  exact (proj2 (waveform_ratio_of_every_detector Example.response Example.one_bin
                  Example.polarizations _ example_compute_waveform_ratio
                  example_NoDup) Example.H1 (list_elem_of_here _ _)).
Defined.

Lemma full_waveform_is_linear_in_each_bin_witness :
  exists full_waveform,
    _compute_full_waveform Example.response Example.one_bin Example.polarizations
      Example.H1 = Ok full_waveform /\
    length full_waveform = 2%nat /\
    full_waveform !! 1%nat = Some Czero.
Proof.
  destruct (full_waveform_is_linear_in_each_bin Example.response Example.one_bin
              Example.polarizations Example.H1 _ [Cone; Cone] [Cone] [Czero]
              [0%nat; 1%nat] 1 example_full_waveform eq_refl
              (example_ratio Example.one_bin eq_refl eq_refl eq_refl)
              eq_refl eq_refl eq_refl example_nondecreasing_inds)
    as (L & _ & Hzero).
  eexists. split; [exact example_full_waveform |]. split; [exact L |].
  apply Hzero; [simpl; lia |].
  intros i lo hi Hi Hlo Hhi Hk.
  destruct i as [|i]; [| simpl in Hi; lia].
  injection Hlo as <-. injection Hhi as <-. lia.
Defined.

Lemma calculate_snrs_shape_mismatch_witness :
  calculate_snrs Example.response Example.fft Cases.misshapen
    Example.polarizations Example.H1 = Raise ValueError.
Proof.
  apply (calculate_snrs_shape_mismatch Example.response Example.fft
           Cases.misshapen Example.polarizations Example.H1 _ [] [] [] [] _ _
           example_ratio_two_bins eq_refl eq_refl); simpl; lia.
Defined.

Lemma constructor_leaves_bins_and_summary_data_witness :
  (exists N, number_of_bins Example.summarized = Some N /\ (1 <= N)%Z) /\
  is_Some (summary_data Example.summarized) /\
  fiducial_parameters Example.summarized !! "fiducial" = Some 0.
Proof.
  apply (constructor_leaves_bins_and_summary_data Example.response
           Example.strain_model Example.optimizer Example.likelihood_ratio
           Example.base None None false 1 20 Example.summarized example_init).
  discriminate.
Defined.

Lemma constructor_search_needs_priors_and_bounds_witness :
  init Example.response Example.strain_model Example.optimizer
    Example.likelihood_ratio Example.base None None true 1 20 = Raise TypeError.
Proof.
  exact (proj1 (constructor_search_needs_priors_and_bounds Example.response
                  Example.strain_model Example.optimizer Example.likelihood_ratio
                  Example.base None None 1 20 Example.summarized example_init)
           eq_refl).
Defined.

Lemma bounds_of_the_free_priors_witness :
  get_bounds_from_priors Cases.tunable Cases.prior_list = Ok [[1; 2]; [-1; 1]].
Proof.
  exact (bounds_of_the_free_priors Cases.tunable Cases.prior_list
           example_prior_names_NoDup eq_refl).
Defined.

Lemma setup_bins_twice_witness : setup_bins Example.one_bin = Ok Example.one_bin.
Proof.
  exact (setup_bins_twice (Example.projected 1 20) Example.one_bin
           example_setup_bins_one_bin).
Defined.

(* ===================================================================== *)
(** * What a round of the search rebuilds                                 *)
(* ===================================================================== *)

Lemma set_fiducial_waveforms_generator
    (get_detector_response :
       Interferometer.t -> Polarizations -> Params -> option (list R) -> list C)
    (frequency_domain_strain : WaveformGenerator.t -> Params -> option Polarizations)
    (p : Params) (s s' : State) (written : Params) (v : pyval) :
  set_fiducial_waveforms get_detector_response frequency_domain_strain p s
  = Ok (s', written, v) ->
  waveform_generator s' = waveform_generator s /\
  map Interferometer.name (interferometers s')
  = map Interferometer.name (interferometers s) /\
  summary_data s' = summary_data s.
Proof.
  unfold set_fiducial_waveforms. intros H.
  apply bind_Ok in H as (plus & Hplus & H).
  apply bind_Ok in H as (idx & Hidx & H).
  apply bind_Ok in H as (f & Hf & H).
  destruct s as [ifos wg pr tm pa fp ch ep fpol pdfw pts bf bi bw bc nb sd ptu pb];
    simpl in *.
  destruct (frequency_domain_strain _ _) as [pol|] eqn:Hpol; [| discriminate Hplus].
  injection H as <- <- <-. simpl.
  split; [reflexivity |]. split; [| reflexivity].
  rewrite map_map. apply map_ext. intros ifo.
  unfold clip_maximum_frequency. case_bool_decide; reflexivity.
Qed.

(** The summary data that [compute_summary_data] leaves for a detector are
    those of the fiducial waveform stored for it. *)
Lemma compute_summary_data_of_waveform (s s' : State) (ifo : Interferometer.t) :
  compute_summary_data s = Ok s' ->
  NoDup (map Interferometer.name (interferometers s)) ->
  ifo ∈ interferometers s ->
  exists summary entry h0,
    summary_data s' = Some summary /\
    summary !! Interferometer.name ifo = Some entry /\
    per_detector_fiducial_waveforms s !! Interferometer.name ifo = Some h0 /\
    summary_of_waveform s' ifo h0 entry.
Proof.
  unfold compute_summary_data. intros H Hnodup Hin.
  apply bind_Ok in H as (sd & Hloop & H). injection H as <-.
  destruct (compute_summary_data_loop_detector _ _ _ _ _ Hloop Hnodup Hin)
    as (sd0 & sd1 & Hstep & Hsd).
  apply compute_summary_data_interferometer_Ok in Hstep
    as (edges & mbi & h0 & N & a0 & a1 & b0 & b1 & Hstep).
  cbv zeta in Hstep.
  destruct Hstep as (Hbf & Hmbi & Hh0 & _ & _ & _ & _ & HN & _ & L0 & L1 & L2 & L3
                     & Hbins & ->).
  exists sd, (a0, a1, b0, b1), h0.
  split; [reflexivity |].
  split; [rewrite Hsd; apply lookup_insert_eq |].
  split; [exact Hh0 |].
  unfold summary_of_waveform. exists edges, mbi, N. simpl. auto 10.
Qed.

(** One round of the search: the optimizer's result becomes the updated
    parameters, the fiducial waveform of every detector becomes its response
    to the polarizations of these parameters, the summary data become those
    of the new waveforms, and the BinSet stays. *)
Lemma optimization_round_rebuilds
    (get_detector_response :
       Interferometer.t -> Polarizations -> Params -> option (list R) -> list C)
    (frequency_domain_strain : WaveformGenerator.t -> Params -> option Polarizations)
    (differential_evolution : (list R -> R) -> list (list R) -> OptimizeResult)
    (log_likelihood_ratio : State -> R)
    (bounds : list (list R)) (i : nat) (s s' : State) (prev updated : option Params) :
  optimization_round get_detector_response frequency_domain_strain
    differential_evolution log_likelihood_ratio bounds i (s, prev) = Ok (s', updated) ->
  NoDup (map Interferometer.name (interferometers s)) ->
  BinSet s' = BinSet s /\
  waveform_generator s' = waveform_generator s /\
  map Interferometer.name (interferometers s')
  = map Interferometer.name (interferometers s) /\
  exists (keys : list string) (written : Params) (polarizations : Polarizations)
         (summary : gmap string SummaryData),
    parameters_to_be_updated s = Some keys /\
    written
    = <["fiducial" := 0]>
        (parameter_dictionary keys (fiducial_parameters s)
           (x (differential_evolution
                 (fun parameter_list =>
                    - log_likelihood_ratio
                        (set_parameters
                           (parameter_dictionary keys (fiducial_parameters s)
                              parameter_list) s))
                 bounds))) /\
    updated = Some written /\
    frequency_domain_strain (waveform_generator s) (<["fiducial" := 1]> written)
    = Some polarizations /\
    fiducial_polarizations s' = Some polarizations /\
    summary_data s' = Some summary /\
    forall interferometer, interferometer ∈ interferometers s' ->
      per_detector_fiducial_waveforms s' !! Interferometer.name interferometer
      = Some (get_detector_response interferometer polarizations
                (<["fiducial" := 1]> written) None) /\
      exists entry,
        summary !! Interferometer.name interferometer = Some entry /\
        summary_of_waveform s' interferometer
          (get_detector_response interferometer polarizations
             (<["fiducial" := 1]> written) None) entry.
Proof.
  unfold optimization_round. simpl. intros H Hnodup.
  apply bind_Ok in H as (keys & Hkeys & H).
  set (output := differential_evolution _ bounds) in H.
  set (searched := foldl _ s _) in H.
  apply bind_Ok in H as (candidate & Hcand & H).
  apply bind_Ok in H as ([[rebuilt written] v] & Hset & H).
  apply bind_Ok in H as (s2 & Hsum & H). injection H as <- <-.
  destruct (optimizer_calls_frame keys (evaluated output) s)
    as (B1 & G1 & I1 & _ & _ & _ & K1 & F1 & _).
  fold searched in B1, G1, I1, K1, F1.
  destruct (set_fiducial_waveforms_frame _ _ _ _ _ _ _ Hset)
    as (B2 & _ & _ & _ & _ & pol & cutoff & Hfp & Hpol & Hifos & Hw & Hwritten).
  destruct (set_fiducial_waveforms_generator _ _ _ _ _ _ _ Hset) as (G2 & Hnames & _).
  apply getattr_Ok in Hkeys.
  unfold get_parameter_dictionary_from_list in Hcand.
  rewrite K1, Hkeys in Hcand. simpl in Hcand. injection Hcand as <-.
  rewrite F1 in *.
  assert (Hone : <["fiducial" := 1]> written
                 = <["fiducial" := 1]>
                     (parameter_dictionary keys (fiducial_parameters s) (x output))).
  { rewrite Hwritten, !insert_insert_eq. reflexivity. }
  assert (Hnodup2 : NoDup (map Interferometer.name (interferometers rebuilt)))
    by (rewrite Hnames, I1; exact Hnodup).
  pose proof (compute_summary_data_frame _ _ Hsum) as (sd & Hs2 & _).
  split; [rewrite Hs2; unfold BinSet in *; simpl; congruence |].
  split; [rewrite Hs2; simpl; congruence |].
  split; [rewrite Hs2; simpl; congruence |].
  exists keys, written, pol, sd.
  split; [exact Hkeys |].
  split; [rewrite Hwritten, insert_insert_eq; reflexivity |].
  split; [reflexivity |].
  split; [rewrite Hone, <- G1; exact Hpol |].
  split; [rewrite Hs2; exact Hfp |].
  split; [rewrite Hs2; reflexivity |].
  intros ifo Hin.
  assert (Hin2 : ifo ∈ interferometers rebuilt) by (rewrite Hs2 in Hin; exact Hin).
  assert (Hwave : per_detector_fiducial_waveforms rebuilt !! Interferometer.name ifo
                  = Some (get_detector_response ifo pol (<["fiducial" := 1]> written)
                            None)).
  { rewrite Hw, Hone.
    apply (project_fiducial_lookup get_detector_response pol _
             (interferometers rebuilt)); assumption. }
  split; [rewrite Hs2; exact Hwave |].
  destruct (compute_summary_data_of_waveform _ _ ifo Hsum Hnodup2 Hin2)
    as (summary & entry & h0 & Hsd & Hentry & Hh0 & Hof).
  rewrite Hwave in Hh0. injection Hh0 as <-.
  rewrite Hs2 in Hsd. simpl in Hsd. injection Hsd as <-.
  exists entry. split; [exact Hentry | exact Hof].
Qed.

(* ===================================================================== *)
(** * A search that changes the fiducial waveform, evaluated              *)
(* ===================================================================== *)

Lemma tuned_amplitude (fiducial : Params) :
  Tuned.amplitude
    (<["fiducial" := 1]> (parameter_dictionary ["amplitude"] fiducial [2]))
  = RtoC 2.
Proof.
  unfold Tuned.amplitude. rewrite lookup_insert_ne by discriminate.
  destruct (parameter_dictionary_lookup ["amplitude"] fiducial [2]) as [_ Hin].
  rewrite (Hin (NoDup_singleton _) 0%nat "amplitude" eq_refl). reflexivity.
Qed.

Lemma tuned_set_fiducial_waveforms (p : Params) (s : State) :
  WaveformGenerator.frequency_array (waveform_generator s) = [1; 8] ->
  interferometers s = [Example.H1] ->
  set_fiducial_waveforms Tuned.response Example.strain_model p s
  = Ok (set_per_detector_fiducial_waveforms
          (<["H1" := [Tuned.amplitude (<["fiducial" := 1]> p);
                      Tuned.amplitude (<["fiducial" := 1]> p)]]>
             (per_detector_fiducial_waveforms s))
          (set_interferometers [Example.H1]
             (set_fiducial_polarizations (Some Example.polarizations) s)),
        <["fiducial" := 0]> (<["fiducial" := 1]> p), PyNone).
Proof.
  intros Hwg Hifos. unfold set_fiducial_waveforms.
  destruct s as [ifos wg pr tm pa fp ch ep fpol pdfw pts bf bi bw bc nb sd ptu pb];
    simpl in *. subst. rewrite Hwg.
  change (dict_get Example.polarizations "plus") with (Ok [Cone; Cone] : result (list C)).
  rewrite Ok_bind.
  assert (Hlast : where_last (map (fun z => bool_decide (z ≠ Czero)) [Cone; Cone])
                  = Ok 1%nat).
  { cbn [map]. rewrite !(bool_decide_eq_true_2 _ Cone_nonzero). reflexivity. }
  rewrite Hlast, Ok_bind.
  change (getitem [1; 8] 1) with (Ok 8 : result R).
  rewrite Ok_bind.
  cbn [map]. unfold clip_maximum_frequency.
  rewrite bool_decide_eq_false_2 by (simpl; lra).
  reflexivity.
Qed.

(** [setup_bins] on any state that holds the example detector, [chi = 1]
    and [epsilon = 20]. *)
Lemma one_bin_setup_bins (s : State) (h0 : list C) (z w : C) :
  interferometers s = [Example.H1] ->
  WaveformGenerator.frequency_array (waveform_generator s) = [1; 8] ->
  chi s = 1 -> epsilon s = 20 ->
  per_detector_fiducial_waveforms s !! "H1" = Some [z; w] ->
  setup_bins s
  = Ok (store_bins "H1" 1 [1; 8] [0%nat; 1%nat] (widths_of [1; 8])
          (centers_of [1; 8]) [z; w] s).
Proof.
  intros Hifos Hfa Hchi Heps Hh0. unfold setup_bins. rewrite Hifos, Hfa.
  cbn [for_loop].
  rewrite (proj2 (setup_bins_interferometer_Ok [1; 8] Example.H1 s
                    (store_bins "H1" 1 [1; 8] [0%nat; 1%nat] (widths_of [1; 8])
                       (centers_of [1; 8]) [z; w] s))); [reflexivity |].
  exists 1%Z, [1; 8], [0%nat; 1%nat], [z; w], [z; w].
  rewrite Hchi, Heps.
  split; [exact example_plan_one_bin |]. split; [exact Hh0 |].
  split; reflexivity.
Qed.

(** [compute_summary_data] on any state that holds the example detector and
    the BinSet of one bin, for any fiducial waveform. *)
Lemma one_bin_compute_summary_data (s : State) (z w : C) :
  interferometers s = [Example.H1] ->
  bin_freqs s !! "H1" = Some [1; 8] ->
  per_detector_fiducial_waveforms s !! "H1" = Some [z; w] ->
  number_of_bins s = Some 1%Z ->
  WaveformGenerator.duration (waveform_generator s) = 4 ->
  compute_summary_data s
  = Ok (set_summary_data (Some (<["H1" := Tuned.summary_of z]> ∅)) s).
Proof.
  intros Hifos Hbf Hh0 HN HT. unfold compute_summary_data.
  rewrite Hifos. cbn [for_loop].
  assert (Hone : compute_summary_data_interferometer s Example.H1 ∅
                 = Ok (<["H1" := Tuned.summary_of z]> ∅)).
  { unfold compute_summary_data_interferometer.
    change (Interferometer.name Example.H1) with "H1".
    change (mask_select (Interferometer.frequency_mask Example.H1)
              (Interferometer.frequency_array Example.H1))
      with (Ok [1; 8] : result (list R)).
    rewrite Ok_bind, (proj2 (dict_get_Ok _ _ _) Hbf), Ok_bind.
    assert (Hmbi : mapM (fun edge => where_first
                     (map (fun f => bool_decide (f = edge)) [1; 8])) [1; 8]
                   = Ok [0%nat; 1%nat]).
    { apply mapM_Ok. repeat constructor; apply where_first_equal;
        [exact example_first_equal_low | exact example_first_equal_high]. }
    rewrite Hmbi, Ok_bind.
    change (mask_select (Interferometer.frequency_mask Example.H1)
              (Interferometer.frequency_domain_strain Example.H1))
      with (Ok [RtoC 2; RtoC 2] : result (list C)).
    rewrite Ok_bind, (proj2 (dict_get_Ok _ _ _) Hh0), Ok_bind.
    change (mask_select (Interferometer.frequency_mask Example.H1) [z; w])
      with (Ok [z; w] : result (list C)).
    rewrite Ok_bind.
    change (mask_select (Interferometer.frequency_mask Example.H1)
              (Interferometer.power_spectral_density_array Example.H1))
      with (Ok [1; 1] : result (list R)).
    rewrite Ok_bind, HN. unfold getattr. rewrite Ok_bind.
    change (np_zeros Czero 1) with (Ok [Czero] : result (list C)).
    rewrite Ok_bind, HT.
    reflexivity. }
  rewrite Hone. reflexivity.
Qed.

(** The search of one round from [Tuned.searchable]. *)
Lemma tuned_search :
  find_maximum_likelihood_parameters Tuned.response Example.strain_model
    Tuned.optimizer Example.likelihood_ratio [[1; 3]] 1 Tuned.searchable
  = Ok (Tuned.refreshed, Tuned.found).
Proof.
  unfold find_maximum_likelihood_parameters.
  change (py_range 1) with [0%nat]. cbn [for_loop].
  unfold optimization_round.
  change (getattr (parameters_to_be_updated (Tuned.searchable, None).1))
    with (Ok ["amplitude"] : result (list string)).
  rewrite Ok_bind. cbv zeta.
  change (evaluated (Tuned.optimizer _ [[1; 3]])) with ([] : list (list R)).
  cbn [foldl fst].
  change (get_parameter_dictionary_from_list Tuned.searchable
            (x (Tuned.optimizer _ [[1; 3]])))
    with (Ok (parameter_dictionary ["amplitude"] Example.written [2]) : result Params).
  rewrite Ok_bind.
  rewrite tuned_set_fiducial_waveforms by reflexivity.
  rewrite Ok_bind, tuned_amplitude.
  rewrite (one_bin_compute_summary_data _ (RtoC 2) (RtoC 2)) by reflexivity.
  reflexivity.
Qed.

Lemma set_optimizer_inputs_twice keys bounds keys' bounds' (s : State) :
  set_optimizer_inputs keys bounds (set_optimizer_inputs keys' bounds' s)
  = set_optimizer_inputs keys bounds s.
Proof. reflexivity. Qed.

Lemma tuned_keys :
  map fst (filter (fun kp : string * Prior => is_delta_or_constraint kp.2 = false)
             Tuned.prior_list) = ["amplitude"].
Proof. reflexivity. Qed.

Lemma tuned_bounds (s : State) :
  parameters_to_be_updated s = Some ["amplitude"] ->
  get_bounds_from_priors s Tuned.prior_list = Ok [[1; 3]].
Proof.
  intros Hkeys. unfold get_bounds_from_priors. rewrite Hkeys. simpl getattr.
  rewrite Ok_bind. cbn [mapM].
  rewrite (list_find_key Tuned.prior_list 0 "amplitude" (mkPrior false 1 3)
             (NoDup_singleton _) eq_refl).
  reflexivity.
Qed.

(** The constructor without the search, and with it. *)
Lemma tuned_init_plain :
  init Tuned.response Example.strain_model Tuned.optimizer
    Example.likelihood_ratio Tuned.base None None false 1 20
  = Ok Tuned.summarized.
Proof.
  unfold init.
  rewrite tuned_set_fiducial_waveforms by reflexivity.
  rewrite Ok_bind.
  change (Tuned.amplitude (<["fiducial" := 1]>
            (fiducial_parameters (init_attributes (default ∅ None) 1 20 Tuned.base))))
    with Cone.
  rewrite (one_bin_setup_bins _ [Cone; Cone] Cone Cone) by reflexivity.
  rewrite Ok_bind.
  rewrite (one_bin_compute_summary_data _ Cone Cone) by reflexivity.
  reflexivity.
Qed.

Lemma tuned_init :
  init Tuned.response Example.strain_model Tuned.optimizer
    Example.likelihood_ratio Tuned.base None None true 1 20
  = Ok Tuned.built.
Proof.
  destruct (init_first_calls _ _ _ _ _ _ _ _ _ _ tuned_init_plain)
    as (_ & _ & _ & _ & _ & Hinit).
  rewrite (Hinit true).
  change (priors Tuned.summarized) with (Some Tuned.prior_list).
  cbv beta iota. rewrite Ok_bind. cbv zeta.
  rewrite tuned_keys.
  rewrite tuned_bounds by reflexivity. rewrite Ok_bind.
  rewrite set_optimizer_inputs_twice.
  fold Tuned.searchable. rewrite tuned_search. reflexivity.
Qed.

(** The last round of a search that ran at least one round starts from a
    state with the BinSet, the waveform generator and the detector names of
    the state in which the search started. *)
Lemma optimization_rounds_last
    (get_detector_response :
       Interferometer.t -> Polarizations -> Params -> option (list R) -> list C)
    (frequency_domain_strain : WaveformGenerator.t -> Params -> option Polarizations)
    (differential_evolution : (list R -> R) -> list (list R) -> OptimizeResult)
    (log_likelihood_ratio : State -> R)
    (bounds : list (list R)) (rounds : list nat) :
  forall s prev s' updated,
  for_loop rounds
    (optimization_round get_detector_response frequency_domain_strain
       differential_evolution log_likelihood_ratio bounds) (s, prev)
  = Ok (s', updated) ->
  rounds <> [] ->
  NoDup (map Interferometer.name (interferometers s)) ->
  exists i before previous,
    optimization_round get_detector_response frequency_domain_strain
      differential_evolution log_likelihood_ratio bounds i (before, previous)
    = Ok (s', updated) /\
    BinSet before = BinSet s /\
    waveform_generator before = waveform_generator s /\
    map Interferometer.name (interferometers before)
    = map Interferometer.name (interferometers s).
Proof.
  induction rounds as [|i rounds IH]; intros s prev s' updated H Hne Hnodup;
    [contradiction |].
  apply for_loop_cons_Ok in H as ([s1 up1] & Hround & Hrest).
  destruct rounds as [|j rounds].
  - injection Hrest as <- <-. exists i, s, prev. auto.
  - destruct (optimization_round_rebuilds _ _ _ _ _ _ _ _ _ _ Hround Hnodup)
      as (B1 & G1 & I1 & _).
    destruct (IH s1 up1 s' updated Hrest ltac:(discriminate))
      as (k & before & previous & Hlast & B & G & I).
    { rewrite I1. exact Hnodup. }
    exists k, before, previous. split; [exact Hlast |].
    split; [congruence |]. split; congruence.
Qed.

(** C9.  Every round of [find_maximum_likelihood_parameters] takes the
    optimizer's result as the updated parameters, rebuilds the fiducial
    waveforms (the fiducial waveform of every detector becomes the detector's
    response, over the full grid, to the polarizations of the updated
    parameters) and recomputes the summary data (the four arrays of every
    detector become the noise-weighted inner products over the bins of the new
    fiducial waveform), and leaves the BinSet as it was; and when the search
    returns, the BinSet is the one it started with, and the fiducial waveforms
    and the summary data are those of the parameters it returns. *)
Theorem fiducial_update_keeps_bins
    (get_detector_response :
       Interferometer.t -> Polarizations -> Params -> option (list R) -> list C)
    (frequency_domain_strain : WaveformGenerator.t -> Params -> option Polarizations)
    (differential_evolution : (list R -> R) -> list (list R) -> OptimizeResult)
    (log_likelihood_ratio : State -> R)
    (parameter_bounds : list (list R)) (iterations : Z)
    (self self' : State) (updated_parameters : Params) :
  find_maximum_likelihood_parameters get_detector_response frequency_domain_strain
    differential_evolution log_likelihood_ratio parameter_bounds iterations self
  = Ok (self', updated_parameters) ->
  NoDup (map Interferometer.name (interferometers self)) ->
  BinSet self' = BinSet self /\
  (exists (polarizations : Polarizations) (summary : gmap string SummaryData),
     frequency_domain_strain (waveform_generator self)
       (<["fiducial" := 1]> updated_parameters) = Some polarizations /\
     fiducial_polarizations self' = Some polarizations /\
     summary_data self' = Some summary /\
     forall interferometer, interferometer ∈ interferometers self' ->
       per_detector_fiducial_waveforms self' !! Interferometer.name interferometer
       = Some (get_detector_response interferometer polarizations
                 (<["fiducial" := 1]> updated_parameters) None) /\
       exists entry,
         summary !! Interferometer.name interferometer = Some entry /\
         summary_of_waveform self' interferometer
           (get_detector_response interferometer polarizations
              (<["fiducial" := 1]> updated_parameters) None) entry) /\
  (forall i before previous after updated,
     optimization_round get_detector_response frequency_domain_strain
       differential_evolution log_likelihood_ratio parameter_bounds i
       (before, previous) = Ok (after, updated) ->
     NoDup (map Interferometer.name (interferometers before)) ->
     BinSet after = BinSet before /\
     exists (keys : list string) (written : Params) (polarizations : Polarizations)
            (summary : gmap string SummaryData),
       parameters_to_be_updated before = Some keys /\
       written
       = <["fiducial" := 0]>
           (parameter_dictionary keys (fiducial_parameters before)
              (x (differential_evolution
                    (fun parameter_list =>
                       - log_likelihood_ratio
                           (set_parameters
                              (parameter_dictionary keys (fiducial_parameters before)
                                 parameter_list) before))
                    parameter_bounds))) /\
       updated = Some written /\
       frequency_domain_strain (waveform_generator before)
         (<["fiducial" := 1]> written) = Some polarizations /\
       fiducial_polarizations after = Some polarizations /\
       summary_data after = Some summary /\
       forall interferometer, interferometer ∈ interferometers after ->
         per_detector_fiducial_waveforms after !! Interferometer.name interferometer
         = Some (get_detector_response interferometer polarizations
                   (<["fiducial" := 1]> written) None) /\
         exists entry,
           summary !! Interferometer.name interferometer = Some entry /\
           summary_of_waveform after interferometer
             (get_detector_response interferometer polarizations
                (<["fiducial" := 1]> written) None) entry).
Proof.
  unfold find_maximum_likelihood_parameters. intros H Hnodup.
  apply bind_Ok in H as ([s up] & Hloop & H).
  destruct up as [p|]; [| discriminate]. injection H as <- <-.
  assert (Hrounds : py_range iterations <> []).
  { intros Hnil. rewrite Hnil in Hloop. discriminate Hloop. }
  destruct (optimization_rounds_last _ _ _ _ _ _ _ _ _ _ Hloop Hrounds Hnodup)
    as (k & before & previous & Hlast & B & G & I).
  assert (Hnodup' : NoDup (map Interferometer.name (interferometers before)))
    by (rewrite I; exact Hnodup).
  destruct (optimization_round_rebuilds _ _ _ _ _ _ _ _ _ _ Hlast Hnodup')
    as (B' & _ & _ & keys & written & pol & summary & _ & _ & Hup & Hpol & Hfp
        & Hsd & Hall).
  injection Hup as ->.
  split; [congruence |]. split.
  - exists pol, summary. rewrite <- G. auto.
  - intros i before0 previous0 after updated Hround Hnd.
    destruct (optimization_round_rebuilds _ _ _ _ _ _ _ _ _ _ Hround Hnd)
      as (B0 & _ & _ & Hrest).
    split; [exact B0 | exact Hrest].
Qed.

Lemma fiducial_update_keeps_bins_witness :
  BinSet Tuned.refreshed = BinSet Tuned.searchable /\
  per_detector_fiducial_waveforms Tuned.refreshed !! "H1"
  <> per_detector_fiducial_waveforms Tuned.searchable !! "H1" /\
  exists polarizations summary entry,
    Example.strain_model (waveform_generator Tuned.searchable)
      (<["fiducial" := 1]> Tuned.found) = Some polarizations /\
    per_detector_fiducial_waveforms Tuned.refreshed !! "H1"
    = Some (Tuned.response Example.H1 polarizations
              (<["fiducial" := 1]> Tuned.found) None) /\
    summary_data Tuned.refreshed = Some summary /\
    summary !! "H1" = Some entry /\
    summary_of_waveform Tuned.refreshed Example.H1
      (Tuned.response Example.H1 polarizations
         (<["fiducial" := 1]> Tuned.found) None) entry.
Proof.
  destruct (fiducial_update_keeps_bins Tuned.response Example.strain_model
              Tuned.optimizer Example.likelihood_ratio [[1; 3]] 1
              Tuned.searchable Tuned.refreshed Tuned.found tuned_search
              example_NoDup)
    as (B & (polarizations & summary & Hpol & _ & Hsd & Hall) & _).
  destruct (Hall Example.H1 (list_elem_of_here _ _)) as (Hwave & entry & Hentry & Hof).
  split; [exact B |].
  split.
  - change (Some [RtoC 2; RtoC 2] <> Some [Cone; Cone]).
    intros Heq. injection Heq as Heq _. lra.
  - exists polarizations, summary, entry. auto.
Defined.

(* ===================================================================== *)
(** * The fiducial waveform points after a search                         *)
(* ===================================================================== *)

Lemma tuned_found_amplitude : Tuned.amplitude Tuned.found = RtoC 2.
Proof.
  unfold Tuned.amplitude, Tuned.found.
  rewrite !lookup_insert_ne by discriminate.
  destruct (parameter_dictionary_lookup ["amplitude"] Example.written [2]) as [_ Hin].
  rewrite (Hin (NoDup_singleton _) 0%nat "amplitude" eq_refl). reflexivity.
Qed.

Lemma Cdiv_two_one : Cdiv (RtoC 2) Cone = RtoC 2.
Proof. apply C_eq; simpl; field. Qed.

Lemma Cmean_two : Cdiv (Cplus (RtoC 2) (RtoC 2)) (RtoC 2) = RtoC 2.
Proof. apply C_eq; simpl; field. Qed.

(** C2, on the code.  The divisor of the waveform ratio is the array
    [per_detector_fiducial_waveform_points], which only [setup_bins] writes
    (lines 189-191): the search replaces the fiducial waveforms and leaves
    it.  The constructor of the example with the search ends in a state whose
    fiducial waveform is 2 at both edges and whose points are still 1; for
    the candidate equal to the fiducial parameters, whose response at the
    edges is the fiducial waveform sampled at the edges, the ratio that the
    code returns is r0 = 2, where the quotient by the fiducial waveform
    sampled at the edges is 1. *)
Theorem waveform_ratio_divides_by_stale_points :
  exists (h0 sampled points : list C) (inds : list nat) (r0 r1 : list C),
    init Tuned.response Example.strain_model Tuned.optimizer
      Example.likelihood_ratio Tuned.base None None true 1 20 = Ok Tuned.built /\
    per_detector_fiducial_waveforms Tuned.built !! "H1" = Some h0 /\
    bin_inds Tuned.built !! "H1" = Some inds /\
    take_indices h0 inds = Ok sampled /\
    sampled = [RtoC 2; RtoC 2] /\
    per_detector_fiducial_waveform_points Tuned.built !! "H1" = Some points /\
    points = [Cone; Cone] /\
    bin_freqs Tuned.built !! "H1" = Some [1; 8] /\
    Tuned.response Example.H1 Example.polarizations
      (fiducial_parameters Tuned.built) (Some [1; 8]) = sampled /\
    compute_waveform_ratio_per_interferometer Tuned.response
      (set_parameters (fiducial_parameters Tuned.built) Tuned.built)
      Example.polarizations Example.H1 = Ok (r0, r1) /\
    r0 = [RtoC 2] /\ r0 <> [Cone].
Proof.
  assert (Hresp : Tuned.response Example.H1 Example.polarizations
                    (fiducial_parameters Tuned.built) (Some [1; 8])
                  = [RtoC 2; RtoC 2]).
  { change (fiducial_parameters Tuned.built) with Tuned.found.
    unfold Tuned.response. cbn [map]. rewrite tuned_found_amplitude. reflexivity. }
  exists [RtoC 2; RtoC 2], [RtoC 2; RtoC 2], [Cone; Cone], [0%nat; 1%nat].
  eexists _, _.
  split; [exact tuned_init |].
  do 7 (split; [reflexivity |]).
  split; [exact Hresp |].
  split.
  - apply (waveform_ratio_arrays Tuned.response
             (set_parameters (fiducial_parameters Tuned.built) Tuned.built)
             Example.polarizations Example.H1 [1; 8] (widths_of [1; 8])
             [RtoC 2; RtoC 2] [Cone; Cone] 1); try reflexivity; exact Hresp.
  - assert (Hr0 : map (fun z => Cdiv z (RtoC 2))
                    (zip_with Cplus
                       (from1 (zip_with Cdiv [RtoC 2; RtoC 2] [Cone; Cone]))
                       (upto_last (zip_with Cdiv [RtoC 2; RtoC 2] [Cone; Cone])))
                  = [RtoC 2]).
    { cbn [zip_with from1 upto_last drop take length Nat.sub map].
      rewrite Cdiv_two_one, Cmean_two. reflexivity. }
    split; [exact Hr0 |]. rewrite Hr0.
    intros Heq. injection Heq as Heq. lra.
Qed.

(* ===================================================================== *)
(** * A candidate equal to the fiducial waveform, continued               *)
(* ===================================================================== *)



(* ===================================================================== *)
(** * The scalar bin count in the reconstruction loop                     *)
(* ===================================================================== *)

(** A loop whose body can fail only with [e], and does so at some element
    whatever the state, fails with [e]. *)
Lemma for_loop_raises {A S} (xs : list A) (body : A -> S -> result S) (e : exn)
    (x0 : A) :
  (forall x s, (exists s', body x s = Ok s') \/ body x s = Raise e) ->
  x0 ∈ xs -> (forall s, body x0 s = Raise e) ->
  forall s, for_loop xs body s = Raise e.
Proof.
  intros Hcases Hin Hfail. induction xs as [|y xs IH]; intros s; [inversion Hin |].
  simpl. destruct (Hcases y s) as [[s' Hs'] | Hy].
  - rewrite Hs', Ok_bind. apply elem_of_cons in Hin as [<- | Hin].
    + rewrite Hfail in Hs'. discriminate.
    + apply IH, Hin.
  - rewrite Hy. reflexivity.
Qed.

(** One pass of the loop of lines 344-348 for a detector that has bin
    centres: it writes, or an index is out of range. *)
Lemma duplicate_bin_cases (ind : list nat) (centers : gmap string (list R))
    (name : string) (r0 r1 : list C) (fm : list R) (i : nat)
    (arrays : list C * list C * list C) :
  centers !! name = Some fm ->
  (exists arrays', duplicate_bin ind centers name r0 r1 i arrays = Ok arrays') \/
  duplicate_bin ind centers name r0 r1 i arrays = Raise IndexError.
Proof.
  intros Hfm. unfold duplicate_bin. destruct arrays as [[d0 d1] dm].
  rewrite (proj2 (dict_get_Ok _ _ _) Hfm), Ok_bind.
  unfold getitem.
  destruct (fm !! i); [| right; reflexivity]. rewrite Ok_bind.
  destruct (ind !! i); [| right; reflexivity]. rewrite Ok_bind.
  destruct (ind !! (i + 1)%nat); [| right; reflexivity]. rewrite Ok_bind.
  destruct (r0 !! i); [| right; reflexivity]. rewrite Ok_bind.
  destruct (r1 !! i); [| right; reflexivity]. rewrite Ok_bind.
  left. eauto.
Qed.

Lemma duplicate_bin_beyond (ind : list nat) (centers : gmap string (list R))
    (name : string) (r0 r1 : list C) (fm : list R) (i : nat)
    (arrays : list C * list C * list C) :
  centers !! name = Some fm -> (length fm <= i)%nat ->
  duplicate_bin ind centers name r0 r1 i arrays = Raise IndexError.
Proof.
  intros Hfm Hlen. unfold duplicate_bin. destruct arrays as [[d0 d1] dm].
  rewrite (proj2 (dict_get_Ok _ _ _) Hfm), Ok_bind.
  unfold getitem. rewrite (lookup_ge_None_2 fm i Hlen). reflexivity.
Qed.

(** The reconstruction loop runs over [number_of_bins] bins: for a detector
    with fewer bin centres it raises [IndexError]. *)
Lemma _compute_full_waveform_too_few_bins
    (get_detector_response :
       Interferometer.t -> Polarizations -> Params -> option (list R) -> list C)
    (s : State) (pols : Polarizations) (ifo : Interferometer.t)
    (h0 r0 r1 : list C) (ind : list nat) (fm : list R) (N : Z) :
  per_detector_fiducial_waveforms s !! Interferometer.name ifo = Some h0 ->
  compute_waveform_ratio_per_interferometer get_detector_response s pols ifo
  = Ok (r0, r1) ->
  bin_inds s !! Interferometer.name ifo = Some ind ->
  bin_centers s !! Interferometer.name ifo = Some fm ->
  number_of_bins s = Some N ->
  (length fm < Z.to_nat N)%nat ->
  _compute_full_waveform get_detector_response s pols ifo = Raise IndexError.
Proof.
  intros Hh0 Hratio Hind Hfm HN Hlt. unfold _compute_full_waveform.
  rewrite (proj2 (dict_get_Ok _ _ _) Hh0), Ok_bind, Hratio, Ok_bind.
  rewrite (proj2 (dict_get_Ok _ _ _) Hind), Ok_bind.
  rewrite HN. simpl getattr. rewrite Ok_bind.
  apply bind_Raise.
  apply (for_loop_raises _ _ IndexError (length fm)).
  - intros i arrays. eapply duplicate_bin_cases. exact Hfm.
  - unfold py_range. apply list_elem_of_In, in_seq. lia.
  - intros arrays. eapply duplicate_bin_beyond; [exact Hfm | lia].
Qed.

(** The reconstruction loop runs over [number_of_bins] bins: from the edge
    index at position [number_of_bins] on, what it returns is zero. *)
Lemma _compute_full_waveform_beyond_count
    (get_detector_response :
       Interferometer.t -> Polarizations -> Params -> option (list R) -> list C)
    (s : State) (pols : Polarizations) (ifo : Interferometer.t)
    (full h0 : list C) (ind : list nat) (N : Z) (lo k : nat) :
  _compute_full_waveform get_detector_response s pols ifo = Ok full ->
  per_detector_fiducial_waveforms s !! Interferometer.name ifo = Some h0 ->
  bin_inds s !! Interferometer.name ifo = Some ind ->
  number_of_bins s = Some N ->
  length h0 = length (Interferometer.frequency_array ifo) ->
  nondecreasing_nat ind ->
  ind !! Z.to_nat N = Some lo ->
  (lo <= k < length (Interferometer.frequency_array ifo))%nat ->
  full !! k = Some Czero.
Proof.
  unfold _compute_full_waveform.
  intros H Hh0 Hind HN Hlen Hmono Hlo Hk.
  rewrite (proj2 (dict_get_Ok _ _ _) Hh0), Ok_bind in H.
  apply bind_Ok in H as ([r0 r1] & _ & H).
  rewrite (proj2 (dict_get_Ok _ _ _) Hind), Ok_bind in H.
  rewrite HN in H. simpl getattr in H. rewrite Ok_bind in H.
  apply bind_Ok in H as ([[out0 out1] outm] & Hloop & H).
  unfold py_range in Hloop.
  apply duplicate_bins_loop in Hloop as (L0 & L1 & Lm & Hinv).
  set (fa := Interferometer.frequency_array ifo) in *.
  assert (Lratio : length (zip_with Cplus out0
            (zip_with Cmult out1
               (zip_with (fun x m => Cminus (RtoC x) m) fa outm))) = length fa).
  { rewrite !length_zip_with. lia. }
  rewrite broadcast2_same in H by lia. injection H as <-.
  destruct (Hinv k ltac:(lia)) as [_ Hfree].
  destruct Hfree as (E0 & E1 & Em).
  { intros i lo' hi' Hi Hlo' Hhi' Hin.
    assert (hi' <= lo)%nat
      by (apply (Hmono (i + 1)%nat (Z.to_nat N) hi' lo); [lia | assumption..]).
    lia. }
  destruct (lookup_lt_is_Some_2 h0 k ltac:(lia)) as [h Hh].
  destruct (lookup_lt_is_Some_2 fa k ltac:(lia)) as [f Hf].
  rewrite !lookup_zip_with, Hh, E0, E1, Hf, Em. simpl. f_equal.
  apply C_eq; simpl; ring.
Qed.

(** C10.  [number_of_bins] is one scalar, which each pass of the loop of
    [setup_bins] overwrites: after [setup_bins] it is the bin count [N] of the
    last detector of the list, whatever the own count [N_own] of a detector.
    [compute_summary_data], when it returns, has given every detector summary
    arrays of length [N], which is the length of the detector's own bin widths
    exactly when [N_own = N].  The reconstruction loop of
    [_compute_full_waveform] runs over [N] bins of every detector (whatever
    the summary data are): for a detector with fewer bins of its own it
    raises [IndexError], so the call can only return when [N <= N_own], and
    then, for edge indices that never decrease and a fiducial waveform as long
    as the grid, what it returns is zero from the edge index at position [N]
    on, that is, on the detector's own bins beyond the first [N]. *)
Theorem number_of_bins_is_the_last_detectors (self self1 : State)
    (earlier : list Interferometer.t) (last_interferometer : Interferometer.t) :
  setup_bins self = Ok self1 ->
  interferometers self = earlier ++ [last_interferometer] ->
  NoDup (map Interferometer.name (interferometers self)) ->
  exists N : Z,
    (exists freqs inds,
       setup_bins_plan (WaveformGenerator.frequency_array (waveform_generator self))
         (chi self) (epsilon self) last_interferometer = Ok (N, (freqs, inds))) /\
    number_of_bins self1 = Some N /\
    forall interferometer, interferometer ∈ interferometers self ->
      exists (N_own : Z) (freqs : list R) (inds : list nat) (h0 : list C),
        setup_bins_plan (WaveformGenerator.frequency_array (waveform_generator self))
          (chi self) (epsilon self) interferometer = Ok (N_own, (freqs, inds)) /\
        bin_freqs self1 !! Interferometer.name interferometer = Some freqs /\
        bin_inds self1 !! Interferometer.name interferometer = Some inds /\
        bin_widths self1 !! Interferometer.name interferometer
        = Some (widths_of freqs) /\
        length (widths_of freqs) = Z.to_nat N_own /\
        per_detector_fiducial_waveforms self1 !! Interferometer.name interferometer
        = Some h0 /\
        (forall self2, compute_summary_data self1 = Ok self2 ->
           number_of_bins self2 = Some N /\
           exists (summary : gmap string SummaryData) (a0 a1 b0 b1 : list C),
             summary_data self2 = Some summary /\
             summary !! Interferometer.name interferometer = Some (a0, a1, b0, b1) /\
             length a0 = Z.to_nat N /\ length a1 = Z.to_nat N /\
             length b0 = Z.to_nat N /\ length b1 = Z.to_nat N /\
             (length a0 = length (widths_of freqs) <-> N_own = N)) /\
        (forall (get_detector_response :
                   Interferometer.t -> Polarizations -> Params -> option (list R)
                   -> list C)
                signal_polarizations summary r0 r1,
           compute_waveform_ratio_per_interferometer get_detector_response
             (set_summary_data summary self1) signal_polarizations interferometer
           = Ok (r0, r1) ->
           ((N_own < N)%Z ->
            _compute_full_waveform get_detector_response
              (set_summary_data summary self1) signal_polarizations interferometer
            = Raise IndexError) /\
           (forall full_waveform,
              _compute_full_waveform get_detector_response
                (set_summary_data summary self1) signal_polarizations interferometer
              = Ok full_waveform ->
              (N <= N_own)%Z /\
              (nondecreasing_nat inds ->
               length h0 = length (Interferometer.frequency_array interferometer) ->
               forall lo k, inds !! Z.to_nat N = Some lo ->
                 (lo <= k < length (Interferometer.frequency_array interferometer))%nat ->
                 full_waveform !! k = Some Czero))).
Proof.
  intros Hsetup Hifos Hnodup.
  pose proof Hsetup as Hsetup'. unfold setup_bins in Hsetup'.
  set (fa := WaveformGenerator.frequency_array (waveform_generator self)) in *.
  pose proof (setup_bins_loop_frame _ _ _ _ Hsetup') as (_ & _ & Hwave & Hsame & _).
  pose proof Hsetup' as Hlast. rewrite Hifos in Hlast.
  apply setup_bins_loop_last in Hlast as (N & bfl & bil & Hplanl & HN).
  pose proof Hplanl as Hplanl'.
  apply setup_bins_plan_Ok in Hplanl'
    as (? & ? & ? & _ & _ & _ & _ & _ & HNcases & _).
  exists N. split; [eauto |]. split; [exact HN |].
  intros ifo Hin.
  destruct (setup_bins_loop_detector fa _ _ _ ifo Hsetup' Hnodup Hin)
    as (N_own & bf & bi & h0 & pts & Hplan & Hh0 & _ & Hbf & Hbi & Hbw & Hbc & _).
  pose proof Hplan as Hplan'.
  apply setup_bins_plan_Ok in Hplan'
    as (? & ? & ? & _ & _ & _ & _ & _ & Hcases & Hlbf & Hlbi & _).
  assert (Hlw : length (widths_of bf) = Z.to_nat N_own)
    by (rewrite length_widths_of, Hlbf; lia).
  assert (Hlc : length (centers_of bf) = Z.to_nat N_own)
    by (rewrite length_centers_of, Hlbf; lia).
  rewrite <- Hwave in Hh0.
  exists N_own, bf, bi, h0.
  split; [exact Hplan |]. split; [exact Hbf |]. split; [exact Hbi |].
  split; [exact Hbw |]. split; [exact Hlw |]. split; [exact Hh0 |].
  split.
  - intros self2 Hsummary.
    pose proof Hsummary as Hsummary'. unfold compute_summary_data in Hsummary'.
    apply bind_Ok in Hsummary' as (sd & Hloop & Hself2). injection Hself2 as <-.
    rewrite Hsame in Hloop.
    destruct (compute_summary_data_loop_detector _ _ _ _ _ Hloop Hnodup Hin)
      as (sd0 & sd1 & Hstep & Hsd).
    apply compute_summary_data_interferometer_Ok in Hstep
      as (? & ? & ? & N' & a0 & a1 & b0 & b1 & Hstep).
    cbv zeta in Hstep.
    destruct Hstep as (_ & _ & _ & _ & _ & _ & _ & HN' & HN0 & E0 & E1 & E2 & E3
                       & _ & ->).
    rewrite HN in HN'. injection HN' as <-.
    split; [exact HN |].
    exists sd, a0, a1, b0, b1.
    split; [reflexivity |].
    split; [rewrite Hsd; apply lookup_insert_eq |].
    do 4 (split; [assumption |]).
    rewrite E0, Hlw. lia.
  - intros gdr pols summary r0 r1 Hratio.
    assert (Hfew : (N_own < N)%Z ->
              _compute_full_waveform gdr (set_summary_data summary self1) pols ifo
              = Raise IndexError).
    { intros Hlt.
      apply (_compute_full_waveform_too_few_bins gdr
               (set_summary_data summary self1) pols ifo h0 r0 r1 bi
               (centers_of bf) N); try assumption.
      rewrite Hlc. lia. }
    split; [exact Hfew |].
    intros full Hfull. split.
    + destruct (Z_lt_le_dec N_own N) as [Hlt|Hle]; [| exact Hle].
      rewrite (Hfew Hlt) in Hfull. discriminate.
    + intros Hmono Hlen lo k Hlo Hk.
      apply (_compute_full_waveform_beyond_count gdr
               (set_summary_data summary self1) pols ifo full h0 bi N lo k);
        assumption.
Qed.

(* ===================================================================== *)
(** * Two detectors with different bin counts, evaluated                  *)
(* ===================================================================== *)

Lemma np_power_eighth (g : R) : np_power (/ 8) g = np_power 8 (- g).
Proof.
  unfold np_power, Rpower. rewrite ln_Rinv by lra. f_equal. ring.
Qed.

Lemma np_power_eighth_values :
  np_power (/ 8) (- 5 / 3) = 32 /\ np_power (/ 8) (- 2 / 3) = 4.
Proof.
  destruct np_power_eight_values as (_ & _ & _ & P4 & _).
  split; rewrite np_power_eighth.
  - replace (- (- 5 / 3)) with (5 / 3) by lra. exact P4.
  - replace (- (- 2 / 3)) with (2 / 3) by lra.
    rewrite np_power_eight. replace 2 with (INR 2) at 2 by (simpl; lra).
    rewrite Rpower_two_nat. simpl. lra.
Qed.

(** The phase curve of [V1] over the grid [1; 8]. *)
Lemma network_d_phi_from_start (chi0 : R) :
  d_phi_from_start (d_phi (d_alpha chi0 Network.V1) [1; 8])
  = Ok [0; Network.total chi0].
Proof.
  destruct np_power_eight_values as (P1 & P2 & P3 & P4 & P5).
  destruct np_power_eighth_values as (Q1 & Q2).
  destruct (sign_and_steps (- 5 / 3)) as [[S1 [U1 V1]] _]; [lra |].
  destruct (sign_and_steps (- 2 / 3)) as [[S2 [U2 V2]] _]; [lra |].
  destruct (sign_and_steps 1) as [_ [S3 [U3 V3]]]; [lra |].
  destruct (sign_and_steps (5 / 3)) as [_ [S4 [U4 V4]]]; [lra |].
  destruct (sign_and_steps (7 / 3)) as [_ [S5 [U5 V5]]]; [lra |].
  apply d_phi_from_start_Ok.
  unfold d_phi, d_alpha, gamma, Network.V1, Network.total.
  cbn [map zip_with Rsum foldr Interferometer.minimum_frequency
       Interferometer.maximum_frequency lookup list_lookup].
  rewrite ?np_power_one, ?Q1, ?Q2, ?P1, ?P2, ?P3, ?P4, ?P5.
  rewrite ?S1, ?S2, ?S3, ?S4, ?S5, ?U1, ?U2, ?U3, ?U4, ?U5, ?V1, ?V2, ?V3, ?V4, ?V5.
  replace (32 * 1 - / 32 * 0) with 32 by lra.
  replace (4 * 1 - / 4 * 0) with 4 by lra.
  replace (np_power (/ 8) 1 * 0 - 8 * 1) with (- 8) by lra.
  replace (np_power (/ 8) (5 / 3) * 0 - 32 * 1) with (- 32) by lra.
  replace (np_power (/ 8) (7 / 3) * 0 - 128 * 1) with (- 128) by lra.
  assert (A4 : Rabs 4 = 4) by (apply Rabs_pos_eq; lra).
  assert (A32p : Rabs 32 = 32) by (apply Rabs_pos_eq; lra).
  assert (A8 : Rabs (-8) = 8) by (rewrite Rabs_left by lra; lra).
  assert (A32 : Rabs (-32) = 32) by (rewrite Rabs_left by lra; lra).
  assert (A128 : Rabs (-128) = 128) by (rewrite Rabs_left by lra; lra).
  rewrite A4, A32p, A8, A32, A128.
  eexists. split; [reflexivity |].
  f_equal; [lra |]. f_equal. lra.
Qed.

Lemma network_useful : frequency_array_useful [1; 8] Network.V1 = Ok [1; 8].
Proof.
  rewrite frequency_array_useful_filter. f_equal.
  rewrite filter_cons_True by (simpl; lra).
  rewrite filter_cons_True by (simpl; lra). reflexivity.
Qed.

(** One bin for [V1]: [chi = 1], [epsilon = 13]. *)
Lemma network_plan_V1 :
  setup_bins_plan [1; 8] 1 13 Network.V1 = Ok (1%Z, ([1; 8], [0%nat; 1%nat])).
Proof.
  pose proof PI_bounds as Hpi.
  unfold setup_bins_plan.
  rewrite network_useful, Ok_bind, network_d_phi_from_start, Ok_bind.
  change (getitem_last [0; Network.total 1]) with (Ok (Network.total 1)).
  rewrite Ok_bind.
  assert (HN : int_floor_divide (Network.total 1) 13 = Ok 1%Z).
  { apply int_floor_divide_Ok. split; [lra |]. symmetry. apply Zfloor_eq.
    unfold Network.total. simpl. lra. }
  rewrite HN, Ok_bind.
  change (np_zeros 0 (1 + 1)%Z) with (Ok [0; 0]). rewrite Ok_bind.
  change (np_zeros 0%nat (1 + 1)%Z) with (Ok [0%nat; 0%nat]). rewrite Ok_bind.
  change (py_range (1 + 1)) with [0%nat; 1%nat].
  cbn [for_loop].
  rewrite (setup_bins_edge_eval [1; 8] [1; 8] [0; Network.total 1] 1 0
             [0; 0] [0%nat; 0%nat] (Network.total 1) 0 1 0);
    [| lia | simpl; lia | simpl; lia | reflexivity | | reflexivity
     | exact example_grid_index_low ].
  2:{ replace (INR 0 / 1 * Network.total 1) with 0 by (simpl; lra).
      apply example_curve_start. unfold Network.total. lra. }
  rewrite Ok_bind.
  rewrite (setup_bins_edge_eval [1; 8] [1; 8] [0; Network.total 1] 1 1
             _ _ (Network.total 1) 1 8 1);
    [| lia | simpl; lia | simpl; lia | reflexivity | | reflexivity
     | exact example_grid_index_high ].
  2:{ apply example_curve_later. unfold Network.total. simpl. lra. }
  reflexivity.
Qed.

Lemma network_NoDup_H1_last : NoDup (map Interferometer.name [Network.V1; Example.H1]).
Proof.
  apply NoDup_cons. split; [| apply NoDup_singleton].
  intros Hin. apply elem_of_cons in Hin as [Hin | Hin]; [discriminate | inversion Hin].
Qed.

Lemma network_NoDup_V1_last : NoDup (map Interferometer.name [Example.H1; Network.V1]).
Proof.
  apply NoDup_cons. split; [| apply NoDup_singleton].
  intros Hin. apply elem_of_cons in Hin as [Hin | Hin]; [discriminate | inversion Hin].
Qed.

(** [setup_bins] on the two detectors, in either order. *)
Lemma network_setup_bins_H1_last :
  setup_bins (Network.projected [Network.V1; Example.H1]) = Ok Network.H1_last.
Proof.
  unfold setup_bins.
  change (interferometers (Network.projected [Network.V1; Example.H1]))
    with [Network.V1; Example.H1].
  change (WaveformGenerator.frequency_array
            (waveform_generator (Network.projected [Network.V1; Example.H1])))
    with [1; 8].
  cbn [for_loop].
  rewrite (proj2 (setup_bins_interferometer_Ok [1; 8] Network.V1
                    (Network.projected [Network.V1; Example.H1])
                    (Network.store_V1 (Network.projected [Network.V1; Example.H1])))).
  2:{ exists 1%Z, [1; 8], [0%nat; 1%nat], [Cone; Cone], [Cone; Cone].
      split; [exact network_plan_V1 |]. repeat split; reflexivity. }
  rewrite Ok_bind.
  rewrite (proj2 (setup_bins_interferometer_Ok [1; 8] Example.H1
                    (Network.store_V1 (Network.projected [Network.V1; Example.H1]))
                    Network.H1_last)); [reflexivity |].
  exists 2%Z, [1; 8; 8], [0%nat; 1%nat; 1%nat], [Cone; Cone], [Cone; Cone; Cone].
  split; [exact example_plan_two_bins |]. repeat split; reflexivity.
Qed.

Lemma network_setup_bins_V1_last :
  setup_bins (Network.projected [Example.H1; Network.V1]) = Ok Network.V1_last.
Proof.
  unfold setup_bins.
  change (interferometers (Network.projected [Example.H1; Network.V1]))
    with [Example.H1; Network.V1].
  change (WaveformGenerator.frequency_array
            (waveform_generator (Network.projected [Example.H1; Network.V1])))
    with [1; 8].
  cbn [for_loop].
  rewrite (proj2 (setup_bins_interferometer_Ok [1; 8] Example.H1
                    (Network.projected [Example.H1; Network.V1])
                    (Network.store_H1 (Network.projected [Example.H1; Network.V1])))).
  2:{ exists 2%Z, [1; 8; 8], [0%nat; 1%nat; 1%nat], [Cone; Cone], [Cone; Cone; Cone].
      split; [exact example_plan_two_bins |]. repeat split; reflexivity. }
  rewrite Ok_bind.
  rewrite (proj2 (setup_bins_interferometer_Ok [1; 8] Network.V1
                    (Network.store_H1 (Network.projected [Example.H1; Network.V1]))
                    Network.V1_last)); [reflexivity |].
  exists 1%Z, [1; 8], [0%nat; 1%nat], [Cone; Cone], [Cone; Cone].
  split; [exact network_plan_V1 |]. repeat split; reflexivity.
Qed.

(** The waveform ratio of [V1] when [H1] is last. *)
Lemma network_ratio_V1 :
  compute_waveform_ratio_per_interferometer Example.response
    (set_summary_data None Network.H1_last) Example.polarizations Network.V1
  = Ok (map (fun z => Cdiv z (RtoC 2))
          (zip_with Cplus (from1 (zip_with Cdiv [Cone; Cone] [Cone; Cone]))
             (upto_last (zip_with Cdiv [Cone; Cone] [Cone; Cone]))),
        zip_with (fun z w => Cdiv z (RtoC w))
          (zip_with Cminus (from1 (zip_with Cdiv [Cone; Cone] [Cone; Cone]))
             (upto_last (zip_with Cdiv [Cone; Cone] [Cone; Cone])))
          (widths_of [1; 8])).
Proof.
  apply (waveform_ratio_arrays Example.response
           (set_summary_data None Network.H1_last) Example.polarizations
           Network.V1 [1; 8] (widths_of [1; 8]) [Cone; Cone] [Cone; Cone] 1);
    reflexivity.
Qed.

Lemma number_of_bins_is_the_last_detectors_witness :
  (number_of_bins Network.H1_last = Some 2%Z /\
   bin_widths Network.H1_last !! "V1" = Some (widths_of [1; 8]) /\
   _compute_full_waveform Example.response (set_summary_data None Network.H1_last)
     Example.polarizations Network.V1 = Raise IndexError) /\
  (number_of_bins Network.V1_last = Some 1%Z /\
   bin_widths Network.V1_last !! "H1" = Some (widths_of [1; 8; 8])).
Proof.
  split.
  - destruct (number_of_bins_is_the_last_detectors
                (Network.projected [Network.V1; Example.H1]) Network.H1_last
                [Network.V1] Example.H1 network_setup_bins_H1_last eq_refl
                network_NoDup_H1_last)
      as (N & (freqs & inds & Hplan) & HN & Hall).
    change (setup_bins_plan [1; 8] 1 13 Example.H1 = Ok (N, (freqs, inds))) in Hplan.
    rewrite example_plan_two_bins in Hplan. injection Hplan as <- _ _.
    destruct (Hall Network.V1 (list_elem_of_here _ _))
      as (N_own & bf & bi & h0 & Hown & _ & _ & Hbw & _ & _ & _ & Hfull).
    change (setup_bins_plan [1; 8] 1 13 Network.V1 = Ok (N_own, (bf, bi))) in Hown.
    rewrite network_plan_V1 in Hown. injection Hown as <- <- _.
    split; [exact HN |]. split; [exact Hbw |].
    destruct (Hfull Example.response Example.polarizations None _ _ network_ratio_V1)
      as [Hfew _].
    apply Hfew. lia.
  - destruct (number_of_bins_is_the_last_detectors
                (Network.projected [Example.H1; Network.V1]) Network.V1_last
                [Example.H1] Network.V1 network_setup_bins_V1_last eq_refl
                network_NoDup_V1_last)
      as (N & (freqs & inds & Hplan) & HN & Hall).
    change (setup_bins_plan [1; 8] 1 13 Network.V1 = Ok (N, (freqs, inds))) in Hplan.
    rewrite network_plan_V1 in Hplan. injection Hplan as <- _ _.
    destruct (Hall Example.H1 (list_elem_of_here _ _))
      as (N_own & bf & bi & h0 & Hown & _ & _ & Hbw & _).
    change (setup_bins_plan [1; 8] 1 13 Example.H1 = Ok (N_own, (bf, bi))) in Hown.
    rewrite example_plan_two_bins in Hown. injection Hown as _ <- _.
    split; [exact HN | exact Hbw].
Defined.
